(** * webquiz backend: the dedupe / fingerprint core

    A shallow embedding of [backend/services.py], [backend/clean.py] and the
    routes of [backend/routes.py] that work on the tables and the questions
    file (questions, submit, results, deletes), with the properties of the
    quiz and result deduplication logic.

    Conventions of the embedding:
    - a Python [str] is a [string] whose characters are the code points
      0..255 (the Latin-1 range); [str.strip], [str.lower], [repr] and the
      UTF-8 encoder are written out for that range;
    - a JSON-like Python value is a [json] tree; floating point numbers are
      left out of the model, dictionaries keep their insertion order;
    - a naive UTC [datetime] is a number of microseconds ([Z]); a
      [timedelta(seconds=w)] is [w * 1000000];
    - a table is the list of its rows in insertion order, primary keys are
      handed out as (largest id) + 1;
    - code that can raise returns a [result];
    - a response body is rendered by the web framework, which refuses a
      body with a text that has no UTF-8 encoding (a lone surrogate) or a
      number that is NaN or infinite; such values are not values of
      [json], so the renderer is taken as given like [json.loads], and a
      handler that answers with submitted or stored results goes through
      it. *)

From Stdlib Require Import ZArith NArith List String Ascii Bool Lia Permutation.
From Stdlib.Strings Require Import Byte.
From stdpp Require Import base tactics list strings pretty gmap sorting.

Import ListNotations.
Local Open Scope Z_scope.
Local Open Scope string_scope.
Local Open Scope list_scope.

(** ** Python strings (code points 0..255) *)

Module PyStr.

Definition DQ : ascii := "034"%char.
Definition SQ : ascii := "039"%char.
Definition BSL : ascii := "092"%char.

Definition code (c : ascii) : N := N_of_ascii c.

(** [str.isspace] on one character. *)
Definition is_space (c : ascii) : bool :=
  let n := code c in
  ((9 <=? n) && (n <=? 13) || (28 <=? n) && (n <=? 32)
   || (n =? 133) || (n =? 160))%N.

Fixpoint lstrip (s : string) : string :=
  match s with
  | EmptyString => EmptyString
  | String c s' => if is_space c then lstrip s' else s
  end.

(** Drops trailing white space: the result is empty exactly when
    everything from here on is white space. *)
Fixpoint rstrip (s : string) : string :=
  match s with
  | EmptyString => EmptyString
  | String c s' =>
      match rstrip s' with
      | EmptyString => if is_space c then EmptyString else String c EmptyString
      | r => String c r
      end
  end.

Definition strip (s : string) : string := rstrip (lstrip s).

(** [str.lower] on one character: A-Z and the upper case letters of
    Latin-1 (all of 0xC0..0xDE but the multiplication sign 0xD7). *)
Definition lower_char (c : ascii) : ascii :=
  let n := code c in
  if ((65 <=? n) && (n <=? 90)
      || (192 <=? n) && (n <=? 222) && negb (n =? 215))%N
  then ascii_of_N (n + 32) else c.

Fixpoint lower (s : string) : string :=
  match s with
  | EmptyString => EmptyString
  | String c s' => String (lower_char c) (lower s')
  end.

Definition hex_digit (n : N) : ascii :=
  match n with
  | 0 => "0" | 1 => "1" | 2 => "2" | 3 => "3" | 4 => "4" | 5 => "5"
  | 6 => "6" | 7 => "7" | 8 => "8" | 9 => "9" | 10 => "a" | 11 => "b"
  | 12 => "c" | 13 => "d" | 14 => "e" | _ => "f"
  end%N%char.

(** Two lower case hex digits of a character code. *)
Definition hex2 (c : ascii) : string :=
  String (hex_digit (code c / 16)) (String (hex_digit (code c mod 16)) "").

Fixpoint contains (c : ascii) (s : string) : bool :=
  match s with
  | EmptyString => false
  | String d s' => if Ascii.eqb c d then true else contains c s'
  end.

(** [sep.join(parts)] *)
Fixpoint join (sep : string) (parts : list string) : string :=
  match parts with
  | [] => ""
  | [p] => p
  | p :: rest => p +:+ sep +:+ join sep rest
  end.

(** [str.isprintable] on one character of the range. *)
Definition is_printable (c : ascii) : bool :=
  let n := code c in
  negb ((n <? 32) || (127 <=? n) && (n <=? 160) || (n =? 173))%N.

(** [repr] of a [str]: single quotes unless the text has a single quote
    and no double quote. *)
Definition repr_char (q c : ascii) : string :=
  if Ascii.eqb c q || Ascii.eqb c BSL then String BSL (String c "")
  else if Ascii.eqb c "009" then String BSL "t"
  else if Ascii.eqb c "010" then String BSL "n"
  else if Ascii.eqb c "013" then String BSL "r"
  else if is_printable c then String c ""
  else String BSL (String "x" (hex2 c)).

Fixpoint repr_body (q : ascii) (s : string) : string :=
  match s with
  | EmptyString => EmptyString
  | String c s' => repr_char q c +:+ repr_body q s'
  end.

Definition repr (s : string) : string :=
  let q := if contains SQ s && negb (contains DQ s) then DQ else SQ in
  String q (repr_body q s +:+ String q "").

(** [s.encode('utf-8')] *)
Definition utf8_char (c : ascii) : list byte :=
  let n := code c in
  if (n <? 128)%N then [byte_of_ascii c]
  else [byte_of_ascii (ascii_of_N (192 + n / 64));
        byte_of_ascii (ascii_of_N (128 + n mod 64))].

Fixpoint utf8_encode (s : string) : list byte :=
  match s with
  | EmptyString => []
  | String c s' => utf8_char c ++ utf8_encode s'
  end.

End PyStr.

(** ** hashlib.sha256 *)

Module Sha256.
Local Open Scope N_scope.

Definition modulus : N := 4294967296.
Definition add32 (x y : N) : N := (x + y) mod modulus.
Definition rotr (n x : N) : N :=
    N.lor (N.shiftr x n) (N.shiftl x (32 - n) mod modulus).
Definition shr (n x : N) : N := N.shiftr x n.
Definition not32 (x : N) : N := N.lxor x 4294967295.

Definition Ch (x y z : N) : N := N.lxor (N.land x y) (N.land (not32 x) z).
Definition Maj (x y z : N) : N :=
    N.lxor (N.lxor (N.land x y) (N.land x z)) (N.land y z).
Definition bsig0 (x : N) := N.lxor (N.lxor (rotr 2 x) (rotr 13 x)) (rotr 22 x).
Definition bsig1 (x : N) := N.lxor (N.lxor (rotr 6 x) (rotr 11 x)) (rotr 25 x).
Definition ssig0 (x : N) := N.lxor (N.lxor (rotr 7 x) (rotr 18 x)) (shr 3 x).
Definition ssig1 (x : N) := N.lxor (N.lxor (rotr 17 x) (rotr 19 x)) (shr 10 x).

Definition round_constants : list N :=
  [ 1116352408; 1899447441; 3049323471; 3921009573;
    961987163; 1508970993; 2453635748; 2870763221;
    3624381080; 310598401; 607225278; 1426881987;
    1925078388; 2162078206; 2614888103; 3248222580;
    3835390401; 4022224774; 264347078; 604807628;
    770255983; 1249150122; 1555081692; 1996064986;
    2554220882; 2821834349; 2952996808; 3210313671;
    3336571891; 3584528711; 113926993; 338241895;
    666307205; 773529912; 1294757372; 1396182291;
    1695183700; 1986661051; 2177026350; 2456956037;
    2730485921; 2820302411; 3259730800; 3345764771;
    3516065817; 3600352804; 4094571909; 275423344;
    430227734; 506948616; 659060556; 883997877;
    958139571; 1322822218; 1537002063; 1747873779;
    1955562222; 2024104815; 2227730452; 2361852424;
    2428436474; 2756734187; 3204031479; 3329325298 ].

(** The eight 32-bit words of the running hash, also the working
    variables a..h of a block. *)
Record state := St { wa : N; wb : N; wc : N; wd : N;
                     we : N; wf : N; wg : N; wh : N }.

Definition initial : state :=
  St 1779033703 3144134277 1013904242 2773480762
     1359893119 2600822924 528734635 1541459225.

(** Padding: a 1 bit, zeros, and the bit length as 64 bits, up to a
    multiple of 64 bytes. *)
Fixpoint be_bytes (k : nat) (n : N) (acc : list N) : list N :=
  match k with
  | O => acc
  | S k' => be_bytes k' (n / 256) (n mod 256 :: acc)
  end.

Definition pad (msg : list N) : list N :=
  let len := N.of_nat (length msg) in
  let zeros := (64 - (len + 9) mod 64) mod 64 in
  msg ++ 128 :: repeat 0 (N.to_nat zeros) ++ be_bytes 8 (len * 8) [].

Fixpoint words (bs : list N) : list N :=
  match bs with
  | b0 :: b1 :: b2 :: b3 :: rest =>
      (((b0 * 256 + b1) * 256 + b2) * 256 + b3) :: words rest
  | _ => []
  end.

Fixpoint blocks (fuel : nat) (ws : list N) : list (list N) :=
  match fuel, ws with
  | S fuel', _ :: _ => take 16 ws :: blocks fuel' (drop 16 ws)
  | _, _ => []
  end.

(** The message schedule, most recent word first. *)
Fixpoint schedule (k : nat) (rev_w : list N) : list N :=
  match k with
  | O => rev_w
  | S k' =>
      let w := add32 (add32 (ssig1 (nth 1 rev_w 0)) (nth 6 rev_w 0))
                     (add32 (ssig0 (nth 14 rev_w 0)) (nth 15 rev_w 0)) in
      schedule k' (w :: rev_w)
  end.

Definition round (s : state) (kw : N * N) : state :=
  let t1 := add32 (add32 (add32 (wh s) (bsig1 (we s)))
                         (add32 (Ch (we s) (wf s) (wg s)) (fst kw)))
                  (snd kw) in
  let t2 := add32 (bsig0 (wa s)) (Maj (wa s) (wb s) (wc s)) in
  St (add32 t1 t2) (wa s) (wb s) (wc s) (add32 (wd s) t1) (we s) (wf s) (wg s).

Definition compress (h : state) (block : list N) : state :=
  let w := rev (schedule 48 (rev block)) in
  let s := fold_left round (combine round_constants w) h in
  St (add32 (wa h) (wa s)) (add32 (wb h) (wb s))
     (add32 (wc h) (wc s)) (add32 (wd h) (wd s))
     (add32 (we h) (we s)) (add32 (wf h) (wf s))
     (add32 (wg h) (wg s)) (add32 (wh h) (wh s)).

Definition hash (msg : list byte) : state :=
  let ws := words (pad (map Byte.to_N msg)) in
  fold_left compress (blocks (length ws) ws) initial.

(** The digest as one 256-bit number, big endian. *)
Definition digest (s : state) : N :=
  (((((((wa s * modulus + wb s) * modulus + wc s) * modulus + wd s)
       * modulus + we s) * modulus + wf s) * modulus + wg s) * modulus + wh s).

Fixpoint hex_go (k : nat) (n : N) (acc : string) : string :=
  match k with
  | O => acc
  | S k' => hex_go k' (n / 16) (String (PyStr.hex_digit (n mod 16)) acc)
  end.

(** [hashlib.sha256(msg).hexdigest()] *)
Definition hexdigest (msg : list byte) : string :=
  hex_go 64 (digest (hash msg)) "".

End Sha256.

(** ** Sorting

    [sorted] and SQL's ORDER BY are modelled by a stable insertion sort:
    [le x y] says that [x] may stand before [y]. *)

Fixpoint insert_by {A} (le : A -> A -> bool) (x : A) (l : list A) : list A :=
  match l with
  | [] => [x]
  | y :: l' => if le x y then x :: l else y :: insert_by le x l'
  end.

Definition sort_by {A} (le : A -> A -> bool) (l : list A) : list A :=
  foldr (insert_by le) [] l.

Definition sorted_by {A} (le : A -> A -> bool) (l : list A) : Prop :=
  StronglySorted (fun x y => le x y = true) l.

(** ** JSON-like Python values *)

#[local] Unset Elimination Schemes.
Inductive json : Type :=
| JNull
| JBool (b : bool)
| JInt (n : Z)
| JStr (s : string)
| JList (xs : list json)
| JDict (kvs : list (string * json)).
#[local] Set Elimination Schemes.

(** Induction over a value and the values nested in it. *)
Fixpoint json_ind (P : json -> Prop)
    (f_null : P JNull) (f_bool : forall b, P (JBool b))
    (f_int : forall n, P (JInt n)) (f_str : forall s, P (JStr s))
    (f_list : forall xs, Forall P xs -> P (JList xs))
    (f_dict : forall kvs, Forall (fun kv => P (snd kv)) kvs -> P (JDict kvs))
    (v : json) {struct v} : P v :=
  let rec := json_ind P f_null f_bool f_int f_str f_list f_dict in
  match v with
  | JNull => f_null
  | JBool b => f_bool b
  | JInt n => f_int n
  | JStr s => f_str s
  | JList xs =>
      f_list xs ((fix go (l : list json) : Forall P l :=
                    match l with
                    | [] => @List.Forall_nil _ P
                    | x :: l' => @List.Forall_cons _ P x l' (rec x) (go l')
                    end) xs)
  | JDict kvs =>
      f_dict kvs ((fix go (l : list (string * json))
                     : Forall (fun kv => P (snd kv)) l :=
                     match l with
                     | [] => @List.Forall_nil _ _
                     | (k, x) :: l' =>
                         @List.Forall_cons _ (fun kv => P (snd kv)) (k, x) l'
                           (rec x) (go l')
                     end) kvs)
  end.

(** Exceptions the modelled code can raise. [ValueError] stands for the
    exception of a response body that cannot be rendered (its subclass
    UnicodeEncodeError included). *)
Inductive exn : Type :=
| AttributeError
| TypeError
| JSONDecodeError
| ValueError.

Inductive result (A : Type) : Type :=
| Ok (a : A)
| Raise (e : exn).
Arguments Ok {A} a.
Arguments Raise {A} e.

Module Py.
Import PyStr.

(** Truth value of a value, as [if v] or [not v] test it. *)
Definition truthy (v : json) : bool :=
  match v with
  | JNull => false
  | JBool b => b
  | JInt n => negb (n =? 0)%Z
  | JStr s => negb (String.eqb s "")
  | JList xs => match xs with [] => false | _ => true end
  | JDict kvs => match kvs with [] => false | _ => true end
  end.

(** [a or b] *)
Definition py_or (a b : json) : json := if truthy a then a else b.

(** [d.get(key, default)] on the items of a dict. *)
Fixpoint dict_get (kvs : list (string * json)) (key : string) (default : json)
  : json :=
  match kvs with
  | [] => default
  | (k, v) :: rest => if String.eqb k key then v else dict_get rest key default
  end.

(** [repr(v)] and [str(v)] *)
Fixpoint py_repr (v : json) : string :=
  match v with
  | JNull => "None"
  | JBool true => "True"
  | JBool false => "False"
  | JInt n => pretty n
  | JStr s => repr s
  | JList xs => "[" +:+ join ", " (map py_repr xs) +:+ "]"
  | JDict kvs =>
      "{" +:+ join ", " (map (fun kv => repr (fst kv) +:+ ": " +:+ py_repr (snd kv)) kvs)
          +:+ "}"
  end.

Definition py_str (v : json) : string :=
  match v with
  | JStr s => s
  | _ => py_repr v
  end.

(** [v.strip().lower()]: only a [str] has these methods. *)
Definition strip_lower (v : json) : result string :=
  match v with
  | JStr s => Ok (lower (strip s))
  | _ => Raise AttributeError
  end.

End Py.

(** ** json.dumps(v, sort_keys=True, ensure_ascii=False, separators=(',', ':')) *)

Module Json.
Import PyStr.

(** One character inside a JSON string: the quote, the backslash and the
    control characters are escaped, everything else is kept. *)
Definition escape_char (c : ascii) : string :=
  if Ascii.eqb c DQ then String BSL (String DQ "")
  else if Ascii.eqb c BSL then String BSL (String BSL "")
  else if Ascii.eqb c "010" then String BSL "n"
  else if Ascii.eqb c "013" then String BSL "r"
  else if Ascii.eqb c "009" then String BSL "t"
  else if Ascii.eqb c "008" then String BSL "b"
  else if Ascii.eqb c "012" then String BSL "f"
  else if (code c <? 32)%N then String BSL ("u00" +:+ hex2 c)
  else String c "".

Fixpoint escape (s : string) : string :=
  match s with
  | EmptyString => EmptyString
  | String c s' => escape_char c +:+ escape s'
  end.

Definition encode_str (s : string) : string :=
  String DQ (escape s +:+ String DQ "").

(** [sorted] on the items of a dict: by key, in code point order. *)
Definition key_le {A} (x y : string * A) : bool := String.leb (fst x) (fst y).

Definition sort_items {A} (l : list (string * A)) : list (string * A) :=
  sort_by key_le l.

Definition encode_item (kv : string * string) : string :=
  encode_str (fst kv) +:+ ":" +:+ snd kv.

(** The values are rendered first and the rendered items sorted by key,
    which is the order [sort_keys=True] gives. *)
Fixpoint dumps (v : json) : string :=
  match v with
  | JNull => "null"
  | JBool true => "true"
  | JBool false => "false"
  | JInt n => pretty n
  | JStr s => encode_str s
  | JList xs => "[" +:+ join "," (map dumps xs) +:+ "]"
  | JDict kvs =>
      "{" +:+ join "," (map encode_item
               (sort_items (map (fun kv => (fst kv, dumps (snd kv))) kvs)))
          +:+ "}"
  end.

End Json.

(** ** Questions and the quiz fingerprint (services.py) *)

(** A question that passed [QuestionSchema]. *)
Record Question := {
  question : string;
  options : list string;
  correct_answer : string
}.

(** [q.dict()] *)
Definition question_dict (q : Question) : json :=
  JDict [("question", JStr (question q));
         ("options", JList (map JStr (options q)));
         ("correct_answer", JStr (correct_answer q))].

(** The checks of [QuestionSchema] and [QuizCreateSchema]: exactly four
    options, the correct answer among them, at least one question. *)
Definition valid_question (q : Question) : Prop :=
  length (options q) = 4%nat /\ In (correct_answer q) (options q).

Definition valid_questions (qs : list Question) : Prop :=
  qs <> [] /\ Forall valid_question qs.

Definition canonical (questions : list json) : string :=
  Json.dumps (JList questions).

Definition _questions_fingerprint (questions : list json) : string :=
  Sha256.hexdigest (PyStr.utf8_encode (canonical questions)).

Definition math_quiz : list Question :=
  [ {| question := "2+2?"; options := ["1"; "2"; "3"; "4"];
       correct_answer := "4" |} ].

(** ** The tables (services.py) *)

Record Quiz := {
  q_id : Z;
  q_title : option string;
  q_questions : json;
  q_fingerprint : option string;
  q_created_at : option Z
}.

Record Result := {
  r_id : Z;
  r_quiz_id : option Z;
  r_score : Z;
  r_total : Z;
  r_answers : json;
  r_user : json;
  r_created_at : option Z
}.

(** The primary key of the next inserted row. *)
Definition next_id (ids : list Z) : Z := 1 + foldr Z.max 0 ids.

Definition opt_eqb {A} (eqb : A -> A -> bool) (a b : option A) : bool :=
  match a, b with
  | Some x, Some y => eqb x y
  | None, None => true
  | _, _ => false
  end.

(** SQL NULL sorts before every value. *)
Definition opt_leb (a b : option Z) : bool :=
  match a, b with
  | None, _ => true
  | Some _, None => false
  | Some x, Some y => (x <=? y)%Z
  end.

Definition opt_int (o : option Z) : json :=
  match o with Some n => JInt n | None => JNull end.

Definition placeholder_title : string := "Uploaded Quiz".

(** [title] is truthy. *)
Definition title_given (title : option string) : bool :=
  match title with
  | Some t => negb (String.eqb t "")
  | None => false
  end.

(** [existing.title in (None, "", "Uploaded Quiz")] *)
Definition title_is_generic (title : option string) : bool :=
  match title with
  | None => true
  | Some t => String.eqb t "" || String.eqb t placeholder_title
  end.

Definition set_title (id : Z) (title : option string) (q : Quiz) : Quiz :=
  if (q_id q =? id)%Z
  then {| q_id := q_id q; q_title := title; q_questions := q_questions q;
          q_fingerprint := q_fingerprint q; q_created_at := q_created_at q |}
  else q.

(** [session.query(Quiz).filter(Quiz.fingerprint == fp).first()] *)
Definition quiz_by_fingerprint (fp : string) (db : list Quiz) : option Quiz :=
  List.find (fun q => opt_eqb String.eqb (q_fingerprint q) (Some fp)) db.

(** The backfill test of [save_quiz_to_db_sync]. *)
Definition backfills (title : option string) (existing : Quiz) : bool :=
  title_given title && title_is_generic (q_title existing)
  && negb (opt_eqb String.eqb title (q_title existing)).

(** [stamp] is the clock reading the column default of [created_at]
    takes at the insert; a missing title is filled by the column default. *)
Definition save_quiz_to_db_sync (stamp : Z) (title : option string)
    (questions : list json) (db : list Quiz) : Z * list Quiz :=
  let fp := _questions_fingerprint questions in
  match quiz_by_fingerprint fp db with
  | Some existing =>
      if backfills title existing
      then (q_id existing, map (set_title (q_id existing) title) db)
      else (q_id existing, db)
  | None =>
      let q := {| q_id := next_id (map q_id db);
                  q_title := match title with
                             | None => Some placeholder_title
                             | Some t => Some t
                             end;
                  q_questions := JList questions;
                  q_fingerprint := Some fp;
                  q_created_at := Some stamp |} in
      (q_id q, db ++ [q])
  end.

(** A run of calls with the same question list; each call has its own
    clock reading and title. Returns the ids in call order. *)
Fixpoint save_quiz_repeatedly (calls : list (Z * option string))
    (questions : list json) (db : list Quiz) : list Z * list Quiz :=
  match calls with
  | [] => ([], db)
  | (stamp, title) :: rest =>
      let '(id, db1) := save_quiz_to_db_sync stamp title questions db in
      let '(ids, db2) := save_quiz_repeatedly rest questions db1 in
      (id :: ids, db2)
  end.

(** The backfill test, spelled out. *)
Definition should_backfill (title : option string) (existing : Quiz) : Prop :=
  (exists t, title = Some t /\ t <> "")
  /\ (q_title existing = None \/ q_title existing = Some ""
      \/ q_title existing = Some "Uploaded Quiz")
  /\ title <> q_title existing.

(** A row after the call: the title of the found quiz is replaced when
    [changed], nothing else moves. *)
Definition row_after (id : Z) (title : option string) (changed : bool)
    (q q' : Quiz) : Prop :=
  q_id q' = q_id q /\ q_questions q' = q_questions q
  /\ q_fingerprint q' = q_fingerprint q /\ q_created_at q' = q_created_at q
  /\ q_title q' = if changed && (q_id q =? id)%Z then title else q_title q.

Definition rows_with_fingerprint (fp : string) (db : list Quiz) : list Quiz :=
  filter (fun q => q_fingerprint q = Some fp) db.

Definition hd_question (qs : list Question) : Question :=
  hd {| question := ""; options := []; correct_answer := "" |} qs.

(** ** Stand-ins for the library functions

    To run the model on concrete rows: a [json.loads] that knows the text
    of the empty list and rejects every other text, and an [isoformat] that
    prints the microsecond count of a timestamp. *)
Definition loads_stub (s : string) : option json :=
  if String.eqb s "[]" then Some (JList []) else None.

Definition iso_stub (t : Z) : string := pretty t.

(** Strings by their code points, for test vectors. *)
Definition chars (l : list N) : string :=
  string_of_list_ascii (map ascii_of_N l).

Definition codes (s : string) : list N :=
  map N_of_ascii (list_ascii_of_string s).

(** ** Sample data *)

Definition math_fingerprint : string :=
  "67e767776e97c987b08e19b68eafe6b4515b06f34da841aca9fa92dd4d0f82cf".

Definition math_calls : list (Z * option string) :=
  [(0, Some "Math"); (1, Some "Math")].

Definition placeholder_quiz : Quiz :=
  {| q_id := 1; q_title := Some "Uploaded Quiz";
     q_questions := JList (map question_dict math_quiz);
     q_fingerprint := Some math_fingerprint; q_created_at := Some 0 |}.

Definition alice_row (id : Z) (created : Z) : Result :=
  {| r_id := id; r_quiz_id := Some 1; r_score := 3; r_total := 5;
     r_answers := JList []; r_user := JDict [("email", JStr "a@x.com")];
     r_created_at := Some created |}.

Definition three_rows : list Result :=
  [alice_row 1 0; alice_row 2 0; alice_row 3 1000000].
Section Backend.

(** [json.loads] of the standard library, taken as given: [Some v] when
    it returns [v], [None] when it raises. *)
Variable json_loads : string -> option json.

(** [datetime.isoformat] of the standard library, taken as given. *)
Variable isoformat : Z -> string.

(** The renderer of [JSONResponse], taken as given: [None] when the body
    is rendered, the message of the exception when it is refused. *)
Variable render_failure : json -> option string.

Import PyStr Py.

(** *** save_result_sync *)

Definition deduped_note : string := "returned existing result (deduped)".

Definition created_iso (r : Result) : json :=
  match r_created_at r with
  | Some t => JStr (isoformat t)
  | None => JNull
  end.

(** The dict [save_result_sync] returns for a row. *)
Definition result_dict (r : Result) (deduped : bool) : json :=
  JDict ([("id", JInt (r_id r)); ("quiz_id", opt_int (r_quiz_id r));
          ("score", JInt (r_score r)); ("total", JInt (r_total r));
          ("answers", r_answers r); ("user", r_user r);
          ("created_at", created_iso r)]
         ++ if deduped then [("note", JStr deduped_note)] else []).

(** [user if (user is None or isinstance(user, dict)) else {"raw": str(user)}] *)
Definition normalize_user (user : json) : json :=
  match user with
  | JNull | JDict _ => user
  | _ => JDict [("raw", JStr (py_str user))]
  end.

(** A stored user that is a string is parsed, or wrapped when it does
    not parse. *)
Definition cand_user_norm (cand_user : json) : json :=
  match cand_user with
  | JStr s =>
      match json_loads s with
      | Some v => v
      | None => JDict [("raw", JStr s)]
      end
  | _ => cand_user
  end.

(** [json.dumps(v, ...) if v is not None else "null"] *)
Definition user_str (v : json) : string :=
  match v with
  | JNull => "null"
  | _ => Json.dumps v
  end.

(** The filter of the candidate query. *)
Definition is_candidate (quiz_id : option Z) (score total cutoff : Z)
    (r : Result) : bool :=
  (r_score r =? score)%Z && (r_total r =? total)%Z
  && match r_created_at r with
     | Some t => (cutoff <=? t)%Z
     | None => false
     end
  && opt_eqb Z.eqb (r_quiz_id r) quiz_id.

(** [order_by(Result.created_at.desc())] *)
Definition newer (x y : Result) : bool :=
  opt_leb (r_created_at y) (r_created_at x).

Definition newest_first (rows : list Result) : list Result :=
  sort_by newer rows.

(** The body of the loop over the candidates: both [continue]s. *)
Definition same_attempt (answers_norm u_str : string) (cand : Result) : bool :=
  String.eqb (Json.dumps (r_answers cand)) answers_norm
  && String.eqb (user_str (cand_user_norm (r_user cand))) u_str.

(** [now] is the clock reading of the cutoff, [stamp] the one the
  column default takes at the insert. The row the call resolves to,
  whether it is a reused one, and the table afterwards. *)
Definition resolve_attempt (now stamp : Z) (quiz_id : option Z)
    (score total : Z) (answers user : json) (dedupe_window_seconds : Z)
    (db : list Result) : Result * bool * list Result :=
  let u := normalize_user user in
  let answers_norm := Json.dumps answers in
  let cutoff := (now - dedupe_window_seconds * 1000000)%Z in
  let candidates :=
    newest_first (filter (fun r => is_candidate quiz_id score total cutoff r = true) db) in
  match List.find (same_attempt answers_norm (user_str u)) candidates with
  | Some cand => (cand, true, db)
  | None =>
      let r := {| r_id := next_id (map r_id db); r_quiz_id := quiz_id;
                  r_score := score; r_total := total; r_answers := answers;
                  r_user := u; r_created_at := Some stamp |} in
      (r, false, db ++ [r])
  end.

Definition save_result_sync (now stamp : Z) (quiz_id : option Z)
    (score total : Z) (answers user : json) (dedupe_window_seconds : Z)
    (db : list Result) : json * list Result :=
  let '(row, deduped, db') :=
    resolve_attempt now stamp quiz_id score total answers user
      dedupe_window_seconds db in
  (result_dict row deduped, db').

(** The three parts of what [resolve_attempt] gives. *)
Definition attempt_row (x : Result * bool * list Result) : Result := fst (fst x).
Definition attempt_reused (x : Result * bool * list Result) : bool := snd (fst x).
Definition attempt_table (x : Result * bool * list Result) : list Result := snd x.

(** [ret[key]] of a returned dict. *)
Definition field (key : string) (ret : json) : json :=
  match ret with
  | JDict kvs => dict_get kvs key JNull
  | _ => JNull
  end.

(** *** clean.py *)

(** The first non-empty of email, name and raw in that order. *)
Definition first_identity (kvs : list (string * json)) : json :=
  py_or (dict_get kvs "email" JNull)
    (py_or (dict_get kvs "name" JNull)
       (py_or (dict_get kvs "raw" JNull) (JStr ""))).

Definition make_user_key (u : json) : result string :=
  if negb (truthy u) then Ok ""
  else
    let parsed :=
      match u with
      | JStr s =>
          match json_loads s with
          | Some v => inr v
          | None => inl (lower (strip s))
          end
      | _ => inr u
      end in
    match parsed with
    | inl key => Ok key
    | inr (JDict kvs) =>
        strip_lower (first_identity kvs)
    | inr v => Ok (lower (strip (py_str v)))
    end.

(** The separator of the key, and what a printed integer is made of. *)
Definition BAR : ascii := "|"%char.

Fixpoint all_chars (p : ascii -> bool) (s : string) : bool :=
  match s with
  | EmptyString => true
  | String c s' => p c && all_chars p s'
  end.

Definition numeric_char (c : ascii) : bool :=
  (48 <=? code c)%N && (code c <=? 57)%N || Ascii.eqb c "-".

(** [r.created_at.isoformat() if r.created_at else ""] *)
Definition created_text (c : option Z) : string :=
  match c with Some t => isoformat t | None => "" end.

(** The f-string key of a row. *)
Definition sweep_key (uname : string) (r : Result) : string :=
    py_str (opt_int (r_quiz_id r)) +:+ "|" +:+ uname +:+ "|"
    +:+ pretty (r_score r) +:+ "|" +:+ pretty (r_total r) +:+ "|"
    +:+ created_text (r_created_at r).

(** [order_by(Result.created_at.asc(), Result.id.asc())] *)
Definition oldest_first_le (x y : Result) : bool :=
  if opt_eqb Z.eqb (r_created_at x) (r_created_at y)
  then (r_id x <=? r_id y)%Z
  else opt_leb (r_created_at x) (r_created_at y).

Definition oldest_first (rows : list Result) : list Result :=
  sort_by oldest_first_le rows.

(** The loop that collects the ids to delete. *)
Fixpoint collect_duplicates (rows : list Result) (seen : gset string)
    (to_delete_ids : list Z) : result (list Z) :=
  match rows with
  | [] => Ok to_delete_ids
  | r :: rest =>
      match make_user_key (r_user r) with
      | Raise e => Raise e
      | Ok uname =>
          let key := sweep_key uname r in
          if decide (key ∈ seen)
          then collect_duplicates rest seen (to_delete_ids ++ [r_id r])
          else collect_duplicates rest ({[key]} ∪ seen) to_delete_ids
      end
  end.

(** [session.delete] of the first row with this id, if there is one. *)
Fixpoint delete_result (rid : Z) (db : list Result) : list Result :=
  match db with
  | [] => []
  | r :: rest => if (r_id r =? rid)%Z then rest else r :: delete_result rid rest
  end.

(** What a run of [cleanup] leaves: the value the call returns, the
    lines it prints and the table. *)
Record Swept := {
    returned : json;
    printed : list string;
    remaining : list Result
  }.

Definition cleanup (db : list Result) : result Swept :=
  match collect_duplicates (oldest_first db) ∅ [] with
  | Raise e => Raise e
  | Ok [] =>
      Ok {| returned := JNull; printed := ["No duplicate results found."];
            remaining := db |}
  | Ok to_delete_ids =>
      Ok {| returned := JNull;
            printed :=
              ["Found " +:+ pretty (Z.of_nat (length to_delete_ids))
               +:+ " duplicate result(s). Deleting...";
               "Duplicates removed: " +:+ py_str (JList (map JInt to_delete_ids))];
            remaining := fold_left (fun d rid => delete_result rid d)
                           to_delete_ids db |}
  end.

(** The identity of a row for the sweep: quiz, user key, score, total and
    timestamp; nothing when the user key cannot be computed. *)
Definition row_identity (r : Result)
  : option (option Z * string * Z * Z * option Z) :=
  match make_user_key (r_user r) with
  | Ok uname => Some (r_quiz_id r, uname, r_score r, r_total r, r_created_at r)
  | Raise _ => None
  end.

(** [x] is another row than [y] and stands before it in the order of the
    sweep, oldest first by (created_at, id). *)
Definition stands_before (x y : Result) : bool :=
  oldest_first_le x y && negb (r_id x =? r_id y)%Z.

(** A row of the table with the same identity stands before [r]. *)
Definition later_duplicate (db : list Result) (r : Result) : bool :=
  existsb (fun r' => bool_decide (row_identity r' = row_identity r)
                     && stands_before r' r) db.

(** The ids the sweep removes, in its order. *)
Definition removed_ids (db : list Result) : list Z :=
  map r_id (List.filter (later_duplicate db) (oldest_first db)).

(** *** routes.py: grading and /submit *)

(** What a request handler ends in. [Unhandled] is an exception the
    handler lets escape. *)
Inductive response : Type :=
| JSONResponse (status_code : Z) (content : json)
| HTTPException (status_code : Z) (detail : string)
| Unhandled (e : exn).

(** [JSONResponse(content)] at the end of a handler, outside any try: the
    body is rendered when the response is built, so a body the renderer
    refuses raises in the handler. *)
Definition json_response (status_code : Z) (content : json) : response :=
  match render_failure content with
  | None => JSONResponse status_code content
  | Some _ => Unhandled ValueError
  end.

(** The body of a POST /submit: [quiz_id] is an integer or missing. *)
Record Payload := {
  p_answers : json;
  p_quiz_id : option Z;
  p_user : json
}.

Record World := {
  quizzes : list Quiz;
  results : list Result;
  questions_file : option string
}.

(** The answer picked for question [idx]: the inner try/except. A dict
    that came from JSON has string keys only, so [answers.get(idx, "")]
    is the empty string. *)
Definition user_answer (answers : json) (idx : Z) : string :=
  match answers with
  | JList xs =>
      match nth_error xs (Z.to_nat idx) with
      | Some v =>
          match py_or v (JStr "") with
          | JStr s => strip s
          | _ => ""
          end
      | None => ""
      end
  | JDict kvs => strip (py_str (dict_get kvs (pretty idx) (JStr "")))
  | _ => ""
  end.

(** One turn of the grading loop: the correctness flag and the detailed
    entry. Only a dict has [get]. *)
Definition grade_question (answers : json) (idx : Z) (q : json)
  : result (bool * json) :=
  match q with
  | JDict kvs =>
      let userAns := user_answer answers idx in
      let userAns_norm := lower (strip userAns) in
      let correct := strip (py_str (dict_get kvs "correct_answer" (JStr ""))) in
      let correct_norm := lower correct in
      let is_correct :=
        if String.eqb userAns_norm "skipped question" || String.eqb userAns ""
        then false
        else String.eqb userAns_norm correct_norm in
      Ok (is_correct,
          JDict [("questionIndex", JInt idx);
                 ("questionText", dict_get kvs "question" (JStr ""));
                 ("selected", JStr userAns);
                 ("selectedText", JStr userAns);
                 ("correct", JStr correct);
                 ("correctText", JStr correct);
                 ("isCorrect", JBool is_correct);
                 ("explanation", dict_get kvs "explanation" (JStr ""))])
  | _ => Raise AttributeError
  end.

Fixpoint grade_loop (answers : json) (idx : Z) (qs : list json)
    (score : Z) (detailed : list json) : result (Z * list json) :=
  match qs with
  | [] => Ok (score, detailed)
  | q :: rest =>
      match grade_question answers idx q with
      | Raise e => Raise e
      | Ok (is_correct, entry) =>
          grade_loop answers (idx + 1) rest
            (if is_correct then score + 1 else score) (detailed ++ [entry])
      end
  end.

(** What [len] and [enumerate] see of the loaded questions. *)
Definition iter_items (v : json) : result (list json) :=
  match v with
  | JList xs => Ok xs
  | JDict kvs => Ok (map (fun kv => JStr (fst kv)) kvs)
  | JStr s => Ok (map (fun c => JStr (String c "")) (list_ascii_of_string s))
  | _ => Raise TypeError
  end.

(** [score], [total_questions] and [detailed] of a request. *)
Definition grade (answers questions_data : json) : result (Z * Z * list json) :=
  match iter_items questions_data with
  | Raise e => Raise e
  | Ok qs =>
      match grade_loop answers 0 qs 0 [] with
      | Raise e => Raise e
      | Ok (score, detailed) => Ok (score, Z.of_nat (length qs), detailed)
      end
  end.

(** The questions to grade: the quiz of the request, else questions.json. *)
Definition load_questions (quiz_id : option Z) (w : World) : response + json :=
  if truthy (opt_int quiz_id) then
    match List.find (fun q => opt_eqb Z.eqb (Some (q_id q)) quiz_id) (quizzes w) with
    | None => inl (HTTPException 400 "Quiz not found")
    | Some q => inr (q_questions q)
    end
  else
    match questions_file w with
    | None => inl (HTTPException 400 "No questions available to grade")
    | Some content =>
        match json_loads content with
        | None => inl (Unhandled JSONDecodeError)
        | Some v => inr v
        end
    end.

(** The fallback of the except branch around the save. *)
Definition unsaved_result (score total : Z) (detailed : list json) (e : string)
  : json :=
  JDict [("score", JInt score); ("total", JInt total);
         ("detailed", JList detailed); ("error_saving", JStr e)].

Definition response_payload (score total : Z) (detailed : list json)
    (saved : json) : json :=
  JDict [("score", JInt score); ("total", JInt total);
         ("detailed", JList detailed); ("saved_result", saved)].

(** Where [save_result_sync] raises, if it does, with the message of the
    exception: before anything is committed (the query, the add, the
    commit), or after its work is done (the refresh of the inserted row,
    the isoformat of the returned one). *)
Inductive save_fault : Type :=
| BeforeCommit (e : string)
| AfterCommit (e : string).


(** The try/except around the save: what [saved] is bound to, and the
    result table afterwards. A save that raises before the commit stores
    nothing; one that raises afterwards leaves the table as the completed
    save leaves it. *)
Definition persist (fault : option save_fault) (now stamp : Z)
    (quiz_id : option Z) (score total : Z) (detailed : list json) (user : json)
    (db : list Result) : json * list Result :=
  match fault with
  | Some (BeforeCommit e) => (unsaved_result score total detailed e, db)
  | Some (AfterCommit e) =>
      (unsaved_result score total detailed e,
       snd (save_result_sync now stamp quiz_id score total (JList detailed)
              user 15 db))
  | None => save_result_sync now stamp quiz_id score total (JList detailed) user 15 db
  end.

Definition submit_answers (fault : option save_fault) (now stamp : Z)
    (payload : Payload) (w : World) : response * World :=
  match p_answers payload with
  | JList _ | JDict _ =>
      match load_questions (p_quiz_id payload) w with
      | inl err => (err, w)
      | inr questions_data =>
          match grade (p_answers payload) questions_data with
          | Raise e => (Unhandled e, w)
          | Ok (score, total_questions, detailed) =>
              let saved :=
                persist fault now stamp (p_quiz_id payload) score
                  total_questions detailed (p_user payload) (results w) in
              (json_response 200
                 (response_payload score total_questions detailed (fst saved)),
               {| quizzes := quizzes w; results := snd saved;
                  questions_file := questions_file w |})
          end
      end
  | _ => (HTTPException 400 "Invalid answers format", w)
  end.

(** The [isCorrect] flag of a detailed entry, and how many entries have it. *)
Definition entry_is_correct (entry : json) : bool :=
  match field "isCorrect" entry with
  | JBool true => true
  | _ => false
  end.

Definition correct_count (detailed : list json) : nat :=
  length (List.filter entry_is_correct detailed).

(** The part of the handler before the save: an early answer, or the
    graded request. *)
Definition graded (payload : Payload) (w : World)
  : response + Z * Z * list json :=
  match p_answers payload with
  | JList _ | JDict _ =>
      match load_questions (p_quiz_id payload) w with
      | inl err => inl err
      | inr questions_data =>
          match grade (p_answers payload) questions_data with
          | Raise e => inl (Unhandled e)
          | Ok g => inr g
          end
      end
  | _ => inl (HTTPException 400 "Invalid answers format")
  end.

(** *** Reading the encodings back

    Decoders and layouts used to show that the encodings are one to one. *)









Definition rendered (kv : string * json) : string * string :=
  (fst kv, Json.dumps (snd kv)).



(** Two questions that are the same object with its keys in another
    order. *)
Definition key_order_variant (q q' : json) : Prop :=
  exists kvs kvs',
    q = JDict kvs /\ q' = JDict kvs' /\ NoDup (map fst kvs)
    /\ Permutation kvs kvs'.

(** *** A sample request

    A world with the sample quiz, a request that answers it, and the row
    that request inserts. *)
Definition math_world : World :=
  {| quizzes := [placeholder_quiz]; results := []; questions_file := None |}.

Definition math_payload : Payload :=
  {| p_answers := JList [JStr "4"]; p_quiz_id := Some 1; p_user := JNull |}.

Definition math_row : Result :=
  {| r_id := 1; r_quiz_id := Some 1; r_score := 1; r_total := 1;
     r_answers :=
       JList [JDict [("questionIndex", JInt 0); ("questionText", JStr "2+2?");
                     ("selected", JStr "4"); ("selectedText", JStr "4");
                     ("correct", JStr "4"); ("correctText", JStr "4");
                     ("isCorrect", JBool true); ("explanation", JStr "")]];
     r_user := JNull; r_created_at := Some 7 |}.

(** *** get_latest_result_sync and GET /results/latest *)

(** The dict [get_latest_result_sync] returns for a row: the answers go
    under [detailed]. *)
Definition latest_dict (r : Result) : json :=
  JDict [("id", JInt (r_id r)); ("quiz_id", opt_int (r_quiz_id r));
         ("score", JInt (r_score r)); ("total", JInt (r_total r));
         ("detailed", r_answers r); ("user", r_user r);
         ("created_at", created_iso r)].

Definition get_latest_result_sync (db : list Result) : option json :=
  match newest_first db with
  | [] => None
  | r :: _ => Some (latest_dict r)
  end.

(** The answer of the except branch. *)
Definition latest_failed (e : string) : response :=
  JSONResponse 500
    (JDict [("message", JStr ("Failed to fetch latest result: " +:+ e))]).

(** [fault] is the message of an exception of the store, if it raises. The
    response is built inside the try, so a row the renderer refuses ends in
    the except branch too. *)
Definition get_latest_result (fault : option string) (w : World) : response :=
  match fault with
  | Some e => latest_failed e
  | None =>
      match get_latest_result_sync (results w) with
      | None => JSONResponse 404 (JDict [("message", JStr "No results found")])
      | Some latest =>
          match render_failure latest with
          | None => JSONResponse 200 latest
          | Some e => latest_failed e
          end
      end
  end.

(** *** DELETE /quizzes/{quiz_id} and DELETE /results/{result_id} *)

(** [session.delete] of the first quiz with this id. *)
Fixpoint delete_quiz_row (id : Z) (db : list Quiz) : list Quiz :=
  match db with
  | [] => []
  | q :: rest => if (q_id q =? id)%Z then rest else q :: delete_quiz_row id rest
  end.

Definition quiz_by_id (id : Z) (db : list Quiz) : option Quiz :=
  List.find (fun q => (q_id q =? id)%Z) db.

(** [session.query(Result).filter(Result.quiz_id == quiz_id).delete()] *)
Definition delete_results_of (quiz_id : Z) (db : list Result) : list Result :=
  List.filter (fun r => negb (opt_eqb Z.eqb (r_quiz_id r) (Some quiz_id))) db.

Definition delete_quiz (fault : option string) (quiz_id : Z) (w : World)
  : response * World :=
  match fault with
  | Some e => (JSONResponse 500 (JDict [("detail", JStr e)]), w)
  | None =>
      match quiz_by_id quiz_id (quizzes w) with
      | None => (JSONResponse 404 (JDict [("detail", JStr "Quiz not found")]), w)
      | Some q =>
          (JSONResponse 200 (JDict [("deleted", JInt quiz_id)]),
           {| quizzes := delete_quiz_row (q_id q) (quizzes w);
              results := delete_results_of quiz_id (results w);
              questions_file := questions_file w |})
      end
  end.

(** The route [delete_result] of routes.py. *)
Definition delete_result_endpoint (fault : option string) (result_id : Z)
    (w : World) : response * World :=
  match fault with
  | Some e => (JSONResponse 500 (JDict [("detail", JStr e)]), w)
  | None =>
      match List.find (fun r => (r_id r =? result_id)%Z) (results w) with
      | None => (JSONResponse 404 (JDict [("detail", JStr "Result not found")]), w)
      | Some r =>
          (JSONResponse 200 (JDict [("deleted_result", JInt result_id)]),
           {| quizzes := quizzes w;
              results := delete_result (r_id r) (results w);
              questions_file := questions_file w |})
      end
  end.

(** *** GET /questions

    The body holds the questions of a stored quiz or of the questions
    file. Both are written by the validated save only, as texts that were
    encoded to UTF-8 for the file first, so the renderer accepts them and
    the response is built directly. *)

Definition get_questions (quiz_id : option Z) (w : World) : response :=
  match quiz_id with
  | Some id =>
      match quiz_by_id id (quizzes w) with
      | None => JSONResponse 404 (JDict [("message", JStr "Quiz not found")])
      | Some q =>
          JSONResponse 200
            (JDict [("message", JStr "Quiz fetched"); ("quiz_id", JInt (q_id q));
                    ("questions", q_questions q)])
      end
  | None =>
      match questions_file w with
      | Some content =>
          match json_loads content with
          | Some (JList (x :: xs)) =>
              JSONResponse 200
                (JDict [("message",
                         JStr "File processed and questions generated successfully");
                        ("questions", JList (x :: xs))])
          | Some _ =>
              JSONResponse 400 (JDict [("message", JStr "No questions available")])
          | None =>
              JSONResponse 500 (JDict [("message", JStr "questions.json malformed")])
          end
      | None =>
          JSONResponse 400 (JDict [("message", JStr "No questions available")])
      end
  end.

(** *** GET /results *)

(** [.limit(limit).offset(offset)]: a negative limit is no limit, a
    negative offset is no offset. *)
Definition sql_slice {A} (limit offset : Z) (l : list A) : list A :=
  let l' := drop (Z.to_nat offset) l in
  if (limit <? 0)%Z then l' else take (Z.to_nat limit) l'.

(** [order_by(Result.created_at.desc(), Result.id.desc())] *)
Definition newest_first_le (x y : Result) : bool :=
  if opt_eqb Z.eqb (r_created_at x) (r_created_at y)
  then (r_id y <=? r_id x)%Z
  else opt_leb (r_created_at y) (r_created_at x).

(** The user name of the listing: only a dict has one. *)
Definition listed_uname (user_obj : json) : result string :=
  match user_obj with
  | JDict kvs => strip_lower (first_identity kvs)
  | _ => Ok ""
  end.

(** The dedupe key of a row in the listing. *)
Definition listing_key (r : Result) : result string :=
  match listed_uname (cand_user_norm (r_user r)) with
  | Ok uname => Ok (sweep_key uname r)
  | Raise e => Raise e
  end.

Definition listed_entry (r : Result) : json :=
  JDict [("id", JInt (r_id r)); ("quiz_id", opt_int (r_quiz_id r));
         ("score", JInt (r_score r)); ("total", JInt (r_total r));
         ("answers", r_answers r); ("user", cand_user_norm (r_user r));
         ("created_at", JStr (created_text (r_created_at r)))].

(** The loop of the listing; [out] holds the rows listed so far. *)
Fixpoint listed_rows (rows : list Result) (seen_keys : gset string)
    (out : list Result) : result (list Result) :=
  match rows with
  | [] => Ok out
  | r :: rest =>
      match listing_key r with
      | Raise e => Raise e
      | Ok dedupe_key =>
          if decide (dedupe_key ∈ seen_keys)
          then listed_rows rest seen_keys out
          else listed_rows rest ({[dedupe_key]} ∪ seen_keys) (out ++ [r])
      end
  end.

(** The rows the query of the listing reads. *)
Definition results_page (quiz_id : option Z) (limit offset : Z)
    (db : list Result) : list Result :=
  sql_slice limit offset
    (sort_by newest_first_le
       (match quiz_id with
        | Some id =>
            List.filter (fun r => opt_eqb Z.eqb (r_quiz_id r) (Some id)) db
        | None => db
        end)).

Definition list_results (quiz_id : option Z) (limit offset : Z) (w : World)
  : response :=
  match listed_rows (results_page quiz_id limit offset (results w)) ∅ [] with
  | Raise e => Unhandled e
  | Ok rows => json_response 200 (JDict [("results", JList (map listed_entry rows))])
  end.

(** *** json.dumps(v, ensure_ascii=False, indent=2) *)

Definition newline_indent (level : nat) : string :=
  String "010" (string_of_list_ascii (repeat " "%char (2 * level))).

Fixpoint dumps_indent (level : nat) (v : json) : string :=
  match v with
  | JNull => "null"
  | JBool true => "true"
  | JBool false => "false"
  | JInt n => pretty n
  | JStr s => Json.encode_str s
  | JList [] => "[]"
  | JList xs =>
      "[" +:+ newline_indent (S level)
      +:+ join ("," +:+ newline_indent (S level))
               (map (dumps_indent (S level)) xs)
      +:+ newline_indent level +:+ "]"
  | JDict [] => "{}"
  | JDict kvs =>
      "{" +:+ newline_indent (S level)
      +:+ join ("," +:+ newline_indent (S level))
               (map (fun kv => Json.encode_str (fst kv) +:+ ": "
                               +:+ dumps_indent (S level) (snd kv)) kvs)
      +:+ newline_indent level +:+ "}"
  end.

(** *** save_questions_and_db_async

    The questions are taken as they come from the generator: dicts with a
    text, a list of option texts and an answer text, so that the schema has
    nothing to coerce. *)

Definition valid_questionb (q : Question) : bool :=
  (length (options q) =? 4)%nat
  && existsb (String.eqb (correct_answer q)) (options q).

(** [QuizCreateSchema(title=title, questions=questions)] passes. *)
Definition schema_accepts (questions : list Question) : bool :=
  match questions with
  | [] => false
  | _ => forallb valid_questionb questions
  end.

Inductive save_outcome : Type :=
| ValidationError
| QuizOut (id : Z) (title : string) (questions : list Question) (created_at : Z).

(** [stamp] is the clock reading of the insert, [now] the one of the
    returned schema. *)
Definition save_questions_and_db_async (stamp now : Z) (title : string)
    (questions : list Question) (w : World) : save_outcome * World :=
  if schema_accepts questions then
    let file := dumps_indent 0 (JList (map question_dict questions)) in
    let saved :=
      save_quiz_to_db_sync stamp (Some title) (map question_dict questions)
        (quizzes w) in
    (QuizOut (fst saved) title questions now,
     {| quizzes := snd saved; results := results w;
        questions_file := Some file |})
  else (ValidationError, w).

(** *** generate_questions_from_text: the normalization of the parsed
    model output *)

Inductive generation_error : Type :=
| NotAnArray
| NoStripMethod.

(** [item.get(k1) or item.get(k2) or item.get(k3)] *)
Definition first_of (kvs : list (string * json)) (k1 k2 k3 : string) : json :=
  py_or (dict_get kvs k1 JNull) (py_or (dict_get kvs k2 JNull) (dict_get kvs k3 JNull)).

Definition normalized_question (q : string) (opts : list json) (correct : json)
  : json :=
  JDict [("question", JStr (strip q));
         ("options", JList (map (fun o => JStr (strip (py_str o))) opts));
         ("correct_answer", JStr (strip (py_str correct)))].

Fixpoint normalize_items (max_questions : Z) (items : list json)
    (normalized : list json) : generation_error + list json :=
  match items with
  | [] => inr normalized
  | JDict kvs :: rest =>
      let q := first_of kvs "question" "q" "prompt" in
      let opts := first_of kvs "options" "choices" "answers" in
      let correct := first_of kvs "correct_answer" "answer" "correct" in
      match opts with
      | JList os =>
          if truthy q && (length os =? 4)%nat && truthy correct then
            match q with
            | JStr s =>
                let normalized' := normalized ++ [normalized_question s os correct] in
                if (max_questions <=? Z.of_nat (length normalized'))%Z
                then inr normalized'
                else normalize_items max_questions rest normalized'
            | _ => inl NoStripMethod
            end
          else normalize_items max_questions rest normalized
      | _ => normalize_items max_questions rest normalized
      end
  | _ :: rest => normalize_items max_questions rest normalized
  end.

(** The part of [generate_questions_from_text] after the model output is
    parsed; every exception ends in a RuntimeError. *)
Definition normalize_generated (parsed : json) (max_questions : Z)
  : generation_error + list json :=
  let parsed' :=
    match parsed with
    | JDict kvs =>
        if truthy (dict_get kvs "questions" JNull)
        then dict_get kvs "questions" JNull else parsed
    | _ => parsed
    end in
  match parsed' with
  | JList items => normalize_items max_questions items []
  | _ => inl NotAnArray
  end.

(** *** What a stored quiz looks like after a validated save *)

Definition validated_quiz (q : Quiz) : Prop :=
  exists Q, valid_questions Q /\ q_questions q = JList (map question_dict Q).

(** *** Vocabulary of the properties *)

(** A lower case hexadecimal digit. *)
Definition lower_hex_char (c : ascii) : bool :=
  ((48 <=? code c) && (code c <=? 57) || (97 <=? code c) && (code c <=? 102))%N.

(** No two quizzes of the table have the same fingerprint. *)
Definition one_row_per_fingerprint (db : list Quiz) : Prop :=
  forall fp, (length (rows_with_fingerprint fp db) <= 1)%nat.

(** The answers of a form sent as an object: the answer to question [i]
    stands under the key [str(i)], counted from [start]. *)
Fixpoint answers_by_index (start : Z) (A : list string) : list (string * json) :=
  match A with
  | [] => []
  | a :: A' => (pretty start, JStr a) :: answers_by_index (start + 1) A'
  end.

(** An answer that counts for a question: equal to the correct answer up
    to case and surrounding white space. *)
Definition matches_correct (a : string) (q : Question) : Prop :=
  lower (strip a) = lower (strip (correct_answer q)).

(** A question that can be answered: its correct answer is not blank and
    is not the text of a skipped question. *)
Definition answerable (q : Question) : Prop :=
  strip (correct_answer q) <> ""
  /\ lower (strip (correct_answer q)) <> "skipped question".

(** A question as the generator writes it: four options, every text
    stripped. *)
Definition normal_question (q : Question) : Prop :=
  length (options q) = 4%nat
  /\ strip (question q) = question q
  /\ Forall (fun o => strip o = o) (options q)
  /\ strip (correct_answer q) = correct_answer q.


(** Sample data: a world without rows, a stored attempt, a table for the
    result routes, a question with its keys in another order, and a model
    output that uses the alternative key names. *)
Definition empty_world : World :=
  {| quizzes := []; results := []; questions_file := None |}.

Definition stored_attempt : Result :=
  {| r_id := 1; r_quiz_id := Some 1; r_score := 3; r_total := 5;
     r_answers := JList []; r_user := JNull; r_created_at := Some 10 |}.

Definition results_world : World :=
  {| quizzes := []; results := three_rows; questions_file := None |}.

Definition reordered_question : json :=
  JDict [("correct_answer", JStr "4");
         ("question", JStr "2+2?");
         ("options", JList [JStr "1"; JStr "2"; JStr "3"; JStr "4"])].

Definition model_output : json :=
  JDict [("questions",
          JList [JDict [("q", JStr " 2+2? ");
                        ("choices", JList [JInt 1; JInt 2; JInt 3; JInt 4]);
                        ("answer", JInt 4)];
                 JStr "noise";
                 JDict [("question", JStr "no options")]])].

(** A user as [save_result_sync] stores it: None or a dict. *)
Definition stored_user (u : json) : Prop :=
  u = JNull \/ exists kvs, u = JDict kvs.

(** The questions file as the save leaves it: what [json.loads] reads from
    it is a validated question list. *)
Definition questions_file_validated (w : World) : Prop :=
  forall content,
    questions_file w = Some content ->
    exists Q, valid_questions Q
              /\ json_loads content = Some (JList (map question_dict Q)).

(** A renderer that accepts every body: the texts of the model are in the
    Latin-1 range and its numbers are integers, which all render. *)
Definition renders_all (content : json) : option string := None.




(** A state the program reaches: quizzes are stored by the validated save
    only, which is also the only writer of the questions file. *)
Definition validated_state (w : World) : Prop :=
  Forall validated_quiz (quizzes w) /\ questions_file_validated w.
(** ** Test vectors *)

Example sha256_empty :
  Sha256.hexdigest [] =
  "e3b0c44298fc1c149afbf4c8996fb92427ae41e4649b934ca495991b7852b855".
Proof. vm_compute. reflexivity. Qed.

Example sha256_abc :
  Sha256.hexdigest (PyStr.utf8_encode "abc") =
  "ba7816bf8f01cfea414140de5dae2223b00361a396177a9cb410ff61f20015ad".
Proof. vm_compute. reflexivity. Qed.

Example sha256_two_blocks :
  Sha256.hexdigest (PyStr.utf8_encode
    "aaaaaaaaaaaaaaaaaaaaaaaaaaaaaaaaaaaaaaaaaaaaaaaaaaaaaaaaaaaaaaaa") =
  "ffe054fe7ae0cb6dc65c3af9b61d5209f439851db43d0ba5997337df154668eb".
Proof. vm_compute. reflexivity. Qed.

Example canonical_math_quiz :
  canonical (map question_dict math_quiz) =
  "[{" +:+ String PyStr.DQ "correct_answer" +:+ String PyStr.DQ ":"
  +:+ String PyStr.DQ "4" +:+ String PyStr.DQ ","
  +:+ String PyStr.DQ "options" +:+ String PyStr.DQ ":["
  +:+ String PyStr.DQ "1" +:+ String PyStr.DQ ","
  +:+ String PyStr.DQ "2" +:+ String PyStr.DQ ","
  +:+ String PyStr.DQ "3" +:+ String PyStr.DQ ","
  +:+ String PyStr.DQ "4" +:+ String PyStr.DQ "],"
  +:+ String PyStr.DQ "question" +:+ String PyStr.DQ ":"
  +:+ String PyStr.DQ "2+2?" +:+ String PyStr.DQ "}]".
Proof. vm_compute. reflexivity. Qed.

(** Strings are given by their code points here. *)

Example dumps_escapes :
  codes (Json.dumps (JStr (chars [97; 34; 98; 92; 99; 10; 9; 13; 8; 12; 1; 31; 127; 233; 122]%N)))
  = [34; 97; 92; 34; 98; 92; 92; 99; 92; 110; 92; 116; 92; 114; 92; 98; 92; 102; 92; 117; 48; 48; 48; 49; 92; 117; 48; 48; 49; 102; 127; 233; 122; 34]%N.
Proof. vm_compute. reflexivity. Qed.

Example repr_escapes :
  codes (Py.py_repr (JStr (chars [97; 34; 98; 92; 99; 10; 9; 13; 8; 12; 1; 31; 127; 233; 122]%N)))
  = [39; 97; 34; 98; 92; 92; 99; 92; 110; 92; 116; 92; 114; 92; 120; 48; 56; 92; 120; 48; 99; 92; 120; 48; 49; 92; 120; 49; 102; 92; 120; 55; 102; 233; 122; 39]%N.
Proof. vm_compute. reflexivity. Qed.

Example repr_quote_choice :
  codes (Py.py_repr (JStr (chars [105; 116; 39; 115]%N)))
  = [34; 105; 116; 39; 115; 34]%N.
Proof. vm_compute. reflexivity. Qed.

Example repr_both_quotes :
  codes (Py.py_repr (JStr (chars [105; 116; 39; 115; 32; 34; 113; 34]%N)))
  = [39; 105; 116; 92; 39; 115; 32; 34; 113; 34; 39]%N.
Proof. vm_compute. reflexivity. Qed.

Example strip_lower_latin1 :
  codes (PyStr.lower (PyStr.strip (chars [32; 9; 28; 65; 192; 215; 222; 32; 98; 160; 133; 10]%N)))
  = [97; 224; 215; 254; 32; 98]%N.
Proof. vm_compute. reflexivity. Qed.

Example str_of_list :
  codes (Py.py_str (JList [JInt 1; JStr "a"; JNull; JBool true; JDict [("k", JList [JInt (-5)])]]))
  = [91; 49; 44; 32; 39; 97; 39; 44; 32; 78; 111; 110; 101; 44; 32; 84; 114; 117; 101; 44; 32; 123; 39; 107; 39; 58; 32; 91; 45; 53; 93; 125; 93]%N.
Proof. vm_compute. reflexivity. Qed.

Example dumps_sorted_nested :
  codes (Json.dumps (JDict [("b", JInt 1); ("a", JList [JBool true; JNull; JDict [("z", JStr (chars [233]%N)); ("", JInt (-3))]]); ("B", JStr "x")]))
  = [123; 34; 66; 34; 58; 34; 120; 34; 44; 34; 97; 34; 58; 91; 116; 114; 117; 101; 44; 110; 117; 108; 108; 44; 123; 34; 34; 58; 45; 51; 44; 34; 122; 34; 58; 34; 233; 34; 125; 93; 44; 34; 98; 34; 58; 49; 125]%N.
Proof. vm_compute. reflexivity. Qed.

Example utf8_latin1 :
  map Byte.to_N (PyStr.utf8_encode (chars [128; 255; 233; 65]%N))
  = [194; 128; 195; 191; 195; 169; 65]%N.
Proof. vm_compute. reflexivity. Qed.

Example sha256_non_ascii :
  Sha256.hexdigest (PyStr.utf8_encode (chars [233]%N))
  = "4a99557e4033c3539de2eb65472017cad5f9557f7a0625a09f1c3f6e2ba69c4c".
Proof. vm_compute. reflexivity. Qed.

Example dumps_indent_question :
  codes (dumps_indent 0 (JList (map question_dict math_quiz)))
  = [91; 10; 32; 32; 123; 10; 32; 32; 32; 32; 34; 113; 117; 101; 115; 116; 105; 111; 110; 34; 58; 32; 34; 50; 43; 50; 63; 34; 44; 10; 32; 32; 32; 32; 34; 111; 112; 116; 105; 111; 110; 115; 34; 58; 32; 91; 10; 32; 32; 32; 32; 32; 32; 34; 49; 34; 44; 10; 32; 32; 32; 32; 32; 32; 34; 50; 34; 44; 10; 32; 32; 32; 32; 32; 32; 34; 51; 34; 44; 10; 32; 32; 32; 32; 32; 32; 34; 52; 34; 10; 32; 32; 32; 32; 93; 44; 10; 32; 32; 32; 32; 34; 99; 111; 114; 114; 101; 99; 116; 95; 97; 110; 115; 119; 101; 114; 34; 58; 32; 34; 52; 34; 10; 32; 32; 125; 10; 93]%N.
Proof. vm_compute. reflexivity. Qed.

Example dumps_indent_nested :
  codes (dumps_indent 0
           (JDict [("a", JList []); ("b", JDict []);
                   ("c", JList [JInt 1; JDict [("d", JNull)]])]))
  = [123; 10; 32; 32; 34; 97; 34; 58; 32; 91; 93; 44; 10; 32; 32; 34; 98; 34; 58; 32; 123; 125; 44; 10; 32; 32; 34; 99; 34; 58; 32; 91; 10; 32; 32; 32; 32; 49; 44; 10; 32; 32; 32; 32; 123; 10; 32; 32; 32; 32; 32; 32; 34; 100; 34; 58; 32; 110; 117; 108; 108; 10; 32; 32; 32; 32; 125; 10; 32; 32; 93; 10; 125]%N.
Proof. vm_compute. reflexivity. Qed.

(** ** The stable sort *)

Section Sorting.
Context {A : Type} (le : A -> A -> bool).
Hypothesis le_total : forall x y, le x y = false -> le y x = true.
Hypothesis le_trans : forall x y z, le x y = true -> le y z = true -> le x z = true.

Lemma insert_by_perm (x : A) (l : list A) : Permutation (insert_by le x l) (x :: l).
Proof.
  induction l as [|y l IH]; cbn [insert_by]; [reflexivity|].
  destruct (le x y); [reflexivity|].
  rewrite IH. apply perm_swap.
Qed.

Lemma sort_by_perm (l : list A) : Permutation (sort_by le l) l.
Proof.
  induction l as [|x l IH]; cbn; [reflexivity|].
  fold (sort_by le l). rewrite insert_by_perm. constructor. exact IH.
Qed.

Lemma sort_by_In (l : list A) (x : A) : In x (sort_by le l) <-> In x l.
Proof.
  split; apply Permutation_in; [|symmetry]; apply sort_by_perm.
Qed.

Lemma insert_by_sorted (x : A) (l : list A) :
  sorted_by le l -> sorted_by le (insert_by le x l).
Proof.
  unfold sorted_by. induction 1 as [|y l Hs IH Hall]; cbn [insert_by].
  - constructor; constructor.
  - destruct (le x y) eqn:E.
    + constructor; [constructor; assumption|].
      constructor; [exact E|].
      eapply Forall_impl; [exact Hall|]. intros z Hz. cbn in Hz. eauto.
    + constructor; [exact IH|].
      apply Forall_forall. intros z Hz.
      apply list_elem_of_In in Hz.
      apply (Permutation_in _ (insert_by_perm x l)) in Hz.
      destruct Hz as [<-|Hz]; [auto|].
      rewrite Forall_forall in Hall. apply Hall, list_elem_of_In, Hz.
Qed.

Lemma sort_by_sorted (l : list A) : sorted_by le (sort_by le l).
Proof.
  induction l as [|x l IH]; cbn; [constructor|].
  apply insert_by_sorted, IH.
Qed.




(** In a sorted list the first hit stands before every other hit. *)
Lemma find_sorted_first (m : A -> bool) (l : list A) (r x : A) :
  sorted_by le l -> List.find m l = Some r -> In x l -> m x = true ->
  x = r \/ le r x = true.
Proof.
  unfold sorted_by. induction 1 as [|y l Hs IH Hall]; cbn [List.find];
    [discriminate|].
  intros Hfind Hin Hm. destruct (m y) eqn:E.
  - inversion Hfind; subst y. destruct Hin as [->|Hin]; [left; reflexivity|].
    right. rewrite Forall_forall in Hall. apply Hall, list_elem_of_In, Hin.
  - destruct Hin as [->|Hin]; [congruence|]. apply IH; assumption.
Qed.

End Sorting.


Lemma find_none_iff {A} (m : A -> bool) (l : list A) :
  List.find m l = None <-> forall x, In x l -> m x = false.
Proof.
  split.
  - intros H x Hx. exact (List.find_none m l H x Hx).
  - induction l as [|y l IH]; intros H; cbn [List.find]; [reflexivity|].
    rewrite (H y (or_introl eq_refl)). apply IH. intros x Hx. apply H. right. exact Hx.
Qed.

(** When exactly the hits are known, the first hit is one of them. *)
Lemma find_some_of {A} (m : A -> bool) (l : list A) (x : A) :
  In x l -> m x = true -> exists r, List.find m l = Some r /\ In r l /\ m r = true.
Proof.
  intros Hin Hm. destruct (List.find m l) as [r|] eqn:E.
  - exists r. apply List.find_some in E. tauto.
  - rewrite (List.find_none m l E x Hin) in Hm. discriminate.
Qed.

Lemma next_id_above (ids : list Z) (i : Z) : In i ids -> (i < next_id ids)%Z.
Proof.
  unfold next_id. induction ids as [|j ids IH]; cbn [foldr In]; [tauto|].
  intros [->|H]; [lia|]. specialize (IH H). lia.
Qed.

(** ** Quiz dedupe (save_quiz_to_db_sync) *)

Lemma opt_eqb_string_eq (a b : option string) :
  opt_eqb String.eqb a b = true <-> a = b.
Proof.
  destruct a as [x|], b as [y|]; simpl; split; intros H;
    try discriminate; try reflexivity.
  - apply String.eqb_eq in H. congruence.
  - inversion H. apply String.eqb_refl.
Qed.

Lemma opt_eqb_Z_eq (a b : option Z) : opt_eqb Z.eqb a b = true <-> a = b.
Proof.
  destruct a as [x|], b as [y|]; simpl; split; intros H;
    try discriminate; try reflexivity.
  - apply Z.eqb_eq in H. congruence.
  - inversion H. apply Z.eqb_refl.
Qed.

(** [first()] is the head of the filtered rows. *)
Lemma quiz_by_fingerprint_head fp db :
  quiz_by_fingerprint fp db = head (rows_with_fingerprint fp db).
Proof.
  unfold quiz_by_fingerprint, rows_with_fingerprint.
  induction db as [|q db IH]; [reflexivity|].
  cbn [List.find]. rewrite filter_cons.
  destruct (opt_eqb String.eqb (q_fingerprint q) (Some fp)) eqn:E.
  - apply opt_eqb_string_eq in E. rewrite decide_True by exact E. reflexivity.
  - rewrite decide_False; [exact IH|].
    intros H. apply opt_eqb_string_eq in H. congruence.
Qed.

Lemma set_title_fingerprint id t q :
  q_fingerprint (set_title id t q) = q_fingerprint q.
Proof. unfold set_title. destruct (q_id q =? id)%Z; reflexivity. Qed.

Lemma set_title_id id t q : q_id (set_title id t q) = q_id q.
Proof. unfold set_title. destruct (q_id q =? id)%Z; reflexivity. Qed.

Lemma rows_with_fingerprint_set_title fp id t db :
  rows_with_fingerprint fp (map (set_title id t) db)
  = map (set_title id t) (rows_with_fingerprint fp db).
Proof.
  unfold rows_with_fingerprint.
  induction db as [|q db IH]; [reflexivity|].
  cbn [map]. rewrite !filter_cons, set_title_fingerprint.
  destruct (decide (q_fingerprint q = Some fp)); cbn [map]; congruence.
Qed.

Lemma backfills_spec title existing :
  backfills title existing = true <-> should_backfill title existing.
Proof.
  unfold backfills, should_backfill, title_given, title_is_generic,
    placeholder_title.
  rewrite !andb_true_iff, negb_true_iff.
  split.
  - intros [[Hg Hp] Hne]. repeat split.
    + destruct title as [t|]; [|discriminate]. exists t. split; [reflexivity|].
      intros ->. discriminate.
    + destruct (q_title existing) as [t|]; [|auto].
      apply orb_true_iff in Hp as [Hp|Hp]; apply String.eqb_eq in Hp; subst; auto.
    + intros E. apply opt_eqb_string_eq in E. congruence.
  - intros [[t [Et Ht]] [Hp Hne]]; subst title. repeat split.
    + apply negb_true_iff, String.eqb_neq, Ht.
    + destruct Hp as [Hp|[Hp|Hp]]; rewrite Hp; reflexivity.
    + destruct (opt_eqb String.eqb (Some t) (q_title existing)) eqn:E;
        [|reflexivity].
      apply opt_eqb_string_eq in E. contradiction.
Qed.

Lemma set_title_rows id title db :
  Forall2 (row_after id title true) db (map (set_title id title) db).
Proof.
  induction db as [|q db IH]; cbn [map]; constructor; [|exact IH].
  unfold row_after, set_title. cbn [andb].
  destruct (q_id q =? id)%Z; simpl; repeat split; reflexivity.
Qed.

Lemma same_rows id title db : Forall2 (row_after id title false) db db.
Proof.
  induction db as [|q db IH]; constructor; [|exact IH].
  unfold row_after. cbn [andb]. repeat split; reflexivity.
Qed.

(** C5. When a quiz with the fingerprint of the submitted questions is
    found, the call returns its id and creates no row; the title of the
    found quiz is replaced by the proposed one exactly when the proposed
    title is non-empty, the stored one is None, empty or
    [Uploaded Quiz], and the two differ; a stored title that is none of
    the three is left as it is. *)
Theorem title_backfill_on_dedupe (stamp : Z) (title : option string)
    (questions : list json) (db : list Quiz) (existing : Quiz) :
  quiz_by_fingerprint (_questions_fingerprint questions) db = Some existing ->
  fst (save_quiz_to_db_sync stamp title questions db) = q_id existing
  /\ length (snd (save_quiz_to_db_sync stamp title questions db)) = length db
  /\ (should_backfill title existing ->
      Forall2 (row_after (q_id existing) title true) db
        (snd (save_quiz_to_db_sync stamp title questions db)))
  /\ (~ should_backfill title existing ->
      snd (save_quiz_to_db_sync stamp title questions db) = db)
  /\ (q_title existing <> None -> q_title existing <> Some ""
      -> q_title existing <> Some "Uploaded Quiz"
      -> snd (save_quiz_to_db_sync stamp title questions db) = db).
Proof.
  intros Hfound. unfold save_quiz_to_db_sync. rewrite Hfound.
  destruct (backfills title existing) eqn:Hb; cbn [fst snd].
  - apply backfills_spec in Hb.
    split; [reflexivity|]. split; [apply length_map|].
    split; [intros _; apply set_title_rows|].
    split; [intros Hn; contradiction|].
    intros H1 H2 H3. destruct Hb as [_ [[H|[H|H]] _]]; contradiction.
  - assert (~ should_backfill title existing) as Hn.
    { intros H. apply backfills_spec in H. congruence. }
    split; [reflexivity|]. split; [reflexivity|].
    split; [intros H; contradiction|].
    split; intros; reflexivity.
Qed.

(** A miss inserts one row, which then is the only one with the
    fingerprint. *)
Lemma save_quiz_miss stamp title questions db :
  rows_with_fingerprint (_questions_fingerprint questions) db = [] ->
  fst (save_quiz_to_db_sync stamp title questions db) = next_id (map q_id db)
  /\ exists row,
       snd (save_quiz_to_db_sync stamp title questions db) = db ++ [row]
       /\ q_id row = next_id (map q_id db)
       /\ rows_with_fingerprint (_questions_fingerprint questions)
            (db ++ [row]) = [row].
Proof.
  intros Hnone. unfold save_quiz_to_db_sync.
  rewrite quiz_by_fingerprint_head, Hnone. cbn [head fst snd].
  split; [reflexivity|]. eexists. split; [reflexivity|]. split; [reflexivity|].
  unfold rows_with_fingerprint in *. rewrite filter_app, Hnone.
  rewrite filter_cons, decide_True by reflexivity. reflexivity.
Qed.

(** A hit returns the id of the one row and leaves one row. *)
Lemma save_quiz_hit stamp title questions db row :
  rows_with_fingerprint (_questions_fingerprint questions) db = [row] ->
  fst (save_quiz_to_db_sync stamp title questions db) = q_id row
  /\ exists row',
       rows_with_fingerprint (_questions_fingerprint questions)
         (snd (save_quiz_to_db_sync stamp title questions db)) = [row']
       /\ q_id row' = q_id row.
Proof.
  intros Hone. unfold save_quiz_to_db_sync.
  rewrite quiz_by_fingerprint_head, Hone. cbn [head].
  destruct (backfills title row); cbn [fst snd].
  - split; [reflexivity|].
    rewrite rows_with_fingerprint_set_title, Hone. cbn [map].
    eexists. split; [reflexivity|]. apply set_title_id.
  - split; [reflexivity|]. exists row. split; [exact Hone | reflexivity].
Qed.

Lemma save_quiz_repeatedly_hit calls questions db row :
  rows_with_fingerprint (_questions_fingerprint questions) db = [row] ->
  fst (save_quiz_repeatedly calls questions db) = repeat (q_id row) (length calls)
  /\ exists row',
       rows_with_fingerprint (_questions_fingerprint questions)
         (snd (save_quiz_repeatedly calls questions db)) = [row']
       /\ q_id row' = q_id row.
Proof.
  revert db row. induction calls as [|[stamp title] calls IH]; intros db row Hone.
  - cbn. split; [reflexivity|]. exists row. split; [exact Hone | reflexivity].
  - cbn [save_quiz_repeatedly length repeat].
    destruct (save_quiz_hit stamp title questions db row Hone)
      as [Hid [row1 [Hrows1 Hid1]]].
    destruct (save_quiz_to_db_sync stamp title questions db) as [id db1].
    cbn [fst snd] in *.
    destruct (IH db1 row1 Hrows1) as [Hids [row2 [Hrows2 Hid2]]].
    destruct (save_quiz_repeatedly calls questions db1) as [ids db2].
    cbn [fst snd] in *. subst id. rewrite Hids, Hid1.
    split; [reflexivity|]. exists row2. split; [exact Hrows2 | congruence].
Qed.

(** C1. Saving the same valid question list N >= 1 times, from a table
    with no quiz of its fingerprint, returns one and the same id every time
    and leaves exactly one row with that fingerprint, the row of that id. *)
Theorem save_quiz_idempotent (Q : list Question)
    (calls : list (Z * option string)) (db : list Quiz) :
  valid_questions Q ->
  rows_with_fingerprint (_questions_fingerprint (map question_dict Q)) db = [] ->
  (1 <= length calls)%nat ->
  exists id row,
    fst (save_quiz_repeatedly calls (map question_dict Q) db)
      = repeat id (length calls)
    /\ rows_with_fingerprint (_questions_fingerprint (map question_dict Q))
         (snd (save_quiz_repeatedly calls (map question_dict Q) db)) = [row]
    /\ q_id row = id.
Proof.
  intros _ Hnone Hlen.
  destruct calls as [|[stamp title] calls]; [cbn in Hlen; lia|].
  cbn [save_quiz_repeatedly length repeat].
  destruct (save_quiz_miss stamp title (map question_dict Q) db Hnone)
    as [Hid [row [Hdb [Hrow Hrows]]]].
  destruct (save_quiz_to_db_sync stamp title (map question_dict Q) db)
    as [id db1].
  cbn [fst snd] in *. subst db1.
  destruct (save_quiz_repeatedly_hit calls _ _ _ Hrows)
    as [Hids [row' [Hrows' Hid']]].
  destruct (save_quiz_repeatedly calls (map question_dict Q) (db ++ [row]))
    as [ids db2].
  cbn [fst snd] in *.
  exists id, row'. rewrite Hids. split; [congruence|].
  split; [exact Hrows' | congruence].
Qed.

(** ** Result dedupe (save_result_sync) *)

Lemma newer_total x y : newer x y = false -> newer y x = true.
Proof.
  unfold newer, opt_leb.
  destruct (r_created_at x), (r_created_at y); try discriminate; try reflexivity.
  rewrite Z.leb_gt, Z.leb_le. lia.
Qed.

Lemma newer_trans x y z : newer x y = true -> newer y z = true -> newer x z = true.
Proof.
  unfold newer, opt_leb.
  destruct (r_created_at x), (r_created_at y), (r_created_at z);
    try discriminate; try reflexivity.
  rewrite !Z.leb_le. lia.
Qed.

Lemma is_candidate_spec quiz_id score total cutoff r :
  is_candidate quiz_id score total cutoff r = true
  <-> r_score r = score /\ r_total r = total /\ r_quiz_id r = quiz_id
      /\ exists t, r_created_at r = Some t /\ (cutoff <= t)%Z.
Proof.
  unfold is_candidate. rewrite !andb_true_iff, !Z.eqb_eq, opt_eqb_Z_eq.
  destruct (r_created_at r) as [t|].
  - rewrite Z.leb_le. split.
    + intros [[[? ?] ?] ?]. repeat split; try assumption. exists t. auto.
    + intros (? & ? & ? & t' & Ht & ?). inversion Ht; subst t'. auto.
  - split; [intros [[[_ _] H] _]; discriminate|].
    intros (_ & _ & _ & t & Ht & _). discriminate.
Qed.

Lemma is_candidate_mono quiz_id score total c1 c2 r :
  (c1 <= c2)%Z ->
  is_candidate quiz_id score total c2 r = true ->
  is_candidate quiz_id score total c1 r = true.
Proof.
  rewrite !is_candidate_spec. intros Hle (? & ? & ? & t & ? & ?).
  repeat split; try assumption. exists t. split; [assumption | lia].
Qed.




Lemma In_candidates quiz_id score total cutoff (db : list Result) r :
  In r (newest_first
          (filter (fun r => is_candidate quiz_id score total cutoff r = true) db))
  <-> In r db /\ is_candidate quiz_id score total cutoff r = true.
Proof.
  unfold newest_first. rewrite sort_by_In, <- !list_elem_of_In.
  rewrite list_elem_of_filter. tauto.
Qed.


(** C3. Two calls with the same arguments, the second no earlier than the
    first and strictly more than [dedupe_window_seconds] after the creation
    of the row the first one resolved to: the second call inserts a new
    row, so the table holds the two rows. *)
Theorem result_dedupe_window_boundary (now1 stamp1 now2 stamp2 : Z)
    (quiz_id : option Z) (score total : Z) (answers user : json)
    (window : Z) (db : list Result) :
  (now1 <= now2)%Z ->
  (forall t,
     r_created_at (attempt_row (resolve_attempt now1 stamp1 quiz_id score total
                                  answers user window db)) = Some t ->
     (window * 1000000 < now2 - t)%Z) ->
  exists row1 reused db1 row2,
    resolve_attempt now1 stamp1 quiz_id score total answers user window db
      = (row1, reused, db1)
    /\ save_result_sync now2 stamp2 quiz_id score total answers user window db1
       = (result_dict row2 false, db1 ++ [row2])
    /\ r_id row2 <> r_id row1
    /\ r_created_at row2 = Some stamp2
    /\ In row1 (db1 ++ [row2]) /\ In row2 (db1 ++ [row2])
    /\ (db = [] -> db1 ++ [row2] = [row1; row2]).
Proof.
  intros Hclock Hwin.
  unfold save_result_sync.
  unfold resolve_attempt in *.
  set (m := same_attempt (Json.dumps answers) (user_str (normalize_user user))) in *.
  set (c1 := (now1 - window * 1000000)%Z) in *.
  set (c2 := (now2 - window * 1000000)%Z) in *.
  assert (c1 <= c2)%Z as Hc by (subst c1 c2; lia).
  destruct (List.find m (newest_first
             (filter (fun r => is_candidate quiz_id score total c1 r = true) db)))
    as [cand|] eqn:Hfind1.
  - cbn [attempt_row fst] in Hwin.
    pose proof (List.find_some _ _ Hfind1) as [Hin Hm].
    apply In_candidates in Hin as [Hindb Hcand].
    pose proof Hcand as Hcand'.
    apply is_candidate_spec in Hcand' as (Hs & Ht & Hq & t & Hcreated & Hcut).
    specialize (Hwin t Hcreated).
    assert (List.find m (newest_first
              (filter (fun r => is_candidate quiz_id score total c2 r = true) db))
            = None) as Hfind2.
    { apply find_none_iff. intros x Hx.
      destruct (m x) eqn:Hmx; [exfalso|reflexivity].
      apply In_candidates in Hx as [Hxdb Hx2].
      assert (In x (newest_first
                (filter (fun r => is_candidate quiz_id score total c1 r = true) db)))
        as Hx1.
      { apply In_candidates. split; [exact Hxdb|].
        apply (is_candidate_mono _ _ _ c1 c2); assumption. }
      apply is_candidate_spec in Hx2 as (_ & _ & _ & tx & Hxc & Hxcut).
      destruct (find_sorted_first newer m _ cand x
                  (sort_by_sorted newer newer_total newer_trans _)
                  Hfind1 Hx1 Hmx) as [->|Hle].
      - rewrite Hcreated in Hxc. inversion Hxc; subst tx. subst c2. lia.
      - unfold newer in Hle. rewrite Hxc, Hcreated in Hle. cbn in Hle.
        apply Z.leb_le in Hle. subst c2. lia. }
    eexists cand, true, db, _.
    rewrite Hfind2.
    split; [reflexivity|]. split; [reflexivity|]. cbn [r_id r_created_at].
    split.
    { pose proof (next_id_above (map r_id db) (r_id cand)
                    (in_map r_id db cand Hindb)). lia. }
    split; [reflexivity|].
    split; [apply in_or_app; left; exact Hindb|].
    split; [apply in_or_app; right; left; reflexivity|].
    intros ->. destruct Hindb.
  - cbn [attempt_row fst r_created_at] in Hwin.
    specialize (Hwin stamp1 eq_refl).
    set (r := {| r_id := next_id (map r_id db); r_quiz_id := quiz_id;
                 r_score := score; r_total := total; r_answers := answers;
                 r_user := normalize_user user; r_created_at := Some stamp1 |}) in *.
    assert (List.find m (newest_first
              (filter (fun r => is_candidate quiz_id score total c2 r = true)
                 (db ++ [r]))) = None) as Hfind2.
    { apply find_none_iff. intros x Hx.
      apply In_candidates in Hx as [Hxdb Hx2].
      apply in_app_or in Hxdb as [Hxdb|[<-|[]]].
      - rewrite find_none_iff in Hfind1. apply Hfind1.
        apply In_candidates. split; [exact Hxdb|].
        apply (is_candidate_mono _ _ _ c1 c2); assumption.
      - exfalso.
        apply is_candidate_spec in Hx2 as (_ & _ & _ & tx & Hxc & Hxcut).
        subst r. cbn in Hxc. inversion Hxc; subst tx. subst c2. lia. }
    eexists r, false, (db ++ [r]), _.
    rewrite Hfind2.
    split; [reflexivity|]. split; [reflexivity|]. cbn [r_id r_created_at].
    split.
    { assert (In (r_id r) (map r_id (db ++ [r]))) as Hin.
      { apply in_map, in_or_app. right. left. reflexivity. }
      pose proof (next_id_above _ _ Hin). lia. }
    split; [reflexivity|].
    split; [apply in_or_app; left; apply in_or_app; right; left; reflexivity|].
    split; [apply in_or_app; right; left; reflexivity|].
    intros ->. reflexivity.
Qed.

(** ** The user shapes met by save_result_sync *)

(** C10. The incoming user and a stored user are normalized differently: an
    incoming value that is neither None nor a dict is wrapped as
    [{raw: str(user)}], a stored string is parsed. So a call whose user is
    the JSON text of the structured user of a stored attempt, equal in
    quiz, score, total and answers and inside the window, is not matched
    with that attempt: a second row is inserted. *)
Theorem asymmetric_user_normalization :
  (forall user, user <> JNull -> (forall kvs, user <> JDict kvs) ->
     normalize_user user = JDict [("raw", JStr (py_str user))])
  /\ (forall s v, json_loads s = Some v -> cand_user_norm (JStr s) = v)
  /\ exists (stored : Result) (d : list (string * json)) (now stamp : Z),
       r_user stored = JDict d
       /\ is_candidate (r_quiz_id stored) (r_score stored) (r_total stored)
            (now - 15 * 1000000) stored = true
       /\ exists row,
            resolve_attempt now stamp (r_quiz_id stored) (r_score stored)
              (r_total stored) (r_answers stored)
              (JStr (Json.dumps (JDict d))) 15 [stored]
            = (row, false, [stored; row])
            /\ r_user row = JDict [("raw", JStr (Json.dumps (JDict d)))]
            /\ r_id row <> r_id stored.
Proof.
  split; [|split].
  - intros user Hnull Hdict. destruct user; try reflexivity.
    + contradiction.
    + exfalso. eapply Hdict. reflexivity.
  - intros s v H. cbn [cand_user_norm]. rewrite H. reflexivity.
  - exists {| r_id := 1; r_quiz_id := Some 1; r_score := 3; r_total := 5;
              r_answers := JList []; r_user := JDict [("email", JStr "a@x.com")];
              r_created_at := Some 0 |},
           [("email", JStr "a@x.com")], 1000000%Z, 1000001%Z.
    split; [reflexivity|]. split; [reflexivity|].
    eexists. split; [vm_compute; reflexivity|].
    split; [reflexivity|]. cbn. lia.
Qed.

(** ** The user key of the sweep (make_user_key) *)

(** C6, at the input on which the code fails: a dict whose [email] is a
    non-empty value that is not a string has no [strip], the key function
    raises AttributeError, and so does a sweep over a table with such a
    row. *)
Theorem make_user_key_raises :
  make_user_key (JDict [("email", JInt 123)]) = Raise AttributeError
  /\ cleanup [ {| r_id := 1; r_quiz_id := Some 1; r_score := 3; r_total := 5;
                  r_answers := JList [];
                  r_user := JDict [("email", JInt 123)];
                  r_created_at := Some 0 |} ] = Raise AttributeError.
Proof. split; reflexivity. Qed.

(** The fallback chain where it holds. *)
Lemma make_user_key_falsy (u : json) :
  truthy u = false -> make_user_key u = Ok "".
Proof. intros H. unfold make_user_key. rewrite H. reflexivity. Qed.

Lemma make_user_key_unparsed (s : string) :
  json_loads s = None -> make_user_key (JStr s) = Ok (lower (strip s)).
Proof.
  intros H. unfold make_user_key. destruct (truthy (JStr s)) eqn:E; cbn [negb].
  - rewrite H. reflexivity.
  - cbn in E. apply negb_false_iff, String.eqb_eq in E. subst s. reflexivity.
Qed.

Lemma make_user_key_other (v : json) :
  truthy v = true -> (forall s, v <> JStr s) -> (forall kvs, v <> JDict kvs) ->
  make_user_key v = Ok (lower (strip (py_str v))).
Proof.
  intros Ht Hs Hd. unfold make_user_key. rewrite Ht. cbn [negb].
  destruct v; try reflexivity.
  - exfalso. eapply Hs. reflexivity.
  - exfalso. eapply Hd. reflexivity.
Qed.

Lemma make_user_key_dict (kvs : list (string * json)) :
  kvs <> [] -> make_user_key (JDict kvs) = strip_lower (first_identity kvs).
Proof. intros H. destruct kvs; [contradiction|reflexivity]. Qed.

Lemma make_user_key_examples :
  make_user_key (JDict [("email", JStr "a@x.com"); ("name", JStr "A")])
    = Ok "a@x.com"
  /\ make_user_key (JDict [("name", JStr "A")]) = Ok "a"
  /\ (json_loads "A" = None -> make_user_key (JStr "A") = Ok "a")
  /\ make_user_key JNull = Ok "".
Proof.
  repeat split; try reflexivity.
  intros H. rewrite make_user_key_unparsed by exact H. reflexivity.
Qed.

(** ** Grading and /submit *)

Lemma grade_question_entry answers idx q c entry :
  grade_question answers idx q = Ok (c, entry) -> entry_is_correct entry = c.
Proof.
  destruct q; try discriminate. cbn [grade_question].
  intros H. injection H as Hc He. subst entry.
  unfold entry_is_correct, field. cbn [dict_get String.eqb Ascii.eqb Bool.eqb].
  rewrite Hc. destruct c; reflexivity.
Qed.

Lemma correct_count_app (xs ys : list json) :
  correct_count (xs ++ ys) = (correct_count xs + correct_count ys)%nat.
Proof.
  unfold correct_count. rewrite List.filter_app, length_app. reflexivity.
Qed.

Lemma correct_count_cons (x : json) (xs : list json) :
  correct_count (x :: xs)
  = if entry_is_correct x then S (correct_count xs) else correct_count xs.
Proof.
  unfold correct_count. cbn [List.filter].
  destruct (entry_is_correct x); reflexivity.
Qed.

Lemma correct_count_le (xs : list json) : (correct_count xs <= length xs)%nat.
Proof. unfold correct_count. apply List.filter_length_le. Qed.

(** The loop adds one entry per question and one point per correct entry. *)
Lemma grade_loop_spec answers qs :
  forall idx score detailed score' detailed',
    grade_loop answers idx qs score detailed = Ok (score', detailed') ->
    exists entries,
      detailed' = detailed ++ entries
      /\ length entries = length qs
      /\ score' = (score + Z.of_nat (correct_count entries))%Z.
Proof.
  induction qs as [|q qs IH]; intros idx score detailed score' detailed' H.
  - cbn in H. inversion H. exists []. rewrite app_nil_r. cbn.
    repeat split; lia.
  - cbn [grade_loop] in H.
    destruct (grade_question answers idx q) as [[c entry]|e] eqn:E;
      [|discriminate].
    apply IH in H as [entries [Hd [Hl Hs]]].
    exists (entry :: entries). split; [|split].
    + rewrite Hd, <- app_assoc. reflexivity.
    + cbn. lia.
    + rewrite Hs, correct_count_cons, (grade_question_entry _ _ _ _ _ E).
      destruct c; lia.
Qed.

Lemma grade_spec answers questions_data score total detailed :
  grade answers questions_data = Ok (score, total, detailed) ->
  exists qs,
    iter_items questions_data = Ok qs
    /\ total = Z.of_nat (length qs)
    /\ length detailed = length qs
    /\ score = Z.of_nat (correct_count detailed)
    /\ (0 <= score <= total)%Z.
Proof.
  unfold grade. destruct (iter_items questions_data) as [qs|e]; [|discriminate].
  destruct (grade_loop answers 0 qs 0 []) as [[s d]|e] eqn:E; [|discriminate].
  intros H. inversion H; subst s d total.
  apply grade_loop_spec in E as [entries [Hd [Hl Hs]]].
  cbn [app] in Hd. subst entries.
  exists qs. repeat split; try assumption; try lia.
  pose proof (correct_count_le detailed). lia.
Qed.

Lemma submit_answers_graded fault now stamp payload w :
  submit_answers fault now stamp payload w
  = match graded payload w with
    | inl err => (err, w)
    | inr (score, total, detailed) =>
        (json_response 200
           (response_payload score total detailed
              (fst (persist fault now stamp (p_quiz_id payload) score total
                      detailed (p_user payload) (results w)))),
         {| quizzes := quizzes w;
            results := snd (persist fault now stamp (p_quiz_id payload) score
                              total detailed (p_user payload) (results w));
            questions_file := questions_file w |})
    end.
Proof.
  unfold submit_answers, graded.
  destruct (p_answers payload); try reflexivity;
    destruct (load_questions (p_quiz_id payload) w); try reflexivity;
    match goal with |- context [grade ?a ?q] => destruct (grade a q) as [[[? ?] ?]|] end;
    reflexivity.
Qed.

Lemma graded_spec payload w score total detailed :
  graded payload w = inr (score, total, detailed) ->
  exists questions_data,
    load_questions (p_quiz_id payload) w = inr questions_data
    /\ grade (p_answers payload) questions_data = Ok (score, total, detailed).
Proof.
  unfold graded. intros G.
  destruct (p_answers payload); try discriminate;
    destruct (load_questions (p_quiz_id payload) w) as [|qd]; try discriminate;
    match type of G with context [grade ?a ?q] =>
      destruct (grade a q) as [g|] eqn:E; [|discriminate] end;
    inversion G; subst g; exists qd; split; reflexivity || exact E.
Qed.


(** What is graded in a state the program reaches: the questions of a
    validated quiz, or the validated list of the questions file. *)
Lemma load_questions_validated (quiz_id : option Z) (w : World)
    (questions_data : json) :
  Forall validated_quiz (quizzes w) ->
  questions_file_validated w ->
  load_questions quiz_id w = inr questions_data ->
  exists Q, valid_questions Q /\ questions_data = JList (map question_dict Q).
Proof.
  intros Hall Hfile. unfold load_questions.
  destruct (truthy (opt_int quiz_id)).
  - destruct (List.find _ (quizzes w)) as [q|] eqn:E; [|discriminate].
    intros H. injection H as <-.
    apply List.find_some in E as [Hin _].
    rewrite Forall_forall in Hall.
    destruct (Hall q (proj2 (list_elem_of_In _ _) Hin)) as (Q & HQ & Eq).
    exists Q. split; [exact HQ | exact Eq].
  - destruct (questions_file w) as [content|] eqn:Ef; [|discriminate].
    destruct (Hfile content Ef) as (Q & HQ & Eload). rewrite Eload.
    intros H. injection H as <-. exists Q. split; [exact HQ | reflexivity].
Qed.

(** C9. In a state the program reaches (every stored quiz holds a
    validated question list, and so does the questions file when there is
    one), the row a submit request inserts carries the graded values,
    whether the save completes or raises after its commit: the score lies
    between 0 and the total, the total is positive and is the number of
    questions graded, which is also the number of detailed entries, and
    the score is the number of entries whose [isCorrect] flag is true. *)
Theorem graded_result_record (fault : option save_fault) (now stamp : Z)
    (payload : Payload) (w : World) (row : Result) :
  Forall validated_quiz (quizzes w) ->
  questions_file_validated w ->
  results (snd (submit_answers fault now stamp payload w)) = results w ++ [row] ->
  exists questions_data qs detailed,
    load_questions (p_quiz_id payload) w = inr questions_data
    /\ iter_items questions_data = Ok qs
    /\ r_answers row = JList detailed
    /\ (0 <= r_score row <= r_total row)%Z
    /\ (0 < r_total row)%Z
    /\ r_total row = Z.of_nat (length qs)
    /\ length detailed = length qs
    /\ r_score row = Z.of_nat (correct_count detailed).
Proof.
  intros Hall Hfile. rewrite submit_answers_graded.
  destruct (graded payload w) as [early|[[score total] detailed]] eqn:G.
  - cbn [snd]. intros H. apply (f_equal (@length Result)) in H.
    rewrite length_app in H. cbn in H. lia.
  - cbn [snd results]. intros H.
    assert (snd (save_result_sync now stamp (p_quiz_id payload) score total
                   (JList detailed) (p_user payload) 15 (results w))
            = results w ++ [row]) as Hsave.
    { destruct fault as [[e|e]|]; cbn [persist snd] in H; [|exact H|exact H].
      apply (f_equal (@length Result)) in H.
      rewrite length_app in H. cbn in H. lia. }
    clear H. unfold save_result_sync, resolve_attempt in Hsave.
    match type of Hsave with context [List.find ?m ?l] =>
      destruct (List.find m l) end; cbn [snd] in Hsave.
    + apply (f_equal (@length Result)) in Hsave.
      rewrite length_app in Hsave. cbn in Hsave. lia.
    + apply app_inv_head in Hsave. injection Hsave as <-.
      cbn [r_answers r_score r_total].
      apply graded_spec in G as [qd [Hload Hgrade]].
      destruct (load_questions_validated _ _ _ Hall Hfile Hload)
        as (Q & [Hne _] & ->).
      apply grade_spec in Hgrade as [qs (Hit & Ht & Hl & Hs & Hb)].
      exists (JList (map question_dict Q)), qs, detailed.
      repeat split; try assumption; try lia.
      cbn [iter_items] in Hit. injection Hit as <-.
      rewrite length_map in Ht. destruct Q; [contradiction|]. cbn in Ht. lia.
Qed.

(** ** The key of the sweep *)

Lemma append_cons (h : ascii) (a b : string) :
  String h a +:+ b = String h (a +:+ b).
Proof. reflexivity. Qed.

Lemma append_nil_l (b : string) : "" +:+ b = b.
Proof. reflexivity. Qed.

Lemma append_assoc (a b c : string) : (a +:+ b) +:+ c = a +:+ (b +:+ c).
Proof.
  induction a as [|h a IH]; [reflexivity|].
  rewrite !append_cons, IH. reflexivity.
Qed.


Lemma contains_append (c : ascii) (a b : string) :
  contains c (a +:+ b) = contains c a || contains c b.
Proof.
  induction a as [|h a IH]; [reflexivity|].
  rewrite append_cons. cbn [contains].
  destruct (Ascii.eqb c h); [reflexivity | exact IH].
Qed.

Lemma all_chars_contains (p : ascii -> bool) (c : ascii) (s : string) :
  all_chars p s = true -> p c = false -> contains c s = false.
Proof.
  intros Hs Hc. induction s as [|h s IH]; cbn in *; [reflexivity|].
  apply andb_true_iff in Hs as [Hh Hs].
  destruct (Ascii.eqb_spec c h) as [->|_]; [congruence | auto].
Qed.

Lemma contains_head (c : ascii) (s : string) : contains c (String c s) = true.
Proof. cbn [contains]. rewrite Ascii.eqb_refl. reflexivity. Qed.

Lemma split_at_first_bar (a a' r r' : string) :
  contains BAR a = false -> contains BAR a' = false ->
  a +:+ String BAR r = a' +:+ String BAR r' -> a = a' /\ r = r'.
Proof.
  revert a'. induction a as [|h a IH]; intros [|h' a'] Ha Ha' E;
    rewrite ?append_cons, ?append_nil_l in E.
  - injection E as E. auto.
  - injection E as E1 E2. subst h'. rewrite contains_head in Ha'. discriminate.
  - injection E as E1 E2. subst h. rewrite contains_head in Ha. discriminate.
  - injection E as E1 E2. subst h'. cbn [contains] in Ha, Ha'.
    destruct (Ascii.eqb BAR h); [discriminate|].
    destruct (IH a' Ha Ha' E2) as [Ea Er]. subst. auto.
Qed.

Lemma split_at_last_bar (x x' c c' : string) :
  contains BAR c = false -> contains BAR c' = false ->
  x +:+ String BAR c = x' +:+ String BAR c' -> x = x' /\ c = c'.
Proof.
  intros Hc Hc'. revert x'.
  induction x as [|h x IH]; intros [|h' x'] E;
    rewrite ?append_cons, ?append_nil_l in E.
  - injection E as E. auto.
  - injection E as E1 E2. subst c.
    rewrite contains_append, contains_head, orb_true_r in Hc. discriminate.
  - injection E as E1 E2. subst c'.
    rewrite contains_append, contains_head, orb_true_r in Hc'. discriminate.
  - injection E as E1 E2. subst h'. destruct (IH x' E2) as [Ex Ec]. subst. auto.
Qed.

Lemma pretty_N_char_numeric (x : N) : numeric_char (pretty_N_char x) = true.
Proof.
  destruct x as [|p]; [reflexivity|].
  do 4 (try destruct p as [p|p|]); reflexivity.
Qed.

Lemma pretty_N_go_numeric (x : N) (s : string) :
  all_chars numeric_char s = true ->
  all_chars numeric_char (pretty_N_go x s) = true.
Proof.
  revert s. induction (N.lt_wf_0 x) as [x _ IH]; intros s Hs.
  destruct (N.eq_dec x 0%N) as [Hx|Hx]; [subst x; exact Hs|].
  rewrite pretty_N_go_step by lia.
  apply IH; [apply N.div_lt; lia|].
  cbn [all_chars]. rewrite pretty_N_char_numeric, Hs. reflexivity.
Qed.

Lemma pretty_Z_numeric (z : Z) : all_chars numeric_char (pretty z) = true.
Proof.
  assert (forall p : positive, all_chars numeric_char (pretty p) = true) as Hp.
  { intros p. unfold pretty, pretty_positive, pretty, pretty_N.
    rewrite decide_False by discriminate. apply pretty_N_go_numeric. reflexivity. }
  destruct z as [|p|p]; [reflexivity | apply Hp |].
  change (pretty (Z.neg p)) with ("-" +:+ pretty p).
  rewrite append_cons, append_nil_l. cbn [all_chars]. rewrite Hp. reflexivity.
Qed.

Lemma pretty_Z_no_bar (z : Z) : contains BAR (pretty z) = false.
Proof.
  apply (all_chars_contains numeric_char); [apply pretty_Z_numeric | reflexivity].
Qed.

(** [str(r.quiz_id)]: the text None or a printed integer. *)
Lemma quiz_id_text_no_bar (q : option Z) : contains BAR (py_str (opt_int q)) = false.
Proof. destruct q; [apply pretty_Z_no_bar | reflexivity]. Qed.

Lemma quiz_id_text_inj (q q' : option Z) :
  py_str (opt_int q) = py_str (opt_int q') -> q = q'.
Proof.
  destruct q as [n|], q' as [n'|]; cbn; intros E.
  - f_equal. apply (inj pretty), E.
  - pose proof (pretty_Z_numeric n) as H. rewrite E in H. discriminate.
  - pose proof (pretty_Z_numeric n') as H. rewrite <- E in H. discriminate.
  - reflexivity.
Qed.

Lemma regroup_two (u s t : string) :
  u +:+ String BAR (s +:+ String BAR t) = (u +:+ String BAR s) +:+ String BAR t.
Proof. rewrite append_assoc, append_cons. reflexivity. Qed.

Lemma regroup_three (u s t c : string) :
  u +:+ String BAR (s +:+ String BAR (t +:+ String BAR c))
  = (u +:+ String BAR (s +:+ String BAR t)) +:+ String BAR c.
Proof. rewrite !append_assoc, !append_cons, !append_assoc, !append_cons. reflexivity. Qed.

Section Sweep.

(** What the sweep needs of [isoformat]: different timestamps print
    differently, and a printed timestamp is not empty and has no bar. *)
Hypothesis isoformat_inj : forall t t', isoformat t = isoformat t' -> t = t'.
Hypothesis isoformat_no_bar : forall t, contains BAR (isoformat t) = false.
Hypothesis isoformat_nonempty : forall t, isoformat t <> "".

Lemma created_text_no_bar c : contains BAR (created_text c) = false.
Proof. destruct c; [apply isoformat_no_bar | reflexivity]. Qed.

Lemma created_text_inj c c' : created_text c = created_text c' -> c = c'.
Proof.
  destruct c as [t|], c' as [t'|]; cbn; intros E.
  - f_equal. apply isoformat_inj, E.
  - destruct (isoformat_nonempty t E).
  - destruct (isoformat_nonempty t' (eq_sym E)).
  - reflexivity.
Qed.

Lemma sweep_key_shape (u : string) (r : Result) :
  sweep_key u r
  = py_str (opt_int (r_quiz_id r))
    +:+ String BAR (u +:+ String BAR (pretty (r_score r)
    +:+ String BAR (pretty (r_total r)
    +:+ String BAR (created_text (r_created_at r))))).
Proof. reflexivity. Qed.

(** Two rows have the same key exactly when they agree on the quiz, the
    user key, the score, the total and the timestamp. *)
Lemma sweep_key_inj (u u' : string) (r r' : Result) :
  sweep_key u r = sweep_key u' r'
  <-> r_quiz_id r = r_quiz_id r' /\ u = u' /\ r_score r = r_score r'
      /\ r_total r = r_total r' /\ r_created_at r = r_created_at r'.
Proof.
  split.
  - rewrite !sweep_key_shape. intros E.
    apply split_at_first_bar in E as [Eq E]; try apply quiz_id_text_no_bar.
    apply quiz_id_text_inj in Eq.
    rewrite !regroup_three in E.
    apply split_at_last_bar in E as [E Ec]; try apply created_text_no_bar.
    apply created_text_inj in Ec.
    rewrite !regroup_two in E.
    apply split_at_last_bar in E as [E Et]; try apply pretty_Z_no_bar.
    apply (inj pretty) in Et.
    apply split_at_last_bar in E as [Eu Es]; try apply pretty_Z_no_bar.
    apply (inj pretty) in Es. auto.
  - intros (Hq & Hu & Hs & Ht & Hc). subst u'. unfold sweep_key.
    rewrite Hq, Hs, Ht, Hc. reflexivity.
Qed.

End Sweep.

(** ** The bulk sweep (cleanup) *)

Lemma oldest_first_le_total x y :
  oldest_first_le x y = false -> oldest_first_le y x = true.
Proof.
  unfold oldest_first_le, opt_eqb, opt_leb.
  destruct (r_created_at x) as [a|], (r_created_at y) as [b|];
    try discriminate; try reflexivity.
  - rewrite (Z.eqb_sym b a).
    destruct (Z.eqb_spec a b); rewrite ?Z.leb_gt, ?Z.leb_le; lia.
  - rewrite Z.leb_gt, Z.leb_le. lia.
Qed.

Lemma oldest_first_le_trans x y z :
  oldest_first_le x y = true -> oldest_first_le y z = true ->
  oldest_first_le x z = true.
Proof.
  unfold oldest_first_le, opt_eqb, opt_leb.
  destruct (r_created_at x) as [a|], (r_created_at y) as [b|],
    (r_created_at z) as [c|]; try discriminate; try reflexivity.
  - destruct (Z.eqb_spec a b), (Z.eqb_spec b c), (Z.eqb_spec a c);
      rewrite ?Z.leb_le; lia.
  - rewrite !Z.leb_le. lia.
Qed.

Lemma oldest_first_le_antisym x y :
  oldest_first_le x y = true -> oldest_first_le y x = true -> r_id x = r_id y.
Proof.
  unfold oldest_first_le, opt_eqb, opt_leb.
  destruct (r_created_at x) as [a|], (r_created_at y) as [b|];
    try discriminate.
  - rewrite (Z.eqb_sym b a).
    destruct (Z.eqb_spec a b); rewrite ?Z.leb_le; lia.
  - rewrite !Z.leb_le. lia.
Qed.

Lemma later_duplicate_spec (db : list Result) (r : Result) :
  later_duplicate db r = true
  <-> exists r', In r' db /\ row_identity r' = row_identity r
                 /\ stands_before r' r = true.
Proof.
  unfold later_duplicate. rewrite existsb_exists.
  split; intros [r' [Hin H]]; exists r'; split; try assumption.
  - apply andb_true_iff in H as [H1 H2]. apply bool_decide_eq_true in H1. auto.
  - destruct H as [H1 H2]. apply andb_true_iff. split; [|exact H2].
    apply bool_decide_eq_true. exact H1.
Qed.

Lemma later_duplicate_perm (l l' : list Result) (r : Result) :
  Permutation l l' -> later_duplicate l r = later_duplicate l' r.
Proof.
  intros Hp. apply eq_true_iff_eq. rewrite !later_duplicate_spec.
  split; intros [r' [Hin H]]; exists r'; split; try assumption.
  - eapply Permutation_in; eassumption.
  - eapply Permutation_in; [symmetry|]; eassumption.
Qed.

(** With unique ids, deleting by id is a filter. *)
Lemma delete_result_filter (rid : Z) (db : list Result) :
  NoDup (map r_id db) ->
  delete_result rid db = List.filter (fun r => negb (r_id r =? rid)%Z) db.
Proof.
  induction db as [|r db IH]; intros Hnd; [reflexivity|].
  cbn [map] in Hnd. apply NoDup_cons in Hnd as [Hnotin Hnd].
  cbn [delete_result List.filter].
  destruct (Z.eqb_spec (r_id r) rid) as [E|E]; cbn [negb].
  - symmetry. apply forallb_filter_id. apply forallb_forall. intros x Hx.
    apply negb_true_iff, Z.eqb_neq. intros E'. apply Hnotin.
    apply list_elem_of_In. rewrite E, <- E'. apply in_map, Hx.
  - rewrite IH by exact Hnd. reflexivity.
Qed.

Lemma NoDup_map_filter (f : Result -> bool) (db : list Result) :
  NoDup (map r_id db) -> NoDup (map r_id (List.filter f db)).
Proof.
  induction db as [|r db IH]; intros Hnd; [constructor|].
  cbn [map] in Hnd. apply NoDup_cons in Hnd as [Hnotin Hnd].
  cbn [List.filter]. destruct (f r); [|auto].
  cbn [map]. apply NoDup_cons. split; [|auto].
  intros Hin. apply Hnotin. apply list_elem_of_In in Hin.
  apply list_elem_of_In. apply in_map_iff in Hin as [x [Hx Hin]].
  apply filter_In in Hin as [Hin _]. rewrite <- Hx. apply in_map, Hin.
Qed.

Lemma filter_filter_andb (f g : Result -> bool) (db : list Result) :
  List.filter g (List.filter f db) = List.filter (fun r => f r && g r) db.
Proof.
  induction db as [|r db IH]; [reflexivity|]. cbn [List.filter].
  destruct (f r); cbn [List.filter andb]; [destruct (g r)|]; congruence.
Qed.

Lemma delete_all_filter (ids : list Z) (db : list Result) :
  NoDup (map r_id db) ->
  fold_left (fun d rid => delete_result rid d) ids db
  = List.filter (fun r => negb (existsb (Z.eqb (r_id r)) ids)) db.
Proof.
  revert db. induction ids as [|rid ids IH]; intros db Hnd.
  - cbn. symmetry. apply forallb_filter_id, forallb_forall. reflexivity.
  - cbn [fold_left]. rewrite delete_result_filter by exact Hnd.
    rewrite IH by (apply NoDup_map_filter, Hnd).
    rewrite filter_filter_andb. apply filter_ext. intros r. cbn [existsb].
    rewrite negb_orb. reflexivity.
Qed.

Section Cleanup.

Hypothesis isoformat_inj : forall t t', isoformat t = isoformat t' -> t = t'.
Hypothesis isoformat_no_bar : forall t, contains BAR (isoformat t) = false.
Hypothesis isoformat_nonempty : forall t, isoformat t <> "".

(** Rows whose user key can be computed have the same key exactly when they
    have the same identity. *)
Lemma same_key_same_identity (r r' : Result) (u u' : string) :
  make_user_key (r_user r) = Ok u -> make_user_key (r_user r') = Ok u' ->
  (sweep_key u r = sweep_key u' r' <-> row_identity r = row_identity r').
Proof.
  intros Hu Hu'. unfold row_identity. rewrite Hu, Hu'.
  rewrite (sweep_key_inj isoformat_inj isoformat_no_bar isoformat_nonempty).
  split.
  - intros (-> & -> & -> & -> & ->). reflexivity.
  - intros E. injection E as -> -> -> -> ->. auto.
Qed.

(** The loop, started after the rows [pre] with their keys in [seen]. *)
Lemma collect_duplicates_spec (rest : list Result) :
  forall (pre : list Result) (seen : gset string) (acc : list Z),
    (forall r, In r (pre ++ rest) -> exists u, make_user_key (r_user r) = Ok u) ->
    sorted_by oldest_first_le (pre ++ rest) ->
    NoDup (map r_id (pre ++ rest)) ->
    (forall k, k ∈ seen <->
       exists r' u', In r' pre /\ make_user_key (r_user r') = Ok u'
                     /\ k = sweep_key u' r') ->
    collect_duplicates rest seen acc
    = Ok (acc ++ map r_id (List.filter (later_duplicate (pre ++ rest)) rest)).
Proof.
  induction rest as [|r rest IH]; intros pre seen acc Hok Hsorted Hnd Hseen.
  - cbn. rewrite app_nil_r. reflexivity.
  - cbn [collect_duplicates List.filter].
    destruct (Hok r) as [u Hu]; [apply in_or_app; right; left; reflexivity|].
    rewrite Hu.
    assert (forall r', In r' pre -> stands_before r' r = true) as Hbefore.
    { intros r' Hr'. unfold stands_before. apply andb_true_iff. split.
      - apply (StronglySorted_app_1_elem_of _ pre (r :: rest) r' r Hsorted).
        + apply list_elem_of_In, Hr'.
        + apply list_elem_of_In. left. reflexivity.
      - apply negb_true_iff, Z.eqb_neq. intros E.
        rewrite map_app in Hnd. cbn [map] in Hnd.
        apply NoDup_app in Hnd as (_ & Hdisj & _).
        apply (Hdisj (r_id r')).
        + apply list_elem_of_In, in_map, Hr'.
        + rewrite E. apply list_elem_of_In. left. reflexivity. }
    assert (forall r', In r' rest -> stands_before r' r = false) as Hafter.
    { intros r' Hr'. unfold stands_before. apply andb_false_iff.
      destruct (oldest_first_le r' r) eqn:Hle; [right | left; reflexivity].
      apply negb_false_iff, Z.eqb_eq.
      apply oldest_first_le_antisym; [exact Hle|].
      apply StronglySorted_app_1_r in Hsorted.
      apply StronglySorted_cons in Hsorted as [Hall _].
      rewrite Forall_forall in Hall. apply Hall, list_elem_of_In, Hr'. }
    assert (later_duplicate (pre ++ r :: rest) r
            = bool_decide (sweep_key u r ∈ seen)) as Hdup.
    { apply eq_true_iff_eq. rewrite later_duplicate_spec, bool_decide_eq_true, Hseen.
      split.
      - intros (r' & Hin & Hid & Hsb).
        apply in_app_or in Hin as [Hin|[<-|Hin]].
        + destruct (Hok r') as [u' Hu']; [apply in_or_app; left; exact Hin|].
          exists r', u'. repeat split; try assumption.
          symmetry. apply (same_key_same_identity r' r u' u Hu' Hu), Hid.
        + unfold stands_before in Hsb. rewrite Z.eqb_refl, andb_false_r in Hsb.
          discriminate.
        + rewrite (Hafter r' Hin) in Hsb. discriminate.
      - intros (r' & u' & Hin & Hu' & Hk).
        exists r'. split; [apply in_or_app; left; exact Hin|].
        split; [|apply Hbefore, Hin].
        apply (same_key_same_identity r' r u' u Hu' Hu). symmetry. exact Hk. }
    rewrite Hdup.
    assert (pre ++ r :: rest = (pre ++ [r]) ++ rest) as Hre
      by (rewrite <- app_assoc; reflexivity).
    destruct (decide (sweep_key u r ∈ seen)) as [Hin|Hnotin].
    + rewrite bool_decide_eq_true_2 by exact Hin.
      rewrite (IH (pre ++ [r]) seen (acc ++ [r_id r])).
      * rewrite <- Hre. cbn [map]. rewrite <- app_assoc. reflexivity.
      * rewrite <- Hre. exact Hok.
      * rewrite <- Hre. exact Hsorted.
      * rewrite <- Hre. exact Hnd.
      * intros k. rewrite Hseen. split.
        -- intros (r' & u' & Hr' & H). exists r', u'.
           split; [apply in_or_app; left; exact Hr' | exact H].
        -- intros (r' & u' & Hr' & Hu' & Hk).
           apply in_app_or in Hr' as [Hr'|[<-|[]]].
           ++ exists r', u'. auto.
           ++ rewrite Hu in Hu'. injection Hu' as <-. subst k.
              apply Hseen. exact Hin.
    + rewrite bool_decide_eq_false_2 by exact Hnotin.
      rewrite (IH (pre ++ [r]) ({[sweep_key u r]} ∪ seen) acc).
      * rewrite <- Hre. reflexivity.
      * rewrite <- Hre. exact Hok.
      * rewrite <- Hre. exact Hsorted.
      * rewrite <- Hre. exact Hnd.
      * intros k. rewrite elem_of_union, elem_of_singleton, Hseen. split.
        -- intros [->|(r' & u' & Hr' & H)].
           ++ exists r, u. split; [apply in_or_app; right; left; reflexivity|].
              auto.
           ++ exists r', u'. split; [apply in_or_app; left; exact Hr' | exact H].
        -- intros (r' & u' & Hr' & Hu' & Hk).
           apply in_app_or in Hr' as [Hr'|[<-|[]]].
           ++ right. exists r', u'. auto.
           ++ left. rewrite Hu in Hu'. injection Hu' as <-. exact Hk.
Qed.

Lemma NoDup_map_inj_on (db : list Result) (x y : Result) :
  NoDup (map r_id db) -> In x db -> In y db -> r_id x = r_id y -> x = y.
Proof.
  induction db as [|r db IH]; intros Hnd Hx Hy E; [destruct Hx|].
  cbn [map] in Hnd. apply NoDup_cons in Hnd as [Hnotin Hnd].
  destruct Hx as [->|Hx], Hy as [->|Hy]; auto.
  - exfalso. apply Hnotin. rewrite E. apply list_elem_of_In, in_map, Hy.
  - exfalso. apply Hnotin. rewrite <- E. apply list_elem_of_In, in_map, Hx.
Qed.

(** The ids the loop collects. *)
Lemma collect_duplicates_all (db : list Result) :
  NoDup (map r_id db) ->
  (forall r, In r db -> exists u, make_user_key (r_user r) = Ok u) ->
  collect_duplicates (oldest_first db) ∅ [] = Ok (removed_ids db).
Proof.
  intros Hnd Hok.
  rewrite (collect_duplicates_spec (oldest_first db) [] ∅ []).
  - cbn [app]. unfold removed_ids. do 2 f_equal.
    apply filter_ext. intros r. apply later_duplicate_perm, sort_by_perm.
  - cbn [app]. intros r Hr. apply Hok.
    exact (proj1 (sort_by_In oldest_first_le db r) Hr).
  - cbn [app]. apply sort_by_sorted.
    + apply oldest_first_le_total.
    + apply oldest_first_le_trans.
  - cbn [app].
    assert (Permutation (map r_id (oldest_first db)) (map r_id db)) as Hp
      by apply Permutation_map, sort_by_perm.
    rewrite Hp. exact Hnd.
  - intros k. split; [intros H; exfalso; exact (not_elem_of_empty k H)|].
    intros (r' & u' & [] & _).
Qed.

Lemma removed_ids_spec (db : list Result) (r : Result) :
  NoDup (map r_id db) -> In r db ->
  existsb (Z.eqb (r_id r)) (removed_ids db) = later_duplicate db r.
Proof.
  intros Hnd Hr. apply eq_true_iff_eq. rewrite existsb_exists. split.
  - intros [i [Hi E]]. apply Z.eqb_eq in E. subst i.
    unfold removed_ids in Hi. apply in_map_iff in Hi as [x [Ex Hx]].
    apply filter_In in Hx as [Hx Hdup].
    apply (proj1 (sort_by_In oldest_first_le db x)) in Hx.
    rewrite <- (NoDup_map_inj_on db x r Hnd Hx Hr Ex). exact Hdup.
  - intros Hdup. exists (r_id r). split; [|apply Z.eqb_refl].
    unfold removed_ids. apply in_map, filter_In. split; [|exact Hdup].
    exact (proj2 (sort_by_In oldest_first_le db r) Hr).
Qed.

(** C7, as the code has it. On a table with unique ids whose user keys can
    all be computed, the sweep reads the rows oldest first by
    (created_at, id), keeps for every key the first row that has it and
    deletes every later row with the same key; it prints the removed ids
    and returns None. Two rows have the same key exactly when they agree on
    quiz, user key, score, total and timestamp, so rows with different
    timestamps are never duplicates of each other, and a row whose
    timestamp no other row has is kept. *)
Theorem sweep_keeps_first_of_each_key (db : list Result) :
  NoDup (map r_id db) ->
  (forall r, In r db -> exists u, make_user_key (r_user r) = Ok u) ->
  exists s,
    cleanup db = Ok s
    /\ returned s = JNull
    /\ remaining s = List.filter (fun r => negb (later_duplicate db r)) db
    /\ printed s
       = match removed_ids db with
         | [] => ["No duplicate results found."]
         | _ :: _ =>
             ["Found " +:+ pretty (Z.of_nat (length (removed_ids db)))
              +:+ " duplicate result(s). Deleting...";
              "Duplicates removed: "
              +:+ py_str (JList (map JInt (removed_ids db)))]
         end
    /\ (forall r r' u u',
          make_user_key (r_user r) = Ok u -> make_user_key (r_user r') = Ok u' ->
          (sweep_key u r = sweep_key u' r' <-> row_identity r = row_identity r'))
    /\ (forall r r', In r db -> In r' db ->
          r_created_at r <> r_created_at r' -> row_identity r <> row_identity r')
    /\ (forall r, In r db ->
          (forall r', In r' db -> r' <> r -> r_created_at r' <> r_created_at r) ->
          In r (remaining s)).
Proof.
  intros Hnd Hok.
  assert (forall r r', In r db -> In r' db ->
            r_created_at r <> r_created_at r' -> row_identity r <> row_identity r')
    as Hstamp.
  { intros r r' Hr Hr' Hne E. unfold row_identity in E.
    destruct (Hok r Hr) as [u Hu], (Hok r' Hr') as [u' Hu'].
    rewrite Hu, Hu' in E. injection E as _ _ _ _ E. contradiction. }
  assert (fold_left (fun d rid => delete_result rid d) (removed_ids db) db
          = List.filter (fun r => negb (later_duplicate db r)) db) as Hrem.
  { rewrite delete_all_filter by exact Hnd.
    apply filter_ext_in. intros r Hr. rewrite removed_ids_spec; auto. }
  assert (forall r, In r db ->
            (forall r', In r' db -> r' <> r -> r_created_at r' <> r_created_at r) ->
            In r (List.filter (fun r => negb (later_duplicate db r)) db)) as Hkept.
  { intros r Hr Hothers. apply filter_In. split; [exact Hr|].
    apply negb_true_iff. destruct (later_duplicate db r) eqn:Hdup; [|reflexivity].
    exfalso. apply later_duplicate_spec in Hdup as (r' & Hr' & Hid & Hsb).
    assert (r' <> r) as Hne.
    { intros ->. unfold stands_before in Hsb.
      rewrite Z.eqb_refl, andb_false_r in Hsb. discriminate. }
    exact (Hstamp r' r Hr' Hr (Hothers r' Hr' Hne) Hid). }
  unfold cleanup. rewrite (collect_duplicates_all db Hnd Hok).
  destruct (removed_ids db) as [|i ids] eqn:Hids.
  - cbn [fold_left] in Hrem.
    exists {| returned := JNull; printed := ["No duplicate results found."];
              remaining := List.filter (fun r => negb (later_duplicate db r)) db |}.
    split; [rewrite <- Hrem; reflexivity|]. cbn [returned remaining printed].
    split; [reflexivity|]. split; [reflexivity|]. split; [reflexivity|].
    split; [intros; apply same_key_same_identity; assumption|].
    split; [exact Hstamp | exact Hkept].
  - rewrite Hrem.
    eexists. split; [reflexivity|]. cbn [returned remaining printed].
    split; [reflexivity|]. split; [reflexivity|]. split; [reflexivity|].
    split; [intros; apply same_key_same_identity; assumption|].
    split; [exact Hstamp | exact Hkept].
Qed.

End Cleanup.

(** ** The canonical encoding and the fingerprint *)



















(** *** Key order *)

Lemma key_le_total {A} (x y : string * A) :
  Json.key_le x y = false -> Json.key_le y x = true.
Proof.
  unfold Json.key_le. intros H.
  destruct (String.leb_total (fst x) (fst y)) as [E|E]; congruence.
Qed.

Lemma key_le_trans {A} (x y z : string * A) :
  Json.key_le x y = true -> Json.key_le y z = true -> Json.key_le x z = true.
Proof.
  unfold Json.key_le. intros H1 H2.
  apply Is_true_true. apply Is_true_true in H1, H2.
  exact (transitivity (R := String.le) H1 H2).
Qed.

Lemma unique_key_item {A} (l : list (string * A)) (x y : string * A) :
  NoDup (map fst l) -> In x l -> In y l -> fst x = fst y -> x = y.
Proof.
  induction l as [|a l IH]; intros Hnd Hx Hy E; [destruct Hx|].
  cbn [map] in Hnd. apply NoDup_cons in Hnd as [Hnotin Hnd].
  destruct Hx as [->|Hx], Hy as [->|Hy]; auto.
  - exfalso. apply Hnotin. rewrite E. apply list_elem_of_In, in_map, Hy.
  - exfalso. apply Hnotin. rewrite <- E. apply list_elem_of_In, in_map, Hx.
Qed.

(** With unique keys the sorted items do not depend on the insertion
    order. *)
Lemma sort_items_perm {A} (l l' : list (string * A)) :
  NoDup (map fst l) -> Permutation l l' ->
  Json.sort_items l = Json.sort_items l'.
Proof.
  intros Hnd Hp. unfold Json.sort_items.
  apply (StronglySorted_unique_strong (fun x y => Json.key_le x y = true)).
  - intros x y Hx Hy H1 H2.
    apply list_elem_of_In in Hx, Hy.
    apply (proj1 (sort_by_In Json.key_le l x)) in Hx.
    apply (proj1 (sort_by_In Json.key_le l' y)) in Hy.
    apply (Permutation_in _ (Permutation_sym Hp)) in Hy.
    apply (unique_key_item l x y Hnd Hx Hy).
    apply String.leb_antisym; assumption.
  - apply sort_by_sorted; [apply key_le_total | apply key_le_trans].
  - apply sort_by_sorted; [apply key_le_total | apply key_le_trans].
  - rewrite !sort_by_perm. exact Hp.
Qed.

Lemma dumps_dict (kvs : list (string * json)) :
  Json.dumps (JDict kvs)
  = "{" +:+ join "," (map Json.encode_item (Json.sort_items (map rendered kvs)))
        +:+ "}".
Proof. reflexivity. Qed.

Lemma dumps_dict_perm (kvs mid kvs' : list (string * json)) :
  NoDup (map fst kvs) ->
  Forall2 (fun a b => fst a = fst b /\ Json.dumps (snd a) = Json.dumps (snd b))
    kvs mid ->
  Permutation mid kvs' ->
  Json.dumps (JDict kvs) = Json.dumps (JDict kvs').
Proof.
  intros Hnd Hvals Hp. rewrite !dumps_dict.
  assert (map rendered kvs = map rendered mid) as Hmid.
  { clear Hnd Hp. induction Hvals as [|a b l l' [Hk Hv] _ IH]; [reflexivity|].
    cbn [map]. rewrite IH. unfold rendered. rewrite Hk, Hv. reflexivity. }
  rewrite (sort_items_perm (map rendered kvs) (map rendered kvs')).
  - reflexivity.
  - rewrite map_map. exact Hnd.
  - rewrite Hmid. apply Permutation_map, Hp.
Qed.

Lemma dumps_list_congr (xs ys : list json) :
  Forall2 (fun x y => Json.dumps x = Json.dumps y) xs ys ->
  Json.dumps (JList xs) = Json.dumps (JList ys).
Proof.
  intros H. cbn [Json.dumps]. do 3 f_equal.
  induction H as [|x y xs ys E _ IH]; [reflexivity|].
  cbn [map]. rewrite E, IH. reflexivity.
Qed.

(** *** The digest is a 256-bit number and the hex text keeps it *)






(** *** UTF-8 *)



(** *** The fingerprint *)

Lemma key_order_variant_dumps (q q' : json) :
  key_order_variant q q' -> Json.dumps q = Json.dumps q'.
Proof.
  intros (kvs & kvs' & -> & -> & Hnd & Hp).
  apply (dumps_dict_perm kvs kvs kvs' Hnd); [|exact Hp].
  clear. induction kvs; constructor; auto.
Qed.





(** ** Further properties of the code *)

(** *** The fingerprint and the quiz table *)

Lemma hex_digit_lower (n : N) : lower_hex_char (hex_digit n) = true.
Proof.
  destruct n as [|p]; [reflexivity|].
  do 4 (try destruct p as [p|p|]); reflexivity.
Qed.

Lemma hex_go_length (k : nat) :
  forall n acc,
    String.length (Sha256.hex_go k n acc) = (k + String.length acc)%nat.
Proof.
  induction k as [|k IH]; intros n acc; cbn [Sha256.hex_go]; [reflexivity|].
  rewrite IH. cbn [String.length]. lia.
Qed.

Lemma hex_go_chars (k : nat) :
  forall n acc,
    all_chars lower_hex_char acc = true ->
    all_chars lower_hex_char (Sha256.hex_go k n acc) = true.
Proof.
  induction k as [|k IH]; intros n acc Hacc; cbn [Sha256.hex_go]; [exact Hacc|].
  apply IH. cbn [all_chars]. rewrite hex_digit_lower. exact Hacc.
Qed.

(** X1. The fingerprint of any question list is a text of exactly 64
    lower case hexadecimal digits, whatever the questions are. *)
Theorem fingerprint_shape (questions : list json) :
  String.length (_questions_fingerprint questions) = 64%nat
  /\ all_chars lower_hex_char (_questions_fingerprint questions) = true.
Proof.
  unfold _questions_fingerprint, Sha256.hexdigest. split.
  - rewrite hex_go_length. reflexivity.
  - apply hex_go_chars. reflexivity.
Qed.

Lemma quiz_by_fingerprint_map fp id t db :
  quiz_by_fingerprint fp (map (set_title id t) db)
  = option_map (set_title id t) (quiz_by_fingerprint fp db).
Proof.
  unfold quiz_by_fingerprint. induction db as [|q db IH]; [reflexivity|].
  cbn [map List.find]. rewrite set_title_fingerprint.
  destruct (opt_eqb String.eqb (q_fingerprint q) (Some fp)); [reflexivity|exact IH].
Qed.

Lemma find_app_none {A} (m : A -> bool) (l l' : list A) :
  List.find m l = None -> List.find m (l ++ l') = List.find m l'.
Proof.
  induction l as [|x l IH]; [reflexivity|]. cbn [List.find app].
  destruct (m x); [discriminate | exact IH].
Qed.

Lemma find_app_some {A} (m : A -> bool) (l l' : list A) (x : A) :
  List.find m l = Some x -> List.find m (l ++ l') = Some x.
Proof.
  induction l as [|y l IH]; [discriminate|]. cbn [List.find app].
  destruct (m y); [auto | exact IH].
Qed.

(** After a save the quiz with the fingerprint of the questions is the one
    whose id was returned; it holds the questions when it was inserted. *)
Lemma saved_quiz_found stamp title questions db :
  exists row,
    quiz_by_fingerprint (_questions_fingerprint questions)
      (snd (save_quiz_to_db_sync stamp title questions db)) = Some row
    /\ q_id row = fst (save_quiz_to_db_sync stamp title questions db)
    /\ (quiz_by_fingerprint (_questions_fingerprint questions) db = None ->
        q_questions row = JList questions
        /\ snd (save_quiz_to_db_sync stamp title questions db) = db ++ [row]
        /\ q_id row = next_id (map q_id db)).
Proof.
  unfold save_quiz_to_db_sync.
  destruct (quiz_by_fingerprint (_questions_fingerprint questions) db)
    as [existing|] eqn:E.
  - destruct (backfills title existing); cbn [fst snd].
    + rewrite quiz_by_fingerprint_map, E. cbn [option_map].
      eexists. split; [reflexivity|]. split; [apply set_title_id|].
      intros H. discriminate.
    + exists existing. split; [exact E|]. split; [reflexivity|].
      intros H. discriminate.
  - cbn [fst snd]. eexists. split.
    + unfold quiz_by_fingerprint in *. rewrite (find_app_none _ _ _ E).
      cbn [List.find q_fingerprint opt_eqb]. rewrite String.eqb_refl. reflexivity.
    + cbn [q_id q_questions]. auto.
Qed.

Lemma quiz_by_fingerprint_none fp db :
  quiz_by_fingerprint fp db = None -> rows_with_fingerprint fp db = [].
Proof.
  rewrite quiz_by_fingerprint_head.
  destruct (rows_with_fingerprint fp db); [reflexivity | discriminate].
Qed.

Lemma next_id_fresh (ids : list Z) : ~ In (next_id ids) ids.
Proof. intros H. apply next_id_above in H. exact (Z.lt_irrefl _ H). Qed.

(** X2. [save_quiz_to_db_sync] keeps the quiz table well formed: when the
    ids are pairwise distinct and no two rows share a fingerprint before
    the call, both hold after it, whichever branch it takes, and the id it
    returns is the id of a stored row. *)
Theorem save_quiz_keeps_table_well_formed (stamp : Z) (title : option string)
    (questions : list json) (db : list Quiz) :
  NoDup (map q_id db) ->
  one_row_per_fingerprint db ->
  NoDup (map q_id (snd (save_quiz_to_db_sync stamp title questions db)))
  /\ one_row_per_fingerprint (snd (save_quiz_to_db_sync stamp title questions db))
  /\ In (fst (save_quiz_to_db_sync stamp title questions db))
       (map q_id (snd (save_quiz_to_db_sync stamp title questions db))).
Proof.
  intros Hnd Hone.
  split; [|split].
  - unfold save_quiz_to_db_sync.
    destruct (quiz_by_fingerprint (_questions_fingerprint questions) db)
      as [existing|] eqn:E.
    + destruct (backfills title existing); cbn [snd]; [|exact Hnd].
      rewrite map_map. erewrite map_ext; [exact Hnd|].
      intros q. apply set_title_id.
    + cbn [snd]. rewrite map_app. cbn [map q_id].
      apply NoDup_app. split; [exact Hnd|]. split; [|apply NoDup_singleton].
      intros i Hi Hi'. apply list_elem_of_In in Hi.
      apply list_elem_of_In in Hi'. destruct Hi' as [<-|[]].
      exact (next_id_fresh _ Hi).
  - unfold save_quiz_to_db_sync.
    destruct (quiz_by_fingerprint (_questions_fingerprint questions) db)
      as [existing|] eqn:E.
    + destruct (backfills title existing); cbn [snd]; [|exact Hone].
      intros fp. rewrite rows_with_fingerprint_set_title, length_map. apply Hone.
    + cbn [snd]. intros fp. unfold rows_with_fingerprint.
      rewrite filter_app, length_app, filter_cons, filter_nil.
      cbn [q_fingerprint].
      destruct (decide (Some (_questions_fingerprint questions) = Some fp))
        as [Efp|Efp].
      * injection Efp as <-. apply quiz_by_fingerprint_none in E.
        unfold rows_with_fingerprint in E. rewrite E. apply le_n.
      * specialize (Hone fp). unfold rows_with_fingerprint in Hone.
        cbn [length]. rewrite Nat.add_0_r. exact Hone.
  - destruct (saved_quiz_found stamp title questions db) as (row & Hfind & Hid & _).
    rewrite <- Hid. apply in_map.
    unfold quiz_by_fingerprint in Hfind. apply List.find_some in Hfind.
    exact (proj1 Hfind).
Qed.

(** X3. Saving a question list and then the same questions with the keys
    of any of them in another order stores one quiz: the second call
    returns the id of the first and adds no row. *)
Theorem key_order_variant_is_deduplicated (stamp1 stamp2 : Z)
    (title1 title2 : option string) (Q Q' : list json) (db : list Quiz) :
  Forall2 key_order_variant Q Q' ->
  fst (save_quiz_to_db_sync stamp2 title2 Q'
         (snd (save_quiz_to_db_sync stamp1 title1 Q db)))
  = fst (save_quiz_to_db_sync stamp1 title1 Q db)
  /\ length (snd (save_quiz_to_db_sync stamp2 title2 Q'
                    (snd (save_quiz_to_db_sync stamp1 title1 Q db))))
     = length (snd (save_quiz_to_db_sync stamp1 title1 Q db)).
Proof.
  intros Hvar.
  assert (_questions_fingerprint Q' = _questions_fingerprint Q) as Hfp.
  { unfold _questions_fingerprint, canonical. do 2 f_equal. symmetry.
    apply dumps_list_congr.
    eapply Forall2_impl; [exact Hvar|]. apply key_order_variant_dumps. }
  destruct (saved_quiz_found stamp1 title1 Q db) as (row & Hfind & Hid & _).
  remember (save_quiz_to_db_sync stamp1 title1 Q db) as s1.
  unfold save_quiz_to_db_sync at 1 2. rewrite Hfp, Hfind.
  destruct (backfills title2 row); cbn [fst snd].
  - split; [exact Hid | apply length_map].
  - split; [exact Hid | reflexivity].
Qed.

(** *** The result table *)

Lemma field_note_absent (r : Result) : field "note" (result_dict r false) = JNull.
Proof. reflexivity. Qed.

Lemma field_note_present (r : Result) :
  field "note" (result_dict r true) = JStr deduped_note.
Proof. reflexivity. Qed.

(** X4. [save_result_sync] never touches a stored row: the table after the
    call is the table before it, or that table with one row appended whose
    id no stored row has; so pairwise distinct ids stay pairwise
    distinct. *)
Theorem save_result_keeps_rows (now stamp : Z) (quiz_id : option Z)
    (score total : Z) (answers user : json) (window : Z) (db : list Result) :
  (snd (save_result_sync now stamp quiz_id score total answers user window db) = db
   \/ exists r,
        snd (save_result_sync now stamp quiz_id score total answers user window db)
        = db ++ [r]
        /\ ~ In (r_id r) (map r_id db))
  /\ (NoDup (map r_id db) ->
      NoDup (map r_id
               (snd (save_result_sync now stamp quiz_id score total answers user
                       window db)))).
Proof.
  unfold save_result_sync, resolve_attempt.
  destruct (List.find _ _) as [cand|]; cbn [snd].
  - split; [left; reflexivity | auto].
  - split.
    + right. eexists. split; [reflexivity|]. cbn [r_id]. apply next_id_fresh.
    + intros Hnd. rewrite map_app. cbn [map r_id].
      apply NoDup_app. split; [exact Hnd|]. split; [|apply NoDup_singleton].
      intros i Hi Hi'. apply list_elem_of_In in Hi.
      apply list_elem_of_In in Hi'. destruct Hi' as [<-|[]].
      exact (next_id_fresh _ Hi).
Qed.

(** X5. A call that answers with the note of a reuse returns a stored row
    that is the same attempt: same quiz, score and total, answers and user
    with the same canonical encoding, created at or after the cutoff; and
    it stores nothing. *)
Theorem reused_result_is_same_attempt (now stamp : Z) (quiz_id : option Z)
    (score total : Z) (answers user : json) (window : Z) (db : list Result) :
  field "note"
    (fst (save_result_sync now stamp quiz_id score total answers user window db))
  = JStr deduped_note ->
  exists r,
    In r db
    /\ fst (save_result_sync now stamp quiz_id score total answers user window db)
       = result_dict r true
    /\ snd (save_result_sync now stamp quiz_id score total answers user window db)
       = db
    /\ r_quiz_id r = quiz_id /\ r_score r = score /\ r_total r = total
    /\ Json.dumps (r_answers r) = Json.dumps answers
    /\ user_str (cand_user_norm (r_user r)) = user_str (normalize_user user)
    /\ exists t, r_created_at r = Some t /\ (now - window * 1000000 <= t)%Z.
Proof.
  unfold save_result_sync, resolve_attempt.
  destruct (List.find _ _) as [cand|] eqn:E; cbn [fst snd].
  - intros _. apply List.find_some in E as [Hin Hsame].
    apply In_candidates in Hin as [Hin Hcand].
    apply is_candidate_spec in Hcand as (Hs & Ht & Hq & Hc).
    unfold same_attempt in Hsame. apply andb_true_iff in Hsame as [Ha Hu].
    apply String.eqb_eq in Ha. apply String.eqb_eq in Hu.
    exists cand. repeat (split; [assumption || reflexivity|]). exact Hc.
  - rewrite field_note_absent. discriminate.
Qed.

Lemma newer_refl (r : Result) : newer r r = true.
Proof.
  pose proof (newer_total r r) as H. destruct (newer r r); auto.
Qed.

(** X6. [get_latest_result_sync] returns None exactly on the empty table;
    otherwise it returns the dict of a stored row that no stored row is
    newer than, with the answers under [detailed]. *)
Theorem latest_result_is_newest (db : list Result) :
  (get_latest_result_sync db = None <-> db = [])
  /\ (forall d, get_latest_result_sync db = Some d ->
        exists r,
          In r db /\ d = latest_dict r
          /\ field "detailed" d = r_answers r
          /\ forall r', In r' db ->
               opt_leb (r_created_at r') (r_created_at r) = true).
Proof.
  unfold get_latest_result_sync, newest_first.
  pose proof (sort_by_perm newer db) as Hp.
  pose proof (sort_by_sorted newer newer_total newer_trans db) as Hs.
  destruct (sort_by newer db) as [|r l] eqn:E.
  - split.
    + split; [intros _|reflexivity].
      apply Permutation_nil in Hp. exact Hp.
    + intros d H. discriminate.
  - split.
    + split; [discriminate|]. intros ->. discriminate.
    + intros d H. injection H as <-. exists r.
      split; [apply (Permutation_in _ Hp); left; reflexivity|].
      split; [reflexivity|]. split; [reflexivity|].
      intros r' Hr'. apply (Permutation_in _ (Permutation_sym Hp)) in Hr'.
      destruct Hr' as [<-|Hr']; [apply (newer_refl r)|].
      apply StronglySorted_cons in Hs as [Hall _].
      rewrite Forall_forall in Hall. apply Hall, list_elem_of_In, Hr'.
Qed.

Lemma sort_by_newest_last (r : Result) (db : list Result) :
  Forall (fun x => newer x r = false) db ->
  exists l, foldr (insert_by newer) [r] db = r :: l.
Proof.
  induction 1 as [|x db Hx _ [l IH]]; cbn [foldr]; [eauto|].
  rewrite IH. cbn [insert_by]. rewrite Hx. eauto.
Qed.

(** X7. When a call inserts a row whose timestamp is later than that of
    every stored row, the latest result is the inserted row: what
    [get_latest_result_sync] gives next has the id, the score and the
    answers the call returned. *)
Theorem inserted_result_is_latest (now stamp : Z) (quiz_id : option Z)
    (score total : Z) (answers user : json) (window : Z) (db : list Result) :
  (forall r t, In r db -> r_created_at r = Some t -> (t < stamp)%Z) ->
  field "note"
    (fst (save_result_sync now stamp quiz_id score total answers user window db))
  <> JStr deduped_note ->
  exists r,
    fst (save_result_sync now stamp quiz_id score total answers user window db)
    = result_dict r false
    /\ get_latest_result_sync
         (snd (save_result_sync now stamp quiz_id score total answers user
                 window db))
       = Some (latest_dict r)
    /\ r_score r = score /\ r_total r = total /\ r_answers r = answers
    /\ r_quiz_id r = quiz_id /\ r_created_at r = Some stamp.
Proof.
  intros Hold. unfold save_result_sync, resolve_attempt.
  destruct (List.find _ _) as [cand|] eqn:E; cbn [fst snd].
  - rewrite field_note_present. intros H. contradiction.
  - intros _. eexists. split; [reflexivity|].
    split; [|cbn; auto 10].
    unfold get_latest_result_sync, newest_first, sort_by.
    rewrite foldr_app. cbn [foldr insert_by].
    match goal with
    | |- context [foldr (insert_by newer) [?row] db] =>
        destruct (sort_by_newest_last row db) as [l Hl]
    end.
    + apply Forall_forall. intros x Hx. apply list_elem_of_In in Hx.
      unfold newer, opt_leb. cbn [r_created_at].
      destruct (r_created_at x) as [t|] eqn:Et; [|reflexivity].
      apply Z.leb_gt. exact (Hold x t Hx Et).
    + rewrite Hl. reflexivity.
Qed.

(** *** Grading *)

Lemma rstrip_cons (c : ascii) (s : string) :
  rstrip (String c s)
  = match rstrip s with
    | EmptyString => if is_space c then EmptyString else String c EmptyString
    | r => String c r
    end.
Proof. reflexivity. Qed.

Lemma rstrip_idem (s : string) : rstrip (rstrip s) = rstrip s.
Proof.
  induction s as [|c s IH]; [reflexivity|]. rewrite rstrip_cons.
  destruct (rstrip s) as [|d r] eqn:E.
  - destruct (is_space c) eqn:Ec; [reflexivity|].
    rewrite rstrip_cons. cbn [rstrip]. rewrite Ec. reflexivity.
  - rewrite rstrip_cons, IH. reflexivity.
Qed.

Lemma lstrip_head (s : string) :
  lstrip s = "" \/ exists c r, lstrip s = String c r /\ is_space c = false.
Proof.
  induction s as [|c s IH]; [left; reflexivity|]. cbn [lstrip].
  destruct (is_space c) eqn:Ec; [exact IH|]. right. eauto.
Qed.

Lemma lstrip_rstrip (s : string) :
  (s = "" \/ exists c r, s = String c r /\ is_space c = false) ->
  lstrip (rstrip s) = rstrip s.
Proof.
  intros [->|(c & r & -> & Ec)]; [reflexivity|].
  rewrite rstrip_cons. destruct (rstrip r); rewrite ?Ec; cbn [lstrip];
    rewrite Ec; reflexivity.
Qed.

Lemma strip_idem (s : string) : strip (strip s) = strip s.
Proof.
  unfold strip. rewrite lstrip_rstrip by apply lstrip_head. apply rstrip_idem.
Qed.

Lemma lower_empty (s : string) : lower s = "" -> s = "".
Proof. destruct s; [reflexivity | discriminate]. Qed.

(** The answer the loop reads is already stripped. *)
Lemma user_answer_stripped (answers : json) (idx : Z) :
  strip (user_answer answers idx) = user_answer answers idx.
Proof.
  unfold user_answer. destruct answers; try reflexivity.
  - destruct (nth_error xs (Z.to_nat idx)) as [v|]; [|reflexivity].
    destruct (py_or v (JStr "")); try reflexivity. apply strip_idem.
  - apply strip_idem.
Qed.

(** X8. A question whose stored correct answer is blank, or reads
    [skipped question] in any case, can never be answered correctly:
    whatever the answers of the request are, its entry is marked wrong. A
    question without a [correct_answer] key is such a question. *)
Theorem unanswerable_question_never_correct (answers : json) (idx : Z)
    (kvs : list (string * json)) :
  lower (strip (py_str (dict_get kvs "correct_answer" (JStr "")))) = ""
  \/ lower (strip (py_str (dict_get kvs "correct_answer" (JStr ""))))
     = "skipped question" ->
  exists entry,
    grade_question answers idx (JDict kvs) = Ok (false, entry)
    /\ field "isCorrect" entry = JBool false.
Proof.
  intros H. unfold grade_question. cbv zeta.
  rewrite user_answer_stripped.
  match goal with
  | |- context [Ok (?c, _)] => assert (c = false) as Hc
  end.
  { destruct (String.eqb (lower (user_answer answers idx)) "skipped question")
      eqn:E1; [reflexivity|].
    destruct (String.eqb (user_answer answers idx) "") eqn:E2; [reflexivity|].
    cbn [orb]. apply String.eqb_neq. apply String.eqb_neq in E1, E2.
    destruct H as [H|H]; rewrite H; [|exact E1].
    intros E. apply E2, lower_empty, E. }
  rewrite Hc. eexists. split; reflexivity.
Qed.

Lemma grade_question_matching (answers : json) (idx : Z) (q : Question)
    (a : string) :
  user_answer answers idx = strip a -> matches_correct a q -> answerable q ->
  exists entry, grade_question answers idx (question_dict q) = Ok (true, entry).
Proof.
  unfold matches_correct. intros Hu HR [Hne Hsk].
  unfold question_dict, grade_question.
  cbn [dict_get String.eqb Ascii.eqb Bool.eqb py_str]. cbv zeta.
  rewrite Hu, strip_idem, HR.
  assert (String.eqb (lower (strip (correct_answer q))) "skipped question" = false)
    as -> by (apply String.eqb_neq, Hsk).
  assert (String.eqb (strip a) "" = false) as ->.
  { apply String.eqb_neq. intros E. rewrite E in HR. cbn in HR.
    symmetry in HR. apply lower_empty in HR. contradiction. }
  cbn [orb]. rewrite String.eqb_refl. eauto.
Qed.

Lemma matching_loop (A : list string) (Q : list Question) :
  Forall2 matches_correct A Q -> Forall answerable Q ->
  forall pre idx score detailed,
    idx = Z.of_nat (length pre) ->
    exists detailed',
      grade_loop (JList (map JStr (pre ++ A))) idx (map question_dict Q)
        score detailed
      = Ok ((score + Z.of_nat (length Q))%Z, detailed').
Proof.
  induction 1 as [|a q A Q HR _ IH]; intros Hok pre idx score detailed Hidx.
  - cbn. rewrite Z.add_0_r. eauto.
  - apply Forall_cons in Hok as [Hq Hok]. cbn [map grade_loop].
    destruct (grade_question_matching
                (JList (map JStr (pre ++ a :: A))) idx q a) as [entry ->];
      [|exact HR|exact Hq|].
    + unfold user_answer. subst idx. rewrite Nat2Z.id.
      rewrite map_app, nth_error_app2 by (rewrite length_map; lia).
      rewrite length_map, Nat.sub_diag. cbn [map nth_error].
      unfold py_or, truthy. destruct (String.eqb a "") eqn:E; [|reflexivity].
      apply String.eqb_eq in E. subst a. reflexivity.
    + destruct (IH Hok (pre ++ [a]) (idx + 1)%Z (score + 1)%Z (detailed ++ [entry]))
        as [d' Hd'].
      * rewrite length_app. cbn [length]. lia.
      * rewrite <- app_assoc in Hd'. cbn [app] in Hd'. rewrite Hd'.
        exists d'. do 2 f_equal. cbn [length]. lia.
Qed.

(** X9. A request that answers every question of a quiz with its correct
    answer, up to case and surrounding white space, gets the full score:
    score and total are both the number of questions, provided no correct
    answer is blank or reads [skipped question]. *)
Theorem matching_answers_get_full_score (A : list string) (Q : list Question) :
  Forall2 matches_correct A Q -> Forall answerable Q ->
  exists detailed,
    grade (JList (map JStr A)) (JList (map question_dict Q))
    = Ok (Z.of_nat (length Q), Z.of_nat (length Q), detailed)
    /\ correct_count detailed = length Q.
Proof.
  intros HR Hok. unfold grade. cbn [iter_items].
  destruct (matching_loop A Q HR Hok [] 0%Z 0%Z []) as [d' Hd']; [reflexivity|].
  cbn [app] in Hd'. rewrite Hd'. rewrite length_map. cbn [Z.add].
  exists d'. split; [reflexivity|].
  apply grade_loop_spec in Hd' as (entries & -> & _ & Hs). cbn [app]. lia.
Qed.

Lemma dict_get_answers (A : list string) :
  forall start idx,
    (start <= idx)%Z ->
    dict_get (answers_by_index start A) (pretty idx) (JStr "")
    = match nth_error A (Z.to_nat (idx - start)) with
      | Some a => JStr a
      | None => JStr ""
      end.
Proof.
  induction A as [|a A IH]; intros start idx Hle; cbn [answers_by_index dict_get].
  - destruct (Z.to_nat (idx - start)); reflexivity.
  - destruct (String.eqb (pretty start) (pretty idx)) eqn:E.
    + apply String.eqb_eq in E. apply (inj pretty) in E. subst idx.
      rewrite Z.sub_diag. reflexivity.
    + apply String.eqb_neq in E.
      assert (start <> idx) as Hne by (intros ->; apply E; reflexivity).
      rewrite IH by lia.
      replace (Z.to_nat (idx - start)) with (S (Z.to_nat (idx - (start + 1))))
        by lia.
      reflexivity.
Qed.

Lemma user_answer_forms (A : list string) (idx : Z) :
  (0 <= idx)%Z ->
  user_answer (JList (map JStr A)) idx
  = user_answer (JDict (answers_by_index 0 A)) idx.
Proof.
  intros Hle. unfold user_answer. rewrite dict_get_answers by exact Hle.
  rewrite Z.sub_0_r, nth_error_map.
  destruct (nth_error A (Z.to_nat idx)) as [a|]; cbn [option_map py_str];
    [|reflexivity].
  unfold py_or, truthy. destruct (String.eqb a "") eqn:E; [|reflexivity].
  apply String.eqb_eq in E. subst a. reflexivity.
Qed.

Lemma grade_loop_forms (A : list string) (qs : list json) :
  forall idx score detailed,
    (0 <= idx)%Z ->
    grade_loop (JList (map JStr A)) idx qs score detailed
    = grade_loop (JDict (answers_by_index 0 A)) idx qs score detailed.
Proof.
  induction qs as [|q qs IH]; intros idx score detailed Hle; [reflexivity|].
  cbn [grade_loop].
  assert (grade_question (JList (map JStr A)) idx q
          = grade_question (JDict (answers_by_index 0 A)) idx q) as ->.
  { unfold grade_question. rewrite user_answer_forms by exact Hle. reflexivity. }
  destruct (grade_question _ idx q) as [[c entry]|e]; [|reflexivity].
  apply IH. lia.
Qed.

(** X10. Text answers are graded alike in both forms the handler takes:
    sent as a list, or as an object with the answer to question [i] under
    the key [str(i)], they give the same score, total and detailed
    entries, or the same exception, on any loaded questions. *)
Theorem list_and_dict_answers_grade_alike (A : list string)
    (questions_data : json) :
  grade (JList (map JStr A)) questions_data
  = grade (JDict (answers_by_index 0 A)) questions_data.
Proof.
  unfold grade. destruct (iter_items questions_data) as [qs|e]; [|reflexivity].
  rewrite grade_loop_forms by lia. reflexivity.
Qed.

(** *** Deleting *)

Lemma delete_quiz_row_filter (id : Z) (db : list Quiz) :
  NoDup (map q_id db) ->
  delete_quiz_row id db = List.filter (fun q => negb (q_id q =? id)%Z) db.
Proof.
  induction db as [|q db IH]; intros Hnd; [reflexivity|].
  cbn [map] in Hnd. apply NoDup_cons in Hnd as [Hnotin Hnd].
  cbn [delete_quiz_row List.filter].
  destruct (Z.eqb_spec (q_id q) id) as [E|E]; cbn [negb].
  - symmetry. apply forallb_filter_id. apply forallb_forall. intros x Hx.
    apply negb_true_iff, Z.eqb_neq. intros E'. apply Hnotin.
    apply list_elem_of_In. rewrite E, <- E'. apply in_map, Hx.
  - rewrite IH by exact Hnd. reflexivity.
Qed.

Lemma find_id_filtered {A} (key : A -> Z) (id : Z) (db : list A) :
  List.find (fun x => (key x =? id)%Z)
    (List.filter (fun x => negb (key x =? id)%Z) db) = None.
Proof.
  apply find_none_iff. intros x Hx. apply filter_In in Hx as [_ Hx].
  apply negb_true_iff, Hx.
Qed.

Lemma find_id_stored {A} (key : A -> Z) (id : Z) (db : list A) :
  In id (map key db) ->
  exists x, List.find (fun x => (key x =? id)%Z) db = Some x
            /\ In x db /\ key x = id.
Proof.
  intros Hin. apply in_map_iff in Hin as (x & Hx & Hin).
  destruct (find_some_of (fun x => (key x =? id)%Z) db x Hin) as (y & Hy & Hiny & Hk).
  - apply Z.eqb_eq, Hx.
  - exists y. split; [exact Hy|]. split; [exact Hiny | apply Z.eqb_eq, Hk].
Qed.

(** X11. Deleting a stored quiz removes that quiz and every result of it,
    and nothing else: the other quizzes and results stay in their order and
    the questions file is kept. Afterwards the quiz is gone for every
    route: fetching its questions answers 404, submitting answers for it
    (answers sent as a list or an object) is turned down with 400, and
    deleting it again answers 404 and changes nothing. *)
Theorem delete_quiz_cascades (quiz_id : Z) (w : World) :
  NoDup (map q_id (quizzes w)) ->
  In quiz_id (map q_id (quizzes w)) ->
  fst (delete_quiz None quiz_id w)
  = JSONResponse 200 (JDict [("deleted", JInt quiz_id)])
  /\ quizzes (snd (delete_quiz None quiz_id w))
     = List.filter (fun q => negb (q_id q =? quiz_id)%Z) (quizzes w)
  /\ results (snd (delete_quiz None quiz_id w))
     = List.filter (fun r => negb (opt_eqb Z.eqb (r_quiz_id r) (Some quiz_id)))
         (results w)
  /\ (forall r, In r (results (snd (delete_quiz None quiz_id w))) ->
        r_quiz_id r <> Some quiz_id)
  /\ questions_file (snd (delete_quiz None quiz_id w)) = questions_file w
  /\ get_questions (Some quiz_id) (snd (delete_quiz None quiz_id w))
     = JSONResponse 404 (JDict [("message", JStr "Quiz not found")])
  /\ (quiz_id <> 0%Z ->
      forall fault now stamp answers user,
        (exists xs, answers = JList xs) \/ (exists kvs, answers = JDict kvs) ->
        submit_answers fault now stamp
          {| p_answers := answers; p_quiz_id := Some quiz_id; p_user := user |}
          (snd (delete_quiz None quiz_id w))
        = (HTTPException 400 "Quiz not found", snd (delete_quiz None quiz_id w)))
  /\ delete_quiz None quiz_id (snd (delete_quiz None quiz_id w))
     = (JSONResponse 404 (JDict [("detail", JStr "Quiz not found")]),
        snd (delete_quiz None quiz_id w)).
Proof.
  intros Hnd Hin.
  destruct (find_id_stored q_id quiz_id (quizzes w) Hin) as (q & Hfind & _ & Hid).
  assert (delete_quiz None quiz_id w
          = (JSONResponse 200 (JDict [("deleted", JInt quiz_id)]),
             {| quizzes :=
                  List.filter (fun q => negb (q_id q =? quiz_id)%Z) (quizzes w);
                results := delete_results_of quiz_id (results w);
                questions_file := questions_file w |})) as Hdel.
  { unfold delete_quiz, quiz_by_id. rewrite Hfind, Hid.
    rewrite delete_quiz_row_filter by exact Hnd. reflexivity. }
  rewrite Hdel. cbn [fst snd quizzes results questions_file].
  split; [reflexivity|]. split; [reflexivity|]. split; [reflexivity|].
  split.
  { intros r Hr. apply filter_In in Hr as [_ Hr]. apply negb_true_iff in Hr.
    intros E. rewrite E in Hr. cbn [opt_eqb] in Hr. rewrite Z.eqb_refl in Hr.
    discriminate. }
  split; [reflexivity|].
  split.
  { unfold get_questions, quiz_by_id. cbn [quizzes].
    rewrite find_id_filtered. reflexivity. }
  split.
  { intros Hnz fault now stamp answers user Hans.
    destruct Hans as [[xs ->]|[kvs ->]];
      unfold submit_answers, load_questions, truthy, opt_int;
      cbn [p_answers p_quiz_id quizzes];
      (assert ((quiz_id =? 0)%Z = false) as -> by (apply Z.eqb_neq, Hnz));
      cbn [negb];
      (match goal with
       | |- context [List.find ?m ?l] => assert (List.find m l = None) as ->
       end; [|reflexivity]);
      apply find_none_iff; intros x Hx; apply filter_In in Hx as [_ Hx];
      cbn [opt_eqb]; apply negb_true_iff, Hx. }
  unfold delete_quiz, quiz_by_id. cbn [quizzes].
  rewrite find_id_filtered. reflexivity.
Qed.

(** X12. Deleting a stored result removes the row with that id and no
    other: the remaining rows stay in their order, quizzes and the
    questions file are kept, and deleting the same id again answers 404 and
    changes nothing. *)
Theorem delete_result_removes_one (result_id : Z) (w : World) :
  NoDup (map r_id (results w)) ->
  In result_id (map r_id (results w)) ->
  fst (delete_result_endpoint None result_id w)
  = JSONResponse 200 (JDict [("deleted_result", JInt result_id)])
  /\ results (snd (delete_result_endpoint None result_id w))
     = List.filter (fun r => negb (r_id r =? result_id)%Z) (results w)
  /\ S (length (results (snd (delete_result_endpoint None result_id w))))
     = length (results w)
  /\ quizzes (snd (delete_result_endpoint None result_id w)) = quizzes w
  /\ questions_file (snd (delete_result_endpoint None result_id w))
     = questions_file w
  /\ delete_result_endpoint None result_id
       (snd (delete_result_endpoint None result_id w))
     = (JSONResponse 404 (JDict [("detail", JStr "Result not found")]),
        snd (delete_result_endpoint None result_id w)).
Proof.
  intros Hnd Hin.
  destruct (find_id_stored r_id result_id (results w) Hin) as (r & Hfind & _ & Hid).
  assert (delete_result_endpoint None result_id w
          = (JSONResponse 200 (JDict [("deleted_result", JInt result_id)]),
             {| quizzes := quizzes w;
                results := delete_result result_id (results w);
                questions_file := questions_file w |})) as Hdel.
  { unfold delete_result_endpoint. rewrite Hfind, Hid. reflexivity. }
  rewrite Hdel. cbn [fst snd quizzes results questions_file].
  split; [reflexivity|].
  split; [apply delete_result_filter, Hnd|].
  split.
  { clear Hfind Hid r Hdel. revert Hnd Hin.
    induction (results w) as [|x db IH]; intros Hnd Hin; [destruct Hin|].
    cbn [map] in Hnd. apply NoDup_cons in Hnd as [Hnotin Hnd].
    cbn [delete_result]. destruct (Z.eqb_spec (r_id x) result_id) as [E|E];
      [reflexivity|].
    cbn [length]. f_equal. apply IH; [exact Hnd|].
    destruct Hin as [Hin|Hin]; [contradiction | exact Hin]. }
  split; [reflexivity|]. split; [reflexivity|].
  unfold delete_result_endpoint. cbn [results].
  rewrite delete_result_filter by exact Hnd.
  rewrite find_id_filtered. reflexivity.
Qed.

(** *** Saving validated questions *)

Lemma valid_questionb_spec (q : Question) :
  valid_questionb q = true <-> valid_question q.
Proof.
  unfold valid_questionb, valid_question.
  rewrite andb_true_iff, Nat.eqb_eq, existsb_exists. split.
  - intros [Hl (o & Ho & E)]. apply String.eqb_eq in E. subst o. auto.
  - intros [Hl Hin]. split; [exact Hl|].
    exists (correct_answer q). split; [exact Hin | apply String.eqb_refl].
Qed.

Lemma schema_accepts_spec (Q : list Question) :
  schema_accepts Q = true <-> valid_questions Q.
Proof.
  unfold schema_accepts, valid_questions. destruct Q as [|q Q].
  - split; [discriminate | intros [H _]; contradiction].
  - rewrite forallb_forall, Forall_forall. split.
    + intros H. split; [discriminate|]. intros x Hx.
      apply valid_questionb_spec, H, list_elem_of_In, Hx.
    + intros [_ H] x Hx. apply valid_questionb_spec, H, list_elem_of_In, Hx.
Qed.

Lemma set_title_questions id t q : q_questions (set_title id t q) = q_questions q.
Proof. unfold set_title. destruct (q_id q =? id)%Z; reflexivity. Qed.

Lemma save_quiz_nodup stamp title questions db :
  NoDup (map q_id db) ->
  NoDup (map q_id (snd (save_quiz_to_db_sync stamp title questions db))).
Proof.
  intros Hnd. unfold save_quiz_to_db_sync.
  destruct (quiz_by_fingerprint (_questions_fingerprint questions) db)
    as [existing|] eqn:E.
  - destruct (backfills title existing); cbn [snd]; [|exact Hnd].
    rewrite map_map. erewrite map_ext; [exact Hnd|].
    intros q. apply set_title_id.
  - cbn [snd]. rewrite map_app. cbn [map q_id].
    apply NoDup_app. split; [exact Hnd|]. split; [|apply NoDup_singleton].
    intros i Hi Hi'. apply list_elem_of_In in Hi.
    apply list_elem_of_In in Hi'. destruct Hi' as [<-|[]].
    exact (next_id_fresh _ Hi).
Qed.

Lemma quiz_by_id_unique (db : list Quiz) (row : Quiz) :
  NoDup (map q_id db) -> In row db -> quiz_by_id (q_id row) db = Some row.
Proof.
  unfold quiz_by_id.
  induction db as [|q db IH]; intros Hnd Hin; [destruct Hin|].
  cbn [map] in Hnd. apply NoDup_cons in Hnd as [Hnotin Hnd].
  cbn [List.find]. destruct Hin as [->|Hin]; [rewrite Z.eqb_refl; reflexivity|].
  destruct (Z.eqb_spec (q_id q) (q_id row)) as [E|E]; [|auto].
  exfalso. apply Hnotin. rewrite E. apply list_elem_of_In, in_map, Hin.
Qed.

(** X13. A quiz saved through [save_questions_and_db_async] can be fetched
    by the id the call returns: the request answers 200 with the questions
    of the stored quiz that has this id and the fingerprint of the saved
    questions, and these are exactly the saved questions when no quiz with
    that fingerprint was stored before. *)
Theorem saved_quiz_is_served (stamp now : Z) (title : string)
    (Q : list Question) (w : World) :
  valid_questions Q ->
  NoDup (map q_id (quizzes w)) ->
  exists id row,
    fst (save_questions_and_db_async stamp now title Q w) = QuizOut id title Q now
    /\ get_questions (Some id) (snd (save_questions_and_db_async stamp now title Q w))
       = JSONResponse 200
           (JDict [("message", JStr "Quiz fetched"); ("quiz_id", JInt id);
                   ("questions", q_questions row)])
    /\ In row (quizzes (snd (save_questions_and_db_async stamp now title Q w)))
    /\ q_id row = id
    /\ q_fingerprint row = Some (_questions_fingerprint (map question_dict Q))
    /\ (quiz_by_fingerprint (_questions_fingerprint (map question_dict Q))
          (quizzes w) = None ->
        q_questions row = JList (map question_dict Q)).
Proof.
  intros Hvalid Hnd. apply schema_accepts_spec in Hvalid.
  unfold save_questions_and_db_async. rewrite Hvalid. cbn [fst snd].
  destruct (saved_quiz_found stamp (Some title) (map question_dict Q) (quizzes w))
    as (row & Hfind & Hid & Hfresh).
  exists (fst (save_quiz_to_db_sync stamp (Some title) (map question_dict Q)
                 (quizzes w))), row.
  split; [reflexivity|].
  unfold quiz_by_fingerprint in Hfind.
  pose proof (List.find_some _ _ Hfind) as [Hin Hfp].
  split.
  - unfold get_questions. cbn [quizzes]. rewrite <- Hid.
    rewrite (quiz_by_id_unique _ row); [reflexivity| |exact Hin].
    apply save_quiz_nodup, Hnd.
  - split; [exact Hin|]. split; [exact Hid|].
    split; [apply opt_eqb_string_eq, Hfp|].
    intros Hnone. apply Hfresh, Hnone.
Qed.

(** X14. [save_questions_and_db_async] stores validated quizzes only. A
    question list that fails the schema (empty, a question without exactly
    four options, or a correct answer that is none of its options) raises
    the validation error and changes neither the tables nor the questions
    file. A list that passes is written to the questions file, the results
    are left alone, and every stored quiz still holds a validated question
    list if every one did before. *)
Theorem save_questions_keeps_quizzes_validated (stamp now : Z) (title : string)
    (Q : list Question) (w : World) :
  (~ valid_questions Q ->
   save_questions_and_db_async stamp now title Q w = (ValidationError, w))
  /\ (valid_questions Q ->
      questions_file (snd (save_questions_and_db_async stamp now title Q w))
      = Some (dumps_indent 0 (JList (map question_dict Q)))
      /\ results (snd (save_questions_and_db_async stamp now title Q w))
         = results w
      /\ (Forall validated_quiz (quizzes w) ->
          Forall validated_quiz
            (quizzes (snd (save_questions_and_db_async stamp now title Q w))))).
Proof.
  unfold save_questions_and_db_async. split.
  - intros Hn. destruct (schema_accepts Q) eqn:E; [|reflexivity].
    apply schema_accepts_spec in E. contradiction.
  - intros Hvalid. pose proof Hvalid as Hv.
    apply schema_accepts_spec in Hv. rewrite Hv.
    cbn [snd quizzes results questions_file].
    split; [reflexivity|]. split; [reflexivity|].
    intros Hall. unfold save_quiz_to_db_sync.
    destruct (quiz_by_fingerprint _ (quizzes w)) as [existing|].
    + destruct (backfills (Some title) existing); cbn [snd]; [|exact Hall].
      apply Forall_forall. intros q Hq. apply list_elem_of_In in Hq.
      apply in_map_iff in Hq as (q0 & <- & Hq0).
      rewrite Forall_forall in Hall.
      destruct (Hall q0 (proj2 (list_elem_of_In _ _) Hq0)) as (Q0 & HQ0 & E0).
      exists Q0. split; [exact HQ0|]. rewrite set_title_questions. exact E0.
    + cbn [snd]. apply Forall_app. split; [exact Hall|].
      apply Forall_cons. split; [|apply Forall_nil; exact I].
      exists Q. split; [exact Hvalid | reflexivity].
Qed.



(** *** The normalization of generated questions *)

Lemma normalized_question_dict (s : string) (os : list json) (c : json) :
  normalized_question s os c
  = question_dict {| question := strip s;
                     options := map (fun o => strip (py_str o)) os;
                     correct_answer := strip (py_str c) |}.
Proof.
  unfold normalized_question, question_dict. cbn [question options correct_answer].
  rewrite map_map. reflexivity.
Qed.

Lemma normalized_question_normal (s : string) (os : list json) (c : json) :
  length os = 4%nat ->
  normal_question {| question := strip s;
                     options := map (fun o => strip (py_str o)) os;
                     correct_answer := strip (py_str c) |}.
Proof.
  intros Hl. unfold normal_question. cbn [question options correct_answer].
  rewrite length_map. split; [exact Hl|]. split; [apply strip_idem|].
  split; [|apply strip_idem].
  apply Forall_forall. intros o Ho. apply list_elem_of_In in Ho.
  apply in_map_iff in Ho as (x & <- & _). apply strip_idem.
Qed.

Lemma normalize_items_spec (m : Z) (items : list json) :
  forall normalized Ns data,
    normalized = map question_dict Ns ->
    Forall normal_question Ns ->
    (Z.of_nat (length Ns) < m)%Z \/ Ns = [] ->
    normalize_items m items normalized = inr data ->
    exists Qs,
      data = map question_dict Qs /\ Forall normal_question Qs
      /\ (Z.of_nat (length Qs) <= Z.max 1 m)%Z.
Proof.
  induction items as [|item items IH]; intros normalized Ns data Hn Hall Hlen H.
  - cbn in H. injection H as <-. exists Ns. split; [exact Hn|].
    split; [exact Hall|]. destruct Hlen as [Hlen| ->]; cbn; lia.
  - destruct item as [| | | | |kvs];
      try (cbn [normalize_items] in H; eapply IH; eassumption).
    cbn [normalize_items] in H. cbv zeta in H.
    destruct (first_of kvs "options" "choices" "answers") as [| | | |os|];
      try (eapply IH; eassumption).
    destruct (truthy (first_of kvs "question" "q" "prompt")
              && (length os =? 4)%nat
              && truthy (first_of kvs "correct_answer" "answer" "correct"))
      eqn:Hc; [|eapply IH; eassumption].
    apply andb_true_iff in Hc as [Hc _]. apply andb_true_iff in Hc as [_ Hl].
    apply Nat.eqb_eq in Hl.
    destruct (first_of kvs "question" "q" "prompt") as [| | |s| |];
      try discriminate.
    rewrite normalized_question_dict in H.
    remember {| question := strip s;
                options := map (fun o => strip (py_str o)) os;
                correct_answer :=
                  strip (py_str (first_of kvs "correct_answer" "answer" "correct")) |}
      as q eqn:Hq.
    assert (normal_question q) as Hnq
      by (subst q; apply normalized_question_normal, Hl).
    assert (normalized ++ [question_dict q] = map question_dict (Ns ++ [q])) as Hn'
      by (rewrite map_app, Hn; reflexivity).
    assert (Forall normal_question (Ns ++ [q])) as Hall'.
    { apply Forall_app. split; [exact Hall|].
      apply Forall_cons. split; [exact Hnq | apply Forall_nil; exact I]. }
    rewrite Hn' in H. rewrite length_map in H.
    destruct (m <=? Z.of_nat (length (Ns ++ [q])))%Z eqn:Hm.
    + injection H as <-. exists (Ns ++ [q]). split; [reflexivity|].
      split; [exact Hall'|]. rewrite length_app in *. cbn [length] in *.
      destruct Hlen as [Hlen| ->]; cbn; lia.
    + apply Z.leb_gt in Hm.
      apply (IH _ (Ns ++ [q]) data eq_refl Hall'); [left; exact Hm | exact H].
Qed.

(** X16. Whatever the model returned, the questions that come out of the
    normalization are dicts with a text, exactly four option texts and an
    answer text, every text stripped, and there are at most
    [max_questions] of them (at most one when [max_questions] is below
    one). Such a list fails the schema of the save only by being empty or
    by a correct answer that is none of the options of its question. *)
Theorem generated_questions_are_normal (parsed : json) (max_questions : Z)
    (data : list json) :
  normalize_generated parsed max_questions = inr data ->
  exists Qs,
    data = map question_dict Qs
    /\ Forall normal_question Qs
    /\ (Z.of_nat (length Qs) <= Z.max 1 max_questions)%Z
    /\ (schema_accepts Qs = true
        <-> Qs <> []
            /\ Forall (fun q => In (correct_answer q) (options q)) Qs).
Proof.
  unfold normalize_generated. intros H.
  assert (exists items, normalize_items max_questions items [] = inr data)
    as [items Hitems].
  { destruct parsed as [| | | |xs|kvs]; try discriminate; [eauto|].
    destruct (truthy (dict_get kvs "questions" JNull)); [|discriminate].
    destruct (dict_get kvs "questions" JNull); try discriminate. eauto. }
  destruct (normalize_items_spec max_questions items [] [] data eq_refl
              (Forall_nil_2 _) (or_intror eq_refl) Hitems)
    as (Qs & Hd & Hall & Hlen).
  exists Qs. split; [exact Hd|]. split; [exact Hall|]. split; [exact Hlen|].
  rewrite schema_accepts_spec. unfold valid_questions, valid_question.
  rewrite !Forall_forall in *. split.
  - intros [Hne Hv]. split; [exact Hne|]. intros q Hq. apply (Hv q Hq).
  - intros [Hne Hv]. split; [exact Hne|]. intros q Hq.
    split; [apply (Hall q Hq) | apply (Hv q Hq)].
Qed.

(** *** The listing of results *)

(** A handler that answered with a body has rendered it. *)
Lemma json_response_answered (status_code status_code' : Z) (c content : json) :
  json_response status_code c = JSONResponse status_code' content ->
  c = content /\ render_failure c = None.
Proof.
  unfold json_response. destruct (render_failure c); [discriminate|].
  intros H. injection H as _ <-. auto.
Qed.

Lemma listed_rows_spec (rows : list Result) :
  forall seen out res,
    listed_rows rows seen out = Ok res ->
    exists kept,
      res = out ++ kept
      /\ sublist kept rows
      /\ NoDup (map listing_key kept)
      /\ (forall r, In r kept ->
            exists k, listing_key r = Ok k /\ k ∉ seen)
      /\ (forall r, In r rows ->
            exists k, listing_key r = Ok k
                      /\ (k ∈ seen
                          \/ exists r', In r' kept /\ listing_key r' = Ok k)).
Proof.
  induction rows as [|r rows IH]; intros seen out res H.
  - cbn in H. injection H as <-. exists []. rewrite app_nil_r.
    split; [reflexivity|]. split; [constructor|]. split; [constructor|].
    split; intros r [].
  - cbn [listed_rows] in H.
    destruct (listing_key r) as [k|e] eqn:Ek; [|discriminate].
    destruct (decide (k ∈ seen)) as [Hin|Hnotin].
    + apply IH in H as (kept & Hres & Hsub & Hnd & Hkept & Hrows).
      exists kept. split; [exact Hres|]. split; [apply sublist_cons, Hsub|].
      split; [exact Hnd|]. split; [exact Hkept|].
      intros r0 [<-|Hr0]; [exists k; auto | apply Hrows, Hr0].
    + apply IH in H as (kept & Hres & Hsub & Hnd & Hkept & Hrows).
      exists (r :: kept). split; [rewrite Hres, <- app_assoc; reflexivity|].
      split; [apply sublist_skip, Hsub|].
      split.
      { cbn [map]. apply NoDup_cons. split; [|exact Hnd].
        intros Hk. apply list_elem_of_In in Hk.
        apply in_map_iff in Hk as (r' & Hk' & Hr').
        destruct (Hkept r' Hr') as (k' & Ek' & Hk'').
        rewrite Ek, Ek' in Hk'. injection Hk' as ->.
        apply Hk'', elem_of_union_l, elem_of_singleton. reflexivity. }
      split.
      { intros r0 [<-|Hr0]; [exists k; auto|].
        destruct (Hkept r0 Hr0) as (k' & Ek' & Hk').
        exists k'. split; [exact Ek'|]. intros Hs.
        apply Hk', elem_of_union_r, Hs. }
      intros r0 [<-|Hr0].
      * exists k. split; [exact Ek|]. right. exists r. split; [left; reflexivity|].
        exact Ek.
      * destruct (Hrows r0 Hr0) as (k' & Ek' & [Hs|(r' & Hr' & Ek'')]).
        -- exists k'. split; [exact Ek'|].
           apply elem_of_union in Hs as [Hs|Hs]; [|left; exact Hs].
           apply elem_of_singleton in Hs. subst k'.
           right. exists r. split; [left; reflexivity | exact Ek].
        -- exists k'. split; [exact Ek'|]. right. exists r'.
           split; [right; exact Hr' | exact Ek''].
Qed.

Lemma results_page_rows (quiz_id : option Z) (limit offset : Z)
    (db : list Result) (r : Result) :
  In r (results_page quiz_id limit offset db) ->
  In r db
  /\ match quiz_id with Some id => r_quiz_id r = Some id | None => True end.
Proof.
  unfold results_page, sql_slice. intros H.
  assert (In r (sort_by newest_first_le
                  match quiz_id with
                  | Some id =>
                      List.filter (fun r => opt_eqb Z.eqb (r_quiz_id r) (Some id)) db
                  | None => db
                  end)) as Hs.
  { apply list_elem_of_In. apply list_elem_of_In in H.
    destruct (limit <? 0)%Z.
    - exact (subseteq_drop _ _ _ H).
    - apply subseteq_take in H. exact (subseteq_drop _ _ _ H). }
  apply (Permutation_in _ (sort_by_perm newest_first_le _)) in Hs.
  destruct quiz_id as [id|]; [|auto].
  apply filter_In in Hs as [Hin Hq]. split; [exact Hin|].
  apply opt_eqb_Z_eq, Hq.
Qed.

(** X17. The listing shows every dedupe key of the page once: when the
    request is answered, the listed rows are rows of the page in the order
    of the page, no two of them have the same key, and every row of the
    page has its key on a listed row. The listed rows are stored rows of
    the quiz asked for, and there are no more of them than a non-negative
    limit allows. *)
Theorem listing_shows_each_key_once (quiz_id : option Z) (limit offset : Z)
    (w : World) (content : json) :
  list_results quiz_id limit offset w = JSONResponse 200 content ->
  exists out,
    content = JDict [("results", JList (map listed_entry out))]
    /\ sublist out (results_page quiz_id limit offset (results w))
    /\ NoDup (map listing_key out)
    /\ (forall r, In r (results_page quiz_id limit offset (results w)) ->
          exists r', In r' out /\ listing_key r' = listing_key r)
    /\ (forall r, In r out ->
          In r (results w)
          /\ match quiz_id with
             | Some id => r_quiz_id r = Some id
             | None => True
             end)
    /\ ((0 <= limit)%Z -> (length out <= Z.to_nat limit)%nat).
Proof.
  unfold list_results.
  destruct (listed_rows (results_page quiz_id limit offset (results w)) ∅ [])
    as [out|e] eqn:E; [|discriminate].
  intros H. apply json_response_answered in H as [<- _].
  apply listed_rows_spec in E as (kept & Hres & Hsub & Hnd & _ & Hrows).
  cbn [app] in Hres. subst kept.
  exists out. split; [reflexivity|]. split; [exact Hsub|]. split; [exact Hnd|].
  split.
  { intros r Hr. destruct (Hrows r Hr) as (k & Ek & [Hs|(r' & Hr' & Ek')]).
    - exfalso. exact (not_elem_of_empty k Hs).
    - exists r'. split; [exact Hr'|]. rewrite Ek, Ek'. reflexivity. }
  split.
  { intros r Hr. apply (results_page_rows quiz_id limit offset).
    apply list_elem_of_In. apply (sublist_subseteq _ _ Hsub).
    apply list_elem_of_In, Hr. }
  intros Hlim. apply sublist_length in Hsub.
  unfold results_page, sql_slice in Hsub.
  assert ((limit <? 0)%Z = false) as Hl by (apply Z.ltb_ge, Hlim).
  rewrite Hl, length_take in Hsub. lia.
Qed.


(** On the users the save writes, the listing computes the user name the
    sweep computes. *)
Lemma listing_key_sweep (r : Result) :
  stored_user (r_user r) ->
  listing_key r
  = match make_user_key (r_user r) with
    | Ok u => Ok (sweep_key u r)
    | Raise e => Raise e
    end.
Proof.
  unfold listing_key. intros [E|[kvs E]]; rewrite E; [reflexivity|].
  destruct kvs; reflexivity.
Qed.

Lemma listed_rows_all (rows : list Result) :
  NoDup (map listing_key rows) ->
  (forall r, In r rows -> exists k, listing_key r = Ok k) ->
  forall seen out,
    (forall r k, In r rows -> listing_key r = Ok k -> k ∉ seen) ->
    listed_rows rows seen out = Ok (out ++ rows).
Proof.
  induction rows as [|r rows IH]; intros Hnd Hok seen out Hseen.
  - cbn. rewrite app_nil_r. reflexivity.
  - cbn [map] in Hnd. apply NoDup_cons in Hnd as [Hnotin Hnd].
    cbn [listed_rows]. destruct (Hok r (or_introl eq_refl)) as [k Ek]. rewrite Ek.
    rewrite decide_False by (apply (Hseen r k); [left; reflexivity | exact Ek]).
    rewrite IH.
    + rewrite <- app_assoc. reflexivity.
    + exact Hnd.
    + intros r' Hr'. apply Hok. right. exact Hr'.
    + intros r' k' Hr' Ek' Hin.
      apply elem_of_union in Hin as [Hin|Hin].
      * apply elem_of_singleton in Hin. subst k'. apply Hnotin.
        rewrite Ek, <- Ek'. apply list_elem_of_In, in_map, Hr'.
      * exact (Hseen r' k' (or_intror Hr') Ek' Hin).
Qed.

Lemma NoDup_map_inj_in {A B} (f : A -> B) (l : list A) :
  NoDup l -> (forall x y, In x l -> In y l -> f x = f y -> x = y) ->
  NoDup (map f l).
Proof.
  induction l as [|x l IH]; intros Hnd Hinj; [constructor|].
  apply NoDup_cons in Hnd as [Hnotin Hnd]. cbn [map]. apply NoDup_cons. split.
  - intros Hin. apply list_elem_of_In in Hin.
    apply in_map_iff in Hin as (y & Ey & Hy).
    apply Hnotin. rewrite (Hinj x y); [apply list_elem_of_In, Hy|left; reflexivity
                                       |right; exact Hy|symmetry; exact Ey].
  - apply IH; [exact Hnd|]. intros a b Ha Hb. apply Hinj; right; assumption.
Qed.

Lemma NoDup_of_ids (db : list Result) : NoDup (map r_id db) -> NoDup db.
Proof.
  induction db as [|r db IH]; intros Hnd; [constructor|].
  cbn [map] in Hnd. apply NoDup_cons in Hnd as [Hnotin Hnd].
  apply NoDup_cons. split; [|auto].
  intros Hin. apply Hnotin. apply list_elem_of_In, in_map, list_elem_of_In, Hin.
Qed.

Lemma results_page_nodup (quiz_id : option Z) (limit offset : Z)
    (db : list Result) :
  NoDup (map r_id db) -> NoDup (results_page quiz_id limit offset db).
Proof.
  intros Hnd. unfold results_page, sql_slice.
  match goal with
  | |- context [sort_by newest_first_le ?l] =>
      assert (NoDup (sort_by newest_first_le l)) as Hs
  end.
  { rewrite (sort_by_perm newest_first_le).
    destruct quiz_id as [id|]; apply NoDup_of_ids; [|exact Hnd].
    apply NoDup_map_filter, Hnd. }
  destruct (limit <? 0)%Z.
  - eapply sublist_NoDup; [exact Hs | apply sublist_drop].
  - eapply sublist_NoDup; [|apply sublist_take].
    eapply sublist_NoDup; [exact Hs | apply sublist_drop].
Qed.

Lemma newest_first_le_flip (x y : Result) :
  newest_first_le x y = oldest_first_le y x.
Proof.
  unfold newest_first_le, oldest_first_le, opt_eqb.
  destruct (r_created_at x) as [t|], (r_created_at y) as [t'|]; try reflexivity.
  rewrite Z.eqb_sym. reflexivity.
Qed.

Lemma newest_first_le_total (x y : Result) :
  newest_first_le x y = false -> newest_first_le y x = true.
Proof. rewrite !newest_first_le_flip. apply oldest_first_le_total. Qed.

Lemma newest_first_le_trans (x y z : Result) :
  newest_first_le x y = true -> newest_first_le y z = true ->
  newest_first_le x z = true.
Proof.
  rewrite !newest_first_le_flip. intros H1 H2.
  exact (oldest_first_le_trans z y x H2 H1).
Qed.

Lemma results_page_sorted (quiz_id : option Z) (limit offset : Z)
    (db : list Result) :
  sorted_by newest_first_le (results_page quiz_id limit offset db).
Proof.
  unfold results_page, sql_slice.
  match goal with
  | |- context [sort_by newest_first_le ?l] =>
      pose proof (sort_by_sorted newest_first_le newest_first_le_total
                    newest_first_le_trans l) as Hs;
      set (sorted := sort_by newest_first_le l) in *
  end.
  unfold sorted_by in *.
  assert (StronglySorted (fun x y => newest_first_le x y = true)
            (drop (Z.to_nat offset) sorted)) as Hd.
  { rewrite <- (take_drop (Z.to_nat offset) sorted) in Hs.
    exact (StronglySorted_app_1_r _ _ _ Hs). }
  destruct (limit <? 0)%Z; [exact Hd|].
  rewrite <- (take_drop (Z.to_nat limit) (drop (Z.to_nat offset) sorted)) in Hd.
  exact (StronglySorted_app_1_l _ _ _ Hd).
Qed.

(** Every listed row is the first row of the page with its key. *)
Lemma listed_rows_first (rows : list Result) :
  forall seen out res,
    listed_rows rows seen out = Ok res ->
    exists kept,
      res = out ++ kept
      /\ forall r, In r kept ->
           exists pre post k,
             rows = pre ++ r :: post
             /\ listing_key r = Ok k /\ (k ∉ seen)
             /\ forall r', In r' pre -> listing_key r' <> Ok k.
Proof.
  induction rows as [|r0 rows IH]; intros seen out res H.
  - cbn in H. injection H as <-. exists []. rewrite app_nil_r.
    split; [reflexivity|]. intros r [].
  - cbn [listed_rows] in H.
    destruct (listing_key r0) as [k0|e] eqn:Ek0; [|discriminate].
    destruct (decide (k0 ∈ seen)) as [Hin|Hnotin].
    + apply IH in H as (kept & Hres & Hkept).
      exists kept. split; [exact Hres|]. intros r Hr.
      destruct (Hkept r Hr) as (pre & post & k & -> & Ek & Hk & Hpre).
      exists (r0 :: pre), post, k. split; [reflexivity|].
      split; [exact Ek|]. split; [exact Hk|].
      intros r' [<-|Hr']; [|apply Hpre, Hr'].
      rewrite Ek0. intros E. injection E as ->. contradiction.
    + apply IH in H as (kept & Hres & Hkept).
      exists (r0 :: kept). split; [rewrite Hres, <- app_assoc; reflexivity|].
      intros r [<-|Hr].
      * exists [], rows, k0. split; [reflexivity|]. split; [exact Ek0|].
        split; [exact Hnotin|]. intros r' [].
      * destruct (Hkept r Hr) as (pre & post & k & -> & Ek & Hk & Hpre).
        exists (r0 :: pre), post, k. split; [reflexivity|].
        split; [exact Ek|].
        split; [intros Hs; apply Hk, elem_of_union_r, Hs|].
        intros r' [<-|Hr']; [|apply Hpre, Hr'].
        rewrite Ek0. intros E. injection E as ->.
        apply Hk, elem_of_union_l, elem_of_singleton. reflexivity.
Qed.

(** X23. Of the rows of a page that share a dedupe key the listing shows
    the newest: a listed row is at least as new as every row of the page
    with its key, and has the largest id among those with its timestamp. *)
Theorem listing_shows_newest_of_each_key (quiz_id : option Z)
    (limit offset : Z) (w : World) (content : json) :
  list_results quiz_id limit offset w = JSONResponse 200 content ->
  exists out,
    content = JDict [("results", JList (map listed_entry out))]
    /\ forall r r',
         In r out ->
         In r' (results_page quiz_id limit offset (results w)) ->
         listing_key r' = listing_key r ->
         opt_leb (r_created_at r') (r_created_at r) = true
         /\ (r_created_at r' = r_created_at r -> (r_id r' <= r_id r)%Z).
Proof.
  unfold list_results.
  destruct (listed_rows (results_page quiz_id limit offset (results w)) ∅ [])
    as [out|e] eqn:E; [|discriminate].
  intros H. apply json_response_answered in H as [<- _].
  exists out. split; [reflexivity|].
  apply listed_rows_first in E as (kept & Hres & Hkept).
  cbn [app] in Hres. subst kept. intros r r' Hr Hr' Ekey.
  destruct (Hkept r Hr) as (pre & post & k & Hpage & Ek & _ & Hpre).
  assert (newest_first_le r r' = true) as Hle.
  { pose proof (results_page_sorted quiz_id limit offset (results w)) as Hs.
    rewrite Hpage in Hs, Hr'. unfold sorted_by in Hs.
    apply in_app_or in Hr' as [Hr'|[<-|Hr']].
    - exfalso. apply (Hpre r' Hr'). rewrite Ekey. exact Ek.
    - pose proof (newest_first_le_total r r) as Ht.
      destruct (newest_first_le r r); auto.
    - apply StronglySorted_app_1_r in Hs.
      apply StronglySorted_cons in Hs as [Hall _].
      rewrite Forall_forall in Hall. apply Hall, list_elem_of_In, Hr'. }
  unfold newest_first_le in Hle.
  destruct (opt_eqb Z.eqb (r_created_at r) (r_created_at r')) eqn:Eq.
  - apply opt_eqb_Z_eq in Eq. split.
    + rewrite Eq. destruct (r_created_at r'); cbn; [apply Z.leb_refl|reflexivity].
    + intros _. apply Z.leb_le, Hle.
  - split; [exact Hle|]. intros Ec. exfalso.
    assert (opt_eqb Z.eqb (r_created_at r) (r_created_at r') = true) as Ht
      by (apply opt_eqb_Z_eq; symmetry; exact Ec).
    congruence.
Qed.

(** *** Sweeping twice *)

Lemma filter_none {A} (f : A -> bool) (l : list A) :
  (forall x, In x l -> f x = false) -> List.filter f l = [].
Proof.
  induction l as [|x l IH]; intros H; [reflexivity|]. cbn [List.filter].
  rewrite (H x (or_introl eq_refl)). apply IH. intros y Hy. apply H. right. exact Hy.
Qed.

Section SweepAgain.

Hypothesis isoformat_inj : forall t t', isoformat t = isoformat t' -> t = t'.
Hypothesis isoformat_no_bar : forall t, contains BAR (isoformat t) = false.
Hypothesis isoformat_nonempty : forall t, isoformat t <> "".

Lemma cleanup_remaining (db : list Result) :
  NoDup (map r_id db) ->
  (forall r, In r db -> exists u, make_user_key (r_user r) = Ok u) ->
  exists s,
    cleanup db = Ok s
    /\ remaining s = List.filter (fun r => negb (later_duplicate db r)) db.
Proof.
  intros Hnd Hok.
  assert (fold_left (fun d rid => delete_result rid d) (removed_ids db) db
          = List.filter (fun r => negb (later_duplicate db r)) db) as Hrem.
  { rewrite delete_all_filter by exact Hnd.
    apply filter_ext_in. intros r Hr. rewrite removed_ids_spec; auto. }
  unfold cleanup.
  rewrite (collect_duplicates_all isoformat_inj isoformat_no_bar
             isoformat_nonempty db Hnd Hok).
  destruct (removed_ids db) as [|i ids] eqn:Hids.
  - cbn [fold_left] in Hrem. eexists. split; [reflexivity|]. exact Hrem.
  - eexists. split; [reflexivity|]. exact Hrem.
Qed.

(** X18. The sweep is idempotent: on a table with unique ids whose user
    keys can all be computed, a second run right after the first finds no
    duplicate, prints so and leaves the table as the first run left it. *)
Theorem sweep_twice_removes_nothing (db : list Result) :
  NoDup (map r_id db) ->
  (forall r, In r db -> exists u, make_user_key (r_user r) = Ok u) ->
  exists s,
    cleanup db = Ok s
    /\ cleanup (remaining s)
       = Ok {| returned := JNull; printed := ["No duplicate results found."];
               remaining := remaining s |}.
Proof.
  intros Hnd Hok.
  destruct (cleanup_remaining db Hnd Hok) as (s & Hrun & Hrem).
  exists s. split; [exact Hrun|]. rewrite Hrem.
  set (db' := List.filter (fun r => negb (later_duplicate db r)) db).
  assert (NoDup (map r_id db')) as Hnd' by apply NoDup_map_filter, Hnd.
  assert (forall r, In r db' -> exists u, make_user_key (r_user r) = Ok u)
    as Hok'.
  { intros r Hr. apply filter_In in Hr as [Hr _]. apply Hok, Hr. }
  unfold cleanup.
  rewrite (collect_duplicates_all isoformat_inj isoformat_no_bar
             isoformat_nonempty db' Hnd' Hok').
  assert (removed_ids db' = []) as ->; [|reflexivity].
  unfold removed_ids. rewrite filter_none; [reflexivity|].
  intros x Hx. apply (proj1 (sort_by_In oldest_first_le db' x)) in Hx.
  apply filter_In in Hx as [Hx Hkeep]. apply negb_true_iff in Hkeep.
  destruct (later_duplicate db' x) eqn:Hdup; [|reflexivity].
  apply later_duplicate_spec in Hdup as (r' & Hr' & Hid & Hsb).
  apply filter_In in Hr' as [Hr' _].
  rewrite <- Hkeep. symmetry. apply later_duplicate_spec. eauto.
Qed.

(** Two rows the sweep keeps never have the same key. *)
Lemma kept_rows_differ (db : list Result) (r r' : Result) :
  NoDup (map r_id db) ->
  (forall r, In r db -> exists u, make_user_key (r_user r) = Ok u) ->
  In r (List.filter (fun r => negb (later_duplicate db r)) db) ->
  In r' (List.filter (fun r => negb (later_duplicate db r)) db) ->
  row_identity r = row_identity r' -> r = r'.
Proof.
  intros Hnd Hok Hr Hr' Hid.
  apply filter_In in Hr as [Hr Hk]. apply filter_In in Hr' as [Hr' Hk'].
  apply negb_true_iff in Hk. apply negb_true_iff in Hk'.
  destruct (Z.eq_dec (r_id r) (r_id r')) as [E|E];
    [exact (NoDup_map_inj_on db r r' Hnd Hr Hr' E)|].
  exfalso. destruct (oldest_first_le r r') eqn:Hle.
  - assert (later_duplicate db r' = true) as Hdup; [|congruence].
    apply later_duplicate_spec. exists r. split; [exact Hr|].
    split; [exact Hid|]. unfold stands_before. rewrite Hle.
    apply negb_true_iff, Z.eqb_neq, E.
  - apply oldest_first_le_total in Hle.
    assert (later_duplicate db r = true) as Hdup; [|congruence].
    apply later_duplicate_spec. exists r'. split; [exact Hr'|].
    split; [symmetry; exact Hid|]. unfold stands_before. rewrite Hle.
    apply negb_true_iff, Z.eqb_neq. intros E'. apply E. symmetry. exact E'.
Qed.

(** X22. After the sweep the listing skips nothing: on a table with unique
    ids whose users are as [save_result_sync] stores them (None or a dict)
    and give a user key, the listing of the swept table builds its body
    from every row of the page, whatever quiz, limit and offset are asked
    for. The answer is 200 with that body when the renderer accepts it;
    when the renderer refuses a row of the page the handler raises. *)
Theorem swept_table_is_listed_in_full (db : list Result) (quiz_id : option Z)
    (limit offset : Z) (w : World) :
  NoDup (map r_id db) ->
  (forall r, In r db -> stored_user (r_user r)) ->
  (forall r, In r db -> exists u, make_user_key (r_user r) = Ok u) ->
  exists s,
    cleanup db = Ok s
    /\ listed_rows (results_page quiz_id limit offset (remaining s)) ∅ []
       = Ok (results_page quiz_id limit offset (remaining s))
    /\ list_results quiz_id limit offset
         {| quizzes := quizzes w; results := remaining s;
            questions_file := questions_file w |}
       = match
           render_failure
             (JDict [("results",
                      JList (map listed_entry
                               (results_page quiz_id limit offset
                                  (remaining s))))])
         with
         | None =>
             JSONResponse 200
               (JDict [("results",
                        JList (map listed_entry
                                 (results_page quiz_id limit offset
                                    (remaining s))))])
         | Some _ => Unhandled ValueError
         end.
Proof.
  intros Hnd Hstored Hok.
  destruct (cleanup_remaining db Hnd Hok) as (s & Hrun & Hrem).
  exists s. split; [exact Hrun|]. rewrite Hrem.
  set (db' := List.filter (fun r => negb (later_duplicate db r)) db).
  assert (forall r, In r db' -> In r db) as Hsub
    by (intros r Hr; apply filter_In in Hr; tauto).
  assert (forall r, In r db' -> exists u,
            make_user_key (r_user r) = Ok u
            /\ listing_key r = Ok (sweep_key u r)) as Hkey.
  { intros r Hr. destruct (Hok r (Hsub r Hr)) as [u Hu]. exists u.
    split; [exact Hu|]. rewrite listing_key_sweep by apply Hstored, Hsub, Hr.
    rewrite Hu. reflexivity. }
  assert (forall r, In r (results_page quiz_id limit offset db') -> In r db')
    as Hpage by (intros r Hr; apply (results_page_rows _ _ _ _ _ Hr)).
  assert (listed_rows (results_page quiz_id limit offset db') ∅ []
          = Ok (results_page quiz_id limit offset db')) as Hall;
    [|split; [exact Hall|]; unfold list_results; cbn [results];
      rewrite Hall; reflexivity].
  rewrite listed_rows_all; [reflexivity| | |].
  - apply NoDup_map_inj_in.
    + apply results_page_nodup, NoDup_map_filter, Hnd.
    + intros x y Hx Hy E.
      destruct (Hkey x (Hpage x Hx)) as (u & Hu & Ex).
      destruct (Hkey y (Hpage y Hy)) as (u' & Hu' & Ey).
      rewrite Ex, Ey in E. injection E as E.
      apply (kept_rows_differ db x y Hnd Hok (Hpage x Hx) (Hpage y Hy)).
      apply (same_key_same_identity isoformat_inj isoformat_no_bar
               isoformat_nonempty x y u u' Hu Hu'), E.
  - intros r Hr. destruct (Hkey r (Hpage r Hr)) as (u & _ & E). eauto.
  - intros r k _ _ Hin. exact (not_elem_of_empty k Hin).
Qed.

End SweepAgain.

(** *** The questions file and what a submit changes *)


(** X20. A submit never touches the quizzes or the questions file, and it
    never removes or rewrites a stored result: the result table afterwards
    is the one before, or that one with a single row appended. *)
Theorem submit_only_appends_a_result (fault : option save_fault) (now stamp : Z)
    (payload : Payload) (w : World) :
  quizzes (snd (submit_answers fault now stamp payload w)) = quizzes w
  /\ questions_file (snd (submit_answers fault now stamp payload w))
     = questions_file w
  /\ (results (snd (submit_answers fault now stamp payload w)) = results w
      \/ exists r,
           results (snd (submit_answers fault now stamp payload w))
           = results w ++ [r]
           /\ ~ In (r_id r) (map r_id (results w))).
Proof.
  rewrite submit_answers_graded.
  destruct (graded payload w) as [err|[[score total] detailed]]; cbn [snd].
  - auto.
  - cbn [quizzes questions_file results].
    split; [reflexivity|]. split; [reflexivity|].
    assert (forall a, snd (save_result_sync now stamp (p_quiz_id payload) score
                             total a (p_user payload) 15 (results w))
                      = results w
                      \/ exists r,
                           snd (save_result_sync now stamp (p_quiz_id payload)
                                  score total a (p_user payload) 15 (results w))
                           = results w ++ [r]
                           /\ ~ In (r_id r) (map r_id (results w))) as Hsave.
    { intros a. unfold save_result_sync, resolve_attempt.
      destruct (List.find _ _) as [cand|]; cbn [snd]; [auto|].
      right. eexists. split; [reflexivity|]. cbn [r_id]. apply next_id_fresh. }
    destruct fault as [[e|e]|]; cbn [persist snd]; [auto | apply Hsave..].
Qed.

Lemma save_result_nonempty (now stamp : Z) (quiz_id : option Z)
    (score total : Z) (answers user : json) (window : Z) (db : list Result) :
  snd (save_result_sync now stamp quiz_id score total answers user window db)
  <> [].
Proof.
  unfold save_result_sync, resolve_attempt.
  destruct (List.find _ _) as [cand|] eqn:E; cbn [snd].
  - apply List.find_some in E as [Hin _]. apply In_candidates in Hin as [Hin _].
    intros ->. destruct Hin.
  - intros H. symmetry in H. exact (app_cons_not_nil _ _ _ H).
Qed.

Lemma latest_none_iff (db : list Result) :
  get_latest_result_sync db = None <-> db = [].
Proof.
  unfold get_latest_result_sync, newest_first.
  pose proof (sort_by_perm newer db) as Hp.
  destruct (sort_by newer db) as [|r l].
  - split; [intros _|reflexivity]. apply Permutation_nil in Hp. exact Hp.
  - split; [discriminate|]. intros ->. apply Permutation_sym in Hp.
    apply Permutation_nil in Hp. discriminate.
Qed.

(** X21. The latest result is missing only while nothing is stored. With
    a working store the request answers 404 exactly on an empty result
    table. After any submit that reached the save with a working store the
    table is not empty: the request then finds a latest row and answers
    200 with it when the renderer accepts it, and 500 with the message of
    the failure when the renderer refuses it. *)
Theorem latest_result_after_submit (now stamp : Z) (payload : Payload)
    (w : World) (score total : Z) (detailed : list json) :
  graded payload w = inr (score, total, detailed) ->
  (exists latest,
     get_latest_result_sync
       (results (snd (submit_answers None now stamp payload w))) = Some latest
     /\ get_latest_result None (snd (submit_answers None now stamp payload w))
        = match render_failure latest with
          | None => JSONResponse 200 latest
          | Some e =>
              JSONResponse 500
                (JDict [("message",
                         JStr ("Failed to fetch latest result: " +:+ e))])
          end)
  /\ (get_latest_result None w
      = JSONResponse 404 (JDict [("message", JStr "No results found")])
      <-> results w = []).
Proof.
  intros G. split.
  - rewrite submit_answers_graded, G. cbn [snd results persist].
    pose proof (save_result_nonempty now stamp (p_quiz_id payload) score total
                  (JList detailed) (p_user payload) 15 (results w)) as Hne.
    unfold get_latest_result. cbn [results].
    destruct (get_latest_result_sync _) as [latest|] eqn:E.
    + exists latest. split; reflexivity.
    + apply latest_none_iff in E. contradiction.
  - unfold get_latest_result, latest_failed.
    destruct (get_latest_result_sync (results w)) as [latest|] eqn:E.
    + split.
      * destruct (render_failure latest); discriminate.
      * intros H. apply latest_none_iff in H. congruence.
    + split; [intros _; apply latest_none_iff, E | reflexivity].
Qed.

(** *** The states the program reaches

    Every operation on the quizzes and the questions file keeps them
    validated, given that [json.loads] reads back the list a save wrote. *)

Lemma delete_quiz_row_sublist (id : Z) (db : list Quiz) (q : Quiz) :
  In q (delete_quiz_row id db) -> In q db.
Proof.
  induction db as [|x db IH]; [intros []|]. cbn [delete_quiz_row].
  destruct (q_id x =? id)%Z; [intros H; right; exact H|].
  intros [<-|H]; [left; reflexivity | right; apply IH, H].
Qed.

Lemma save_quiz_keeps_validated (stamp : Z) (title : option string)
    (Q : list Question) (db : list Quiz) :
  valid_questions Q -> Forall validated_quiz db ->
  Forall validated_quiz
    (snd (save_quiz_to_db_sync stamp title (map question_dict Q) db)).
Proof.
  intros Hvalid Hall. unfold save_quiz_to_db_sync.
  destruct (quiz_by_fingerprint _ db) as [existing|].
  - destruct (backfills title existing); cbn [snd]; [|exact Hall].
    apply Forall_forall. intros q Hq. apply list_elem_of_In in Hq.
    apply in_map_iff in Hq as (q0 & <- & Hq0).
    rewrite Forall_forall in Hall.
    destruct (Hall q0 (proj2 (list_elem_of_In _ _) Hq0)) as (Q0 & HQ0 & E0).
    exists Q0. split; [exact HQ0|]. rewrite set_title_questions. exact E0.
  - cbn [snd]. apply Forall_app. split; [exact Hall|].
    apply Forall_cons. split; [|apply Forall_nil; exact I].
    exists Q. split; [exact Hvalid | reflexivity].
Qed.

Lemma validated_state_kept (w : World) :
  validated_state w ->
  (forall stamp now title Q,
     json_loads (dumps_indent 0 (JList (map question_dict Q)))
     = Some (JList (map question_dict Q)) ->
     validated_state (snd (save_questions_and_db_async stamp now title Q w)))
  /\ (forall fault now stamp payload,
        validated_state (snd (submit_answers fault now stamp payload w)))
  /\ (forall fault quiz_id, validated_state (snd (delete_quiz fault quiz_id w)))
  /\ (forall fault result_id,
        validated_state (snd (delete_result_endpoint fault result_id w))).
Proof.
  intros [Hall Hfile]. split; [|split; [|split]].
  - intros stamp now title Q Hloads. unfold save_questions_and_db_async.
    destruct (schema_accepts Q) eqn:E; [|split; assumption].
    apply schema_accepts_spec in E. cbn [snd]. split.
    + cbn [quizzes]. apply save_quiz_keeps_validated; assumption.
    + intros content Hc. cbn [questions_file] in Hc. injection Hc as <-.
      exists Q. split; [exact E | exact Hloads].
  - intros fault now stamp payload. rewrite submit_answers_graded.
    destruct (graded payload w) as [err|[[score total] detailed]];
      split; assumption.
  - intros fault quiz_id. unfold delete_quiz.
    destruct fault as [e|]; [split; assumption|].
    destruct (quiz_by_id quiz_id (quizzes w)) as [q|]; [|split; assumption].
    cbn [snd]. split; [|exact Hfile]. cbn [quizzes].
    rewrite Forall_forall in *. intros x Hx. apply Hall.
    apply list_elem_of_In. apply list_elem_of_In in Hx.
    exact (delete_quiz_row_sublist _ _ _ Hx).
  - intros fault result_id. unfold delete_result_endpoint.
    destruct fault as [e|]; [split; assumption|].
    destruct (List.find _ (results w)) as [r|]; split; assumption.
Qed.
End Backend.

(** ** Runs on concrete data *)

Example fingerprint_math_quiz :
  _questions_fingerprint (map question_dict math_quiz) = math_fingerprint.
Proof. vm_compute. reflexivity. Qed.

(** A sweep over two rows with one key removes the second row and prints
    its id; what the call returns is None, not the list of removed ids. *)
Lemma sweep_returns_none :
  exists db : list Result,
  forall (json_loads : string -> option json) (isoformat : Z -> string),
  exists s,
    cleanup json_loads isoformat db = Ok s
    /\ remaining s = [alice_row 1 0]
    /\ printed s = ["Found 1 duplicate result(s). Deleting...";
                    "Duplicates removed: [2]"]
    /\ returned s = JNull
    /\ returned s <> JList [JInt 2].
Proof.
  exists [alice_row 1 0; alice_row 2 0]. intros json_loads isoformat.
  unfold cleanup.
  change (oldest_first [alice_row 1 0; alice_row 2 0])
    with [alice_row 1 0; alice_row 2 0].
  unfold collect_duplicates.
  change (make_user_key json_loads (r_user (alice_row 1 0))) with (Ok "a@x.com").
  change (make_user_key json_loads (r_user (alice_row 2 0))) with (Ok "a@x.com").
  cbv beta iota.
  change (sweep_key isoformat "a@x.com" (alice_row 2 0))
    with (sweep_key isoformat "a@x.com" (alice_row 1 0)).
  rewrite decide_False by apply not_elem_of_empty.
  rewrite decide_True by set_solver.
  eexists. split; [reflexivity|]. cbn [remaining printed returned].
  split; [reflexivity|]. split; [reflexivity|]. split; [reflexivity|].
  discriminate.
Qed.

(** *** The stand-in for isoformat meets what the sweep asks of it *)

Lemma pretty_N_go_nonempty (x : N) (s : string) :
  s <> "" -> pretty_N_go x s <> "".
Proof.
  revert s. induction (N.lt_wf_0 x) as [x _ IH]; intros s Hs.
  destruct (N.eq_dec x 0%N) as [Hx|Hx]; [subst x; exact Hs|].
  rewrite pretty_N_go_step by lia.
  apply IH; [apply N.div_lt; lia | discriminate].
Qed.

Lemma iso_stub_nonempty (t : Z) : iso_stub t <> "".
Proof.
  assert (forall p : positive, pretty p <> "") as Hp.
  { intros p. unfold pretty, pretty_positive, pretty, pretty_N.
    rewrite decide_False by discriminate.
    rewrite pretty_N_go_step by lia. apply pretty_N_go_nonempty. discriminate. }
  unfold iso_stub. destruct t as [|p|p]; [discriminate | apply Hp | discriminate].
Qed.

Lemma iso_stub_inj (t t' : Z) : iso_stub t = iso_stub t' -> t = t'.
Proof. apply (inj pretty). Qed.

Lemma iso_stub_no_bar (t : Z) : PyStr.contains BAR (iso_stub t) = false.
Proof. apply pretty_Z_no_bar. Qed.

(** *** The theorems at concrete inputs *)

Lemma math_quiz_valid : valid_questions math_quiz.
Proof.
  split; [discriminate|]. constructor; [|constructor].
  split; [reflexivity|]. cbn. do 3 right. left. reflexivity.
Defined.

Lemma save_quiz_idempotent_witness :
  valid_questions math_quiz
  /\ exists id row,
       fst (save_quiz_repeatedly math_calls (map question_dict math_quiz) [])
         = repeat id (length math_calls)
       /\ rows_with_fingerprint
            (_questions_fingerprint (map question_dict math_quiz))
            (snd (save_quiz_repeatedly math_calls
                    (map question_dict math_quiz) [])) = [row]
       /\ q_id row = id.
Proof.
  split; [exact math_quiz_valid|].
  apply (save_quiz_idempotent math_quiz math_calls []).
  - exact math_quiz_valid.
  - reflexivity.
  - cbn. lia.
Defined.

Lemma title_backfill_witness :
  quiz_by_fingerprint (_questions_fingerprint (map question_dict math_quiz))
    [placeholder_quiz] = Some placeholder_quiz
  /\ fst (save_quiz_to_db_sync 5 (Some "Math") (map question_dict math_quiz)
            [placeholder_quiz]) = 1%Z
  /\ Forall2 (row_after 1 (Some "Math") true) [placeholder_quiz]
       (snd (save_quiz_to_db_sync 5 (Some "Math")
               (map question_dict math_quiz) [placeholder_quiz])).
Proof.
  assert (quiz_by_fingerprint
            (_questions_fingerprint (map question_dict math_quiz))
            [placeholder_quiz] = Some placeholder_quiz) as Hfound
    by (vm_compute; reflexivity).
  split; [exact Hfound|].
  destruct (title_backfill_on_dedupe 5 (Some "Math")
              (map question_dict math_quiz) [placeholder_quiz]
              placeholder_quiz Hfound) as (Hid & _ & Hfill & _).
  split; [exact Hid|]. apply Hfill.
  split; [exists "Math"; split; [reflexivity | discriminate]|].
  split; [right; right; reflexivity | discriminate].
Defined.


Lemma result_dedupe_window_boundary_witness :
  (forall t,
     r_created_at (attempt_row (resolve_attempt loads_stub 0 10 (Some 1) 3 5
                                  (JList []) JNull 15 [])) = Some t ->
     (15 * 1000000 < 20000000 - t)%Z)
  /\ exists row1 row2,
       attempt_table (resolve_attempt loads_stub 0 10 (Some 1) 3 5
                        (JList []) JNull 15 []) = [row1]
       /\ save_result_sync loads_stub iso_stub 20000000 20000010 (Some 1) 3 5
            (JList []) JNull 15 [row1]
          = (result_dict iso_stub row2 false, [row1; row2])
       /\ r_id row2 <> r_id row1.
Proof.
  assert (forall t,
            r_created_at (attempt_row (resolve_attempt loads_stub 0 10 (Some 1)
                                         3 5 (JList []) JNull 15 [])) = Some t ->
            (15 * 1000000 < 20000000 - t)%Z) as Hwin.
  { intros t H. cbn in H. injection H as <-. lia. }
  split; [exact Hwin|].
  destruct (result_dedupe_window_boundary loads_stub iso_stub 0 10 20000000
              20000010 (Some 1) 3 5 (JList []) JNull 15 [] ltac:(lia) Hwin)
    as (row1 & reused & db1 & row2 & Hres & H2 & Hne & _ & _ & _ & Hempty).
  specialize (Hempty eq_refl).
  exists row1, row2. rewrite Hres. cbn [attempt_table snd].
  assert (db1 = [row1]) as -> by (cbn in Hres; injection Hres as <- _ <-; reflexivity).
  split; [reflexivity|]. split; [exact H2 | exact Hne].
Defined.

Lemma three_rows_keys (r : Result) :
  In r three_rows -> exists u, make_user_key loads_stub (r_user r) = Ok u.
Proof.
  intros [<-|[<-|[<-|[]]]]; eexists; reflexivity.
Defined.

Lemma three_rows_ids : NoDup (map r_id three_rows).
Proof. apply (bool_decide_unpack _). vm_compute. exact I. Defined.

Lemma sweep_witness :
  NoDup (map r_id three_rows)
  /\ (forall r, In r three_rows ->
        exists u, make_user_key loads_stub (r_user r) = Ok u)
  /\ exists s,
       cleanup loads_stub iso_stub three_rows = Ok s
       /\ returned s = JNull
       /\ remaining s = [alice_row 1 0; alice_row 3 1000000].
Proof.
  split; [exact three_rows_ids|]. split; [exact three_rows_keys|].
  destruct (sweep_keeps_first_of_each_key loads_stub iso_stub iso_stub_inj
              iso_stub_no_bar iso_stub_nonempty three_rows three_rows_ids
              three_rows_keys) as (s & Hrun & Hret & Hrem & _).
  exists s. split; [exact Hrun|]. split; [exact Hret|].
  rewrite Hrem. vm_compute. reflexivity.
Defined.

Lemma graded_result_record_witness :
  Forall validated_quiz (quizzes math_world)
  /\ questions_file_validated loads_stub math_world
  /\ results (snd (submit_answers loads_stub iso_stub renders_all None 0 7
                     math_payload math_world)) = results math_world ++ [math_row]
  /\ r_score math_row = 1%Z /\ r_total math_row = 1%Z
  /\ exists questions_data qs detailed,
       load_questions loads_stub (p_quiz_id math_payload) math_world
         = inr questions_data
       /\ iter_items questions_data = Ok qs
       /\ r_answers math_row = JList detailed
       /\ (0 <= r_score math_row <= r_total math_row)%Z
       /\ (0 < r_total math_row)%Z
       /\ r_total math_row = Z.of_nat (length qs)
       /\ length detailed = length qs
       /\ r_score math_row = Z.of_nat (correct_count detailed).
Proof.
  assert (Forall validated_quiz (quizzes math_world)) as Hall.
  { constructor; [|constructor]. exists math_quiz.
    split; [exact math_quiz_valid | reflexivity]. }
  assert (questions_file_validated loads_stub math_world) as Hfile
    by (intros content H; discriminate H).
  assert (results (snd (submit_answers loads_stub iso_stub renders_all None 0 7
                          math_payload math_world))
          = results math_world ++ [math_row]) as Hrun
    by (vm_compute; reflexivity).
  split; [exact Hall|]. split; [exact Hfile|].
  split; [exact Hrun|]. split; [reflexivity|]. split; [reflexivity|].
  exact (graded_result_record loads_stub iso_stub renders_all None 0 7
           math_payload math_world math_row Hall Hfile Hrun).
Defined.

(** *** The further properties at concrete inputs *)

Lemma save_quiz_keeps_table_well_formed_witness :
  NoDup (map q_id [placeholder_quiz])
  /\ one_row_per_fingerprint [placeholder_quiz]
  /\ NoDup (map q_id (snd (save_quiz_to_db_sync 5 (Some "Other")
                             [JStr "another list"] [placeholder_quiz])))
  /\ In (fst (save_quiz_to_db_sync 5 (Some "Other") [JStr "another list"]
                [placeholder_quiz]))
       (map q_id (snd (save_quiz_to_db_sync 5 (Some "Other")
                         [JStr "another list"] [placeholder_quiz]))).
Proof.
  assert (NoDup (map q_id [placeholder_quiz])) as Hnd
    by (apply (bool_decide_unpack _); vm_compute; exact I).
  assert (one_row_per_fingerprint [placeholder_quiz]) as Hone.
  { intros fp. unfold rows_with_fingerprint.
    rewrite filter_cons, filter_nil. destruct (decide _); cbn; lia. }
  split; [exact Hnd|]. split; [exact Hone|].
  destruct (save_quiz_keeps_table_well_formed loads_stub iso_stub 5 (Some "Other")
              [JStr "another list"] [placeholder_quiz] Hnd Hone)
    as (H1 & _ & H3).
  split; [exact H1 | exact H3].
Defined.

Lemma key_order_variant_is_deduplicated_witness :
  Forall2 key_order_variant (map question_dict math_quiz) [reordered_question]
  /\ fst (save_quiz_to_db_sync 1 None [reordered_question]
            (snd (save_quiz_to_db_sync 0 (Some "Math")
                    (map question_dict math_quiz) []))) = 1%Z
  /\ length (snd (save_quiz_to_db_sync 1 None [reordered_question]
                    (snd (save_quiz_to_db_sync 0 (Some "Math")
                            (map question_dict math_quiz) [])))) = 1%nat.
Proof.
  assert (Forall2 key_order_variant (map question_dict math_quiz)
            [reordered_question]) as Hvar.
  { constructor; [|constructor].
    exists [("question", JStr "2+2?");
            ("options", JList [JStr "1"; JStr "2"; JStr "3"; JStr "4"]);
            ("correct_answer", JStr "4")],
           [("correct_answer", JStr "4");
            ("question", JStr "2+2?");
            ("options", JList [JStr "1"; JStr "2"; JStr "3"; JStr "4"])].
    split; [reflexivity|]. split; [reflexivity|].
    split; [apply (bool_decide_unpack _); vm_compute; exact I|].
    symmetry.
    exact (Permutation_cons_append
             [("question", JStr "2+2?");
              ("options", JList [JStr "1"; JStr "2"; JStr "3"; JStr "4"])]
             ("correct_answer", JStr "4")). }
  split; [exact Hvar|].
  destruct (key_order_variant_is_deduplicated 0 1 (Some "Math") None
              (map question_dict math_quiz) [reordered_question] [] Hvar)
    as [Hid Hlen].
  split; [rewrite Hid | rewrite Hlen]; reflexivity.
Defined.

Lemma reused_result_is_same_attempt_witness :
  field "note"
    (fst (save_result_sync loads_stub iso_stub 5000000 5000010 (Some 1) 3 5
            (JList []) JNull 15 [stored_attempt]))
  = JStr deduped_note
  /\ exists r,
       In r [stored_attempt]
       /\ snd (save_result_sync loads_stub iso_stub 5000000 5000010 (Some 1) 3 5
                 (JList []) JNull 15 [stored_attempt]) = [stored_attempt]
       /\ r_score r = 3%Z /\ r_total r = 5%Z.
Proof.
  assert (field "note"
            (fst (save_result_sync loads_stub iso_stub 5000000 5000010 (Some 1)
                    3 5 (JList []) JNull 15 [stored_attempt]))
          = JStr deduped_note) as Hnote by (vm_compute; reflexivity).
  split; [exact Hnote|].
  destruct (reused_result_is_same_attempt loads_stub iso_stub 5000000 5000010
              (Some 1) 3 5 (JList []) JNull 15 [stored_attempt] Hnote)
    as (r & Hin & _ & Hdb & _ & Hs & Ht & _).
  exists r. auto.
Defined.

Lemma inserted_result_is_latest_witness :
  (forall r t, In r three_rows -> r_created_at r = Some t -> (t < 2000000)%Z)
  /\ exists r,
       get_latest_result_sync iso_stub
         (snd (save_result_sync loads_stub iso_stub 2000000 2000000 (Some 1) 4 5
                 (JList []) JNull 15 three_rows))
       = Some (latest_dict iso_stub r)
       /\ r_score r = 4%Z /\ r_created_at r = Some 2000000%Z.
Proof.
  assert (forall r t, In r three_rows -> r_created_at r = Some t ->
                      (t < 2000000)%Z) as Hold.
  { intros r t [<-|[<-|[<-|[]]]] H; injection H as <-; lia. }
  split; [exact Hold|].
  destruct (inserted_result_is_latest loads_stub iso_stub 2000000 2000000
              (Some 1) 4 5 (JList []) JNull 15 three_rows Hold)
    as (r & _ & Hlatest & Hs & _ & _ & _ & Hc).
  { vm_compute. discriminate. }
  exists r. auto.
Defined.

Lemma unanswerable_question_never_correct_witness :
  exists entry,
    grade_question (JList [JStr "anything"]) 0
      (JDict [("question", JStr "Q?")]) = Ok (false, entry)
    /\ field "isCorrect" entry = JBool false.
Proof.
  apply (unanswerable_question_never_correct (JList [JStr "anything"]) 0
           [("question", JStr "Q?")]).
  left. reflexivity.
Defined.

Lemma matching_answers_get_full_score_witness :
  Forall2 matches_correct [" 4 "] math_quiz
  /\ Forall answerable math_quiz
  /\ exists detailed,
       grade (JList (map JStr [" 4 "])) (JList (map question_dict math_quiz))
       = Ok (1%Z, 1%Z, detailed)
       /\ correct_count detailed = 1%nat.
Proof.
  assert (Forall2 matches_correct [" 4 "] math_quiz) as HR
    by (constructor; [reflexivity | constructor]).
  assert (Forall answerable math_quiz) as Hok.
  { constructor; [|constructor]. split; vm_compute; discriminate. }
  split; [exact HR|]. split; [exact Hok|].
  exact (matching_answers_get_full_score [" 4 "] math_quiz HR Hok).
Defined.

Lemma delete_quiz_cascades_witness :
  NoDup (map q_id (quizzes math_world))
  /\ In 1%Z (map q_id (quizzes math_world))
  /\ quizzes (snd (delete_quiz None 1 math_world)) = []
  /\ get_questions loads_stub (Some 1%Z) (snd (delete_quiz None 1 math_world))
     = JSONResponse 404 (JDict [("message", JStr "Quiz not found")]).
Proof.
  assert (NoDup (map q_id (quizzes math_world))) as Hnd
    by (apply (bool_decide_unpack _); vm_compute; exact I).
  assert (In 1%Z (map q_id (quizzes math_world))) as Hin
    by (left; reflexivity).
  split; [exact Hnd|]. split; [exact Hin|].
  destruct (delete_quiz_cascades loads_stub iso_stub renders_all 1 math_world
              Hnd Hin)
    as (_ & Hq & _ & _ & _ & Hget & _).
  split; [rewrite Hq; reflexivity | exact Hget].
Defined.

Lemma delete_result_removes_one_witness :
  NoDup (map r_id (results results_world))
  /\ In 2%Z (map r_id (results results_world))
  /\ results (snd (delete_result_endpoint None 2 results_world))
     = [alice_row 1 0; alice_row 3 1000000].
Proof.
  assert (NoDup (map r_id (results results_world))) as Hnd
    by (apply (bool_decide_unpack _); vm_compute; exact I).
  assert (In 2%Z (map r_id (results results_world))) as Hin
    by (right; left; reflexivity).
  split; [exact Hnd|]. split; [exact Hin|].
  destruct (delete_result_removes_one 2 results_world Hnd Hin) as (_ & Hr & _).
  rewrite Hr. reflexivity.
Defined.

Lemma saved_quiz_is_served_witness :
  valid_questions math_quiz
  /\ NoDup (map q_id (quizzes empty_world))
  /\ exists id row,
       get_questions loads_stub (Some id)
         (snd (save_questions_and_db_async 0 1 "Math" math_quiz empty_world))
       = JSONResponse 200
           (JDict [("message", JStr "Quiz fetched"); ("quiz_id", JInt id);
                   ("questions", q_questions row)])
       /\ q_questions row = JList (map question_dict math_quiz).
Proof.
  assert (NoDup (map q_id (quizzes empty_world))) as Hnd by constructor.
  split; [exact math_quiz_valid|]. split; [exact Hnd|].
  destruct (saved_quiz_is_served loads_stub iso_stub 0 1 "Math" math_quiz
              empty_world
              math_quiz_valid Hnd) as (id & row & _ & Hget & _ & _ & _ & Hfresh).
  exists id, row. split; [exact Hget|]. apply Hfresh. reflexivity.
Defined.


Lemma generated_questions_are_normal_witness :
  normalize_generated model_output 10 = inr (map question_dict math_quiz)
  /\ exists Qs,
       map question_dict math_quiz = map question_dict Qs
       /\ Forall normal_question Qs
       /\ (Z.of_nat (length Qs) <= Z.max 1 10)%Z.
Proof.
  assert (normalize_generated model_output 10
          = inr (map question_dict math_quiz)) as Hrun
    by (vm_compute; reflexivity).
  split; [exact Hrun|].
  destruct (generated_questions_are_normal model_output 10
              (map question_dict math_quiz) Hrun) as (Qs & Hd & Hall & Hlen & _).
  exists Qs. auto.
Defined.

Lemma listing_shows_each_key_once_witness :
  list_results loads_stub iso_stub renders_all None 100 0 results_world
  = JSONResponse 200
      (JDict [("results",
               JList (map (listed_entry loads_stub iso_stub)
                        [alice_row 3 1000000; alice_row 2 0]))])
  /\ exists out,
       sublist out (results_page None 100 0 (results results_world))
       /\ NoDup (map (listing_key loads_stub iso_stub) out)
       /\ (length out <= 100)%nat.
Proof.
  assert (list_results loads_stub iso_stub renders_all None 100 0 results_world
          = JSONResponse 200
              (JDict [("results",
                       JList (map (listed_entry loads_stub iso_stub)
                                [alice_row 3 1000000; alice_row 2 0]))])) as Hrun
    by (vm_compute; reflexivity).
  split; [exact Hrun|].
  destruct (listing_shows_each_key_once loads_stub iso_stub renders_all None 100 0
              results_world _ Hrun) as (out & _ & Hsub & Hnd & _ & _ & Hlen).
  exists out. split; [exact Hsub|]. split; [exact Hnd|].
  apply Hlen. lia.
Defined.

Lemma sweep_twice_removes_nothing_witness :
  NoDup (map r_id three_rows)
  /\ (forall r, In r three_rows ->
        exists u, make_user_key loads_stub (r_user r) = Ok u)
  /\ exists s,
       cleanup loads_stub iso_stub three_rows = Ok s
       /\ cleanup loads_stub iso_stub (remaining s)
          = Ok {| returned := JNull;
                  printed := ["No duplicate results found."];
                  remaining := remaining s |}.
Proof.
  split; [exact three_rows_ids|]. split; [exact three_rows_keys|].
  exact (sweep_twice_removes_nothing loads_stub iso_stub iso_stub_inj
           iso_stub_no_bar iso_stub_nonempty three_rows three_rows_ids
           three_rows_keys).
Defined.


Lemma latest_result_after_submit_witness :
  (exists score total detailed,
     graded loads_stub math_payload math_world = inr (score, total, detailed))
  /\ exists latest,
       get_latest_result_sync iso_stub
         (results (snd (submit_answers loads_stub iso_stub renders_all None 0 7
                          math_payload math_world))) = Some latest
       /\ get_latest_result iso_stub renders_all None
            (snd (submit_answers loads_stub iso_stub renders_all None 0 7
                    math_payload math_world))
          = JSONResponse 200 latest.
Proof.
  assert (exists score total detailed,
            graded loads_stub math_payload math_world
            = inr (score, total, detailed)) as Hok
    by (do 3 eexists; vm_compute; reflexivity).
  split; [exact Hok|]. destruct Hok as (score & total & detailed & Hok).
  exact (proj1 (latest_result_after_submit loads_stub iso_stub renders_all 0 7
                  math_payload math_world score total detailed Hok)).
Defined.

Lemma three_rows_users (r : Result) : In r three_rows -> stored_user (r_user r).
Proof.
  intros [<-|[<-|[<-|[]]]]; right; eexists; reflexivity.
Defined.

Lemma swept_table_is_listed_in_full_witness :
  NoDup (map r_id three_rows)
  /\ (forall r, In r three_rows -> stored_user (r_user r))
  /\ (forall r, In r three_rows ->
        exists u, make_user_key loads_stub (r_user r) = Ok u)
  /\ exists s,
       cleanup loads_stub iso_stub three_rows = Ok s
       /\ listed_rows loads_stub iso_stub
            (results_page None 100 0 (remaining s)) ∅ []
          = Ok (results_page None 100 0 (remaining s))
       /\ list_results loads_stub iso_stub renders_all None 100 0
            {| quizzes := quizzes empty_world; results := remaining s;
               questions_file := questions_file empty_world |}
          = JSONResponse 200
              (JDict [("results",
                       JList (map (listed_entry loads_stub iso_stub)
                                (results_page None 100 0 (remaining s))))]).
Proof.
  split; [exact three_rows_ids|]. split; [exact three_rows_users|].
  split; [exact three_rows_keys|].
  exact (swept_table_is_listed_in_full loads_stub iso_stub renders_all
           iso_stub_inj iso_stub_no_bar iso_stub_nonempty three_rows None 100 0
           empty_world three_rows_ids three_rows_users three_rows_keys).
Defined.

Lemma listing_shows_newest_of_each_key_witness :
  list_results loads_stub iso_stub renders_all None 100 0 results_world
  = JSONResponse 200
      (JDict [("results",
               JList (map (listed_entry loads_stub iso_stub)
                        [alice_row 3 1000000; alice_row 2 0]))])
  /\ exists out,
       forall r r',
         In r out ->
         In r' (results_page None 100 0 (results results_world)) ->
         listing_key loads_stub iso_stub r' = listing_key loads_stub iso_stub r ->
         (r_created_at r' = r_created_at r -> (r_id r' <= r_id r)%Z).
Proof.
  assert (list_results loads_stub iso_stub renders_all None 100 0 results_world
          = JSONResponse 200
              (JDict [("results",
                       JList (map (listed_entry loads_stub iso_stub)
                                [alice_row 3 1000000; alice_row 2 0]))])) as Hrun
    by (vm_compute; reflexivity).
  split; [exact Hrun|].
  destruct (listing_shows_newest_of_each_key loads_stub iso_stub renders_all None
              100 0
              results_world _ Hrun) as (out & _ & Hnew).
  exists out. intros r r' Hr Hr' Ek. exact (proj2 (Hnew r r' Hr Hr' Ek)).
Defined.
